(** * Authorization gatekeeper of the workflow server (server/auth/gatekeeper.go)

    A shallow embedding of the request-authorization resolution algorithm:
    auth-mode selection, per-mode claim derivation, transient group grants
    around the policy-engine check, and rule-based service-account
    delegation for SSO identities.

    Go values are modelled as follows.
    - [string] is Go's [string]; [int] is a 64-bit integer carried in [Z].
    - A pointer that the code may find nil ([*types.Claims],
      [*servertypes.Clients]) is an [option]; dereferencing [None] panics.
    - [(T, error)] results are [result T]; a panic is a third outcome.
    - The policy engine, the logger and the cluster resolver are effects:
      they are threaded through an explicit [World]. *)

From Stdlib Require Import ZArith Ascii String List Sorting.Sorted Sorting.Permutation.
From stdpp Require Import base strings gmap list.

Local Open Scope string_scope.
Local Open Scope Z_scope.

Set Warnings "-clear-no-such-hyp".

(** ** Errors and outcomes *)

(** gRPC status codes used by the gatekeeper (google.golang.org/grpc/codes). *)
Inductive Code := Unauthenticated | PermissionDenied.

(** Go [error] values.  [StatusError] is [status.Error(code, desc)];
    [ErrorString] is [fmt.Errorf]/[errors.New]; [ClusterNotFound] is the
    failure of the cluster resolver. *)
Inductive error :=
| StatusError (c : Code) (desc : string)
| ErrorString (msg : string)
| ClusterNotFound (cluster : string).

Definition CodeName (c : Code) : string :=
  match c with
  | Unauthenticated => "Unauthenticated"
  | PermissionDenied => "PermissionDenied"
  end.

(** [err.Error()].  The text of [ClusterNotFound] is not fixed anywhere in
    the gatekeeper; it is only ever forwarded. *)
Definition Error (e : error) : string :=
  match e with
  | StatusError c desc => "rpc error: code = " +:+ CodeName c +:+ " desc = " +:+ desc
  | ErrorString msg => msg
  | ClusterNotFound c => "cluster not found: " +:+ c
  end.

Inductive result (A : Type) :=
| Ok (a : A)
| Err (e : error)
| Panic (msg : string).
Arguments Ok {A} a.
Arguments Err {A} e.
Arguments Panic {A} msg.

Definition is_Ok {A} (r : result A) : bool :=
  match r with Ok _ => true | _ => false end.

(** ** strconv.Atoi (64-bit [int])

    [precedence] relies on the value [strconv.Atoi] returns next to its
    error, so both of its paths are modelled: the fast path for short
    inputs and [ParseInt]/[ParseUint] for the others. *)

Inductive NumError := ErrSyntax | ErrRange.

Definition maxUint64 : Z := 18446744073709551615.
Definition maxInt64 : Z := 9223372036854775807.
Definition minInt64 : Z := -9223372036854775808.

Definition digit_of (c : ascii) : option Z :=
  let n := Z.of_N (N_of_ascii c) in
  if (48 <=? n) && (n <=? 57) then Some (n - 48) else None.

(** The digit loop of [ParseUint(s, 10, 64)]: a byte that is not a decimal
    digit is a syntax error; overflow returns at once with the maximal
    value, before the remaining bytes are looked at. *)
Fixpoint ParseUint_loop (s : string) (n : Z) : Z * option NumError :=
  match s with
  | EmptyString => (n, None)
  | String c r =>
      match digit_of c with
      | None => (0, Some ErrSyntax)
      | Some d =>
          if maxUint64 / 10 + 1 <=? n then (maxUint64, Some ErrRange)
          else
            let n1 := n * 10 + d in
            if maxUint64 <? n1 then (maxUint64, Some ErrRange)
            else ParseUint_loop r n1
      end
  end.

Definition ParseUint (s : string) : Z * option NumError :=
  match s with
  | EmptyString => (0, Some ErrSyntax)
  | _ => ParseUint_loop s 0
  end.

Definition is_sign (c : ascii) : bool :=
  (Ascii.eqb c "+"%char) || (Ascii.eqb c "-"%char).

Definition ParseInt (s : string) : Z * option NumError :=
  match s with
  | EmptyString => (0, Some ErrSyntax)
  | String c r =>
      let neg := Ascii.eqb c "-"%char in
      let body := if is_sign c then r else s in
      match ParseUint body with
      | (_, Some ErrSyntax) => (0, Some ErrSyntax)
      | (un, _) =>
          let cutoff := 9223372036854775808 in
          if negb neg && (cutoff <=? un) then (cutoff - 1, Some ErrRange)
          else if neg && (cutoff <? un) then (- cutoff, Some ErrRange)
          else (if neg then - un else un, None)
      end
  end.

(** The fast path of [Atoi]: plain accumulation, no overflow possible
    below 19 bytes. *)
Fixpoint Atoi_fast_loop (s : string) (n : Z) : Z * option NumError :=
  match s with
  | EmptyString => (n, None)
  | String c r =>
      match digit_of c with
      | None => (0, Some ErrSyntax)
      | Some d => Atoi_fast_loop r (n * 10 + d)
      end
  end.

Definition Atoi (s : string) : Z * option NumError :=
  let sLen := String.length s in
  if ((0 <? sLen) && (sLen <? 19))%nat then
    match s with
    | EmptyString => (0, Some ErrSyntax)
    | String c r =>
        let body := if is_sign c then r else s in
        match body with
        | EmptyString => (0, Some ErrSyntax)
        | _ =>
            match Atoi_fast_loop body 0 with
            | (n, None) => (if Ascii.eqb c "-"%char then - n else n, None)
            | bad => bad
            end
        end
    end
  else ParseInt s.


(** ** Data model *)

(** [auth.Mode]: the closed set of authentication modes. *)
Inductive Mode := Client | Server | SSO.

Module types.
(** [types.Claims]: the identity attributes of one request. *)
Record Claims := {
  Subject : string;
  Email : string;
  Groups : list string;
  ServiceAccountName : string;
}.
End types.

Module rest.
(** The part of [rest.Config] that claim derivation looks at. *)
Record Config := {
  Username : string;
  BearerToken : string;
}.
End rest.

Module servertypes.
(** [servertypes.Req]: the request descriptor. *)
Record Req := {
  Cluster : string;
  Namespace : string;
  Act : string;
  Resource : string;
}.

(** [servertypes.Clients]: a per-cluster client bundle.  Each client is an
    interface value: an opaque handle, or [None] for the nil interface. *)
Record Clients := {
  RESTConfig : rest.Config;
  Dynamic : option string;
  Workflow : option string;
  Sensor : option string;
  EventSource : option string;
  Kubernetes : option string;
}.

(** [servertypes.Profiles]: a Go map from cluster name to client bundle
    (the tests build it as a map literal keyed by the primary cluster). *)
Abbreviation Profiles := (gmap string Clients).
End servertypes.

Module corev1.
Record ServiceAccount := {
  Name : string;
  Namespace : string;
  Annotations : gmap string string;
  (** names of the bound secrets, [Secrets[i].Name] *)
  Secrets : list string;
}.

Record Secret := {
  Data : gmap string string;
}.
End corev1.

(** The result of [jsonutil.Jsonify] on claims: a JSON object whose members
    are strings or arrays of strings. *)
Inductive JsonValue :=
| JString (s : string)
| JStrings (l : list string).

Abbreviation Json := (list (string * JsonValue)).

(** [http.Cookie], as far as the extractor reads it. *)
Record Cookie := { Cookie_Name : string; Cookie_Value : string }.

(** ** Request context *)

(** [auth.ContextKey] and its six constants. *)
Inductive ContextKey :=
| DynamicKey | WfKey | SensorKey | EventSourceKey | KubeKey | ClaimsKey.

Definition ContextKey_eqb (a b : ContextKey) : bool :=
  match a, b with
  | DynamicKey, DynamicKey | WfKey, WfKey | SensorKey, SensorKey
  | EventSourceKey, EventSourceKey | KubeKey, KubeKey | ClaimsKey, ClaimsKey => true
  | _, _ => false
  end.

(** An [interface{}] value stored in a context: nil, a client of one of the
    five client interfaces, or a (possibly nil) [*types.Claims]. *)
Inductive Any :=
| AnyNil
| AnyDynamic (h : string)
| AnyWorkflow (h : string)
| AnySensor (h : string)
| AnyEventSource (h : string)
| AnyKubernetes (h : string)
| AnyClaims (p : option types.Claims).

Module context.
(** [context.Context] as the gatekeeper uses it: the incoming gRPC
    metadata, the outcome of [getOperationID(ctx)] and the attached
    values (most recent first). *)
Record Context := {
  md : gmap string (list string);
  operationID : result string;
  values : list (ContextKey * Any);
}.

(** [context.WithValue]. *)
Definition WithValue (ctx : Context) (k : ContextKey) (v : Any) : Context :=
  {| md := md ctx; operationID := operationID ctx; values := (k, v) :: values ctx |}.

Fixpoint lookup_value (vs : list (ContextKey * Any)) (k : ContextKey) : Any :=
  match vs with
  | [] => AnyNil
  | (k', v) :: rest => if ContextKey_eqb k' k then v else lookup_value rest k
  end.

(** [ctx.Value(key)]: the nil interface when the key was never attached. *)
Definition Value (ctx : Context) (k : ContextKey) : Any :=
  lookup_value (values ctx) k.
End context.

(** [metadata.MD.Get]: the values of a (lower-case) key, none when absent. *)
Definition MD_Get (md : gmap string (list string)) (k : string) : list string :=
  default [] (md !! k).

(** The request passed to the gatekeeper: a [*servertypes.Req], or any
    other message, of which [servertypes.Cluster(req)] and
    [servertypes.Namespace(req)] are recorded. *)
Inductive request :=
| IsReq (m : servertypes.Req)
| NotReq (cluster namespace : string).

(** ** Collaborators *)

(** [sso.Interface]. *)
Record sso_Interface := {
  Authorize : string -> result (option types.Claims);
  IsRBACEnabled : bool;
}.

(** [cache.ResourceCache]: the two listers. *)
Record ResourceCache := {
  (** [ServiceAccountLister.ServiceAccounts(ns).List(labels.Everything())] *)
  ListServiceAccounts : string -> result (list corev1.ServiceAccount);
  (** [SecretLister.Secrets(ns).Get(name)] *)
  GetSecret : string -> string -> result corev1.Secret;
}.

Abbreviation edge := (string * string)%type.

(** [casbin.IEnforcer]: the decision procedure over the current grouping
    edges, and the errors its persistence layer reports for an added or
    removed edge ([None]: the call succeeds). *)
Record IEnforcer := {
  enf_Enforce : gset edge -> string -> string -> string -> bool * option error;
  enf_AddError : string -> string -> option error;
  enf_RemoveError : string -> string -> option error;
}.

(** Functions and constants of other packages that the gatekeeper calls. *)
Record Deps := {
  (** [common.PrimaryCluster()] *)
  PrimaryCluster : string;
  (** [common.AnnotationKeyRBACRule] *)
  AnnotationKeyRBACRule : string;
  (** [common.AnnotationKeyRBACRulePrecedence] *)
  AnnotationKeyRBACRulePrecedence : string;
  (** [os.Getenv] *)
  Getenv : string -> string;
  (** the [%q] verb of [fmt] ([strconv.Quote]) *)
  Quote : string -> string;
  (** [http.Request.Cookies] on a request with one [Cookie] header line *)
  readCookies : string -> list Cookie;
  (** [sort.Slice] on a slice of service accounts *)
  sort_Slice : (corev1.ServiceAccount -> corev1.ServiceAccount -> bool) ->
               list corev1.ServiceAccount -> list corev1.ServiceAccount;
  (** [serviceaccount.ClaimSetFor], its error dropped as every caller does *)
  ClaimSetFor : rest.Config -> option types.Claims;
  (** [kubeconfig.GetRestConfig] *)
  GetRestConfig : rest.Config -> string -> result rest.Config;
  (** [servertypes.NewProfile] *)
  NewProfile : rest.Config -> result servertypes.Clients;
  (** [jsonutil.Jsonify] *)
  Jsonify : option types.Claims -> result Json;
  (** [argoexpr.EvalBool] *)
  EvalBool : string -> Json -> result bool;
  (** [splitOp] *)
  splitOp : string -> string * string;
}.

(** The [gatekeeper] struct.  [Modes] stands for [s.Modes.GetMode]. *)
Record gatekeeper := {
  Modes : string -> Mode * bool;
  clients : servertypes.Profiles;
  ssoIf : sso_Interface;
  namespace : string;
  ssoNamespace : string;
  namespaced : bool;
  cache : ResourceCache;
  enforcer : IEnforcer;
}.

(** ** The world the gatekeeper acts on *)

Inductive Level := ErrorLevel | InfoLevel.

(** One logrus entry. *)
Record LogEntry := {
  log_Level : Level;
  log_Message : string;
  log_Fields : list (string * string);
  log_Error : option error;
}.

(** Calls made to the policy engine and the cluster resolver, in order. *)
Inductive Event :=
| EvEnforce (sub obj act : string) (r : bool * option error)
| EvAddGroupingPolicy (sub group : string)
| EvRemoveGroupingPolicy (sub group : string)
| EvFind (cluster : string).

Record World := {
  (** the grouping edges held by the policy engine *)
  policy : gset edge;
  logs : list LogEntry;
  trace : list Event;
}.

(** ** Effectful computations *)

Definition M (A : Type) : Type := World -> World * result A.

Definition ret {A} (a : A) : M A := fun w => (w, Ok a).
Definition fail {A} (e : error) : M A := fun w => (w, Err e).
Definition panic {A} (msg : string) : M A := fun w => (w, Panic msg).

Definition bind {A B} (m : M A) (f : A -> M B) : M B :=
  fun w =>
    match m w with
    | (w', Ok a) => f a w'
    | (w', Err e) => (w', Err e)
    | (w', Panic p) => (w', Panic p)
    end.

Notation "x <- m ;; k" := (bind m (fun x => k))
  (at level 100, m at next level, right associativity).
Notation "m ;;; k" := (bind m (fun _ => k))
  (at level 100, right associativity).

(** A pure [(T, error)] result. *)
Definition lift {A} (r : result A) : M A := fun w => (w, r).

(** Dereference of a pointer. *)
Definition deref {A} (p : option A) : M A :=
  match p with
  | Some a => ret a
  | None => panic "invalid memory address or nil pointer dereference"
  end.

(** [if err != nil { handler }]: run [m]; on an error, pass it to [h]. *)
Definition on_error {A} (m : M A) (h : error -> M A) : M A :=
  fun w =>
    match m w with
    | (w', Err e) => h e w'
    | other => other
    end.

(** [defer cleanup(); body]: the cleanup runs after the body on every way
    out of it and cannot change the returned values. *)
Definition defer {A} (cleanup : M unit) (body : M A) : M A :=
  fun w =>
    let (w1, r) := body w in
    match cleanup w1 with
    | (w2, Panic p) => (w2, Panic p)
    | (w2, _) => (w2, r)
    end.

Definition log (l : Level) (msg : string) (fields : list (string * string))
    (e : option error) : M unit :=
  fun w =>
    ({| policy := policy w;
        logs := (logs w ++ [{| log_Level := l; log_Message := msg;
                              log_Fields := fields; log_Error := e |}])%list;
        trace := trace w |}, Ok tt).

Definition emit (ev : Event) : M unit :=
  fun w => ({| policy := policy w; logs := logs w; trace := trace w ++ [ev] |}, Ok tt).

Definition bool_string (b : bool) : string := if b then "true" else "false".

(** ** The gatekeeper's operations *)

Section Gatekeeper.
Variable d : Deps.
Variable s : gatekeeper.

(** *** The policy engine and the cluster resolver, as effects *)

(** [s.enforcer.Enforce(sub, obj, act)], decided over the edges the
    engine holds at the time of the call. *)
Definition Enforce (sub obj act : string) : M (bool * option error) :=
  fun w =>
    let r := enf_Enforce (enforcer s) (policy w) sub obj act in
    ({| policy := policy w; logs := logs w;
        trace := trace w ++ [EvEnforce sub obj act r] |}, Ok r).

(** [s.enforcer.AddGroupingPolicy(sub, group)]: a set insertion, unless
    the engine reports an error, which leaves the edges as they are. *)
Definition AddGroupingPolicy (sub group : string) : M (bool * option error) :=
  fun w =>
    match enf_AddError (enforcer s) sub group with
    | Some e =>
        ({| policy := policy w; logs := logs w;
            trace := trace w ++ [EvAddGroupingPolicy sub group] |}, Ok (false, Some e))
    | None =>
        ({| policy := {[ (sub, group) ]} ∪ policy w; logs := logs w;
            trace := trace w ++ [EvAddGroupingPolicy sub group] |},
         Ok (bool_decide ((sub, group) ∉ policy w), None))
    end.

(** [s.enforcer.RemoveGroupingPolicy(sub, group)]: a set removal, unless
    the engine reports an error. *)
Definition RemoveGroupingPolicy (sub group : string) : M (bool * option error) :=
  fun w =>
    match enf_RemoveError (enforcer s) sub group with
    | Some e =>
        ({| policy := policy w; logs := logs w;
            trace := trace w ++ [EvRemoveGroupingPolicy sub group] |}, Ok (false, Some e))
    | None =>
        ({| policy := policy w ∖ {[ (sub, group) ]}; logs := logs w;
            trace := trace w ++ [EvRemoveGroupingPolicy sub group] |},
         Ok (bool_decide ((sub, group) ∈ policy w), None))
    end.

(** Modelled from the spec: [servertypes.Profiles.Primary] is not among
    the sources; the primary cluster's bundle is the entry of the map
    under [common.PrimaryCluster()] (a nil pointer when it has none). *)
Definition Primary (p : servertypes.Profiles) : option servertypes.Clients :=
  p !! PrimaryCluster d.

(** Modelled from the spec: [servertypes.Profiles.Find] is not among the
    sources; it maps a cluster identifier to its preconfigured bundle,
    and an unknown identifier is a [ClusterNotFound] failure. *)
Definition Find (p : servertypes.Profiles) (cluster : string) : M servertypes.Clients :=
  emit (EvFind cluster) ;;;
  match p !! cluster with
  | Some c => ret c
  | None => fail (ClusterNotFound cluster)
  end.

(** *** Credential extraction and mode selection *)

Definition getAuthHeaders (md : gmap string (list string)) : list string :=
  match MD_Get md "authorization" with
  | t :: _ => [t]
  | [] =>
      flat_map
        (fun t =>
           map Cookie_Value
             (List.filter (fun c => String.eqb (Cookie_Name c) "authorization")
                (readCookies d t)))
        (MD_Get md "cookie")
  end.

(** The token loop of [getClients]: the first token for which
    [s.Modes.GetMode] answers [valid]. *)
Fixpoint selectMode (authorizations : list string) : option (Mode * string) :=
  match authorizations with
  | [] => None
  | token :: rest =>
      let (mode, valid) := Modes s token in
      if valid then Some (mode, token) else selectMode rest
  end.

(** *** Transient grants *)

Definition groupName (cluster g : string) : string :=
  "group:" +:+ cluster +:+ ":" +:+ g.

Fixpoint removePolicies_loop (cluster sub : string) (groups : list string) : M unit :=
  match groups with
  | [] => ret tt
  | g :: rest =>
      let group := groupName cluster g in
      r <- RemoveGroupingPolicy sub group ;;
      match r.2 with
      | Some _ =>
          fail (ErrorString ("failed to remove policy for group " +:+ Quote d group))
      | None => removePolicies_loop cluster sub rest
      end
  end.

Definition removePolicies (claims : option types.Claims) (cluster sub : string) : M unit :=
  c <- deref claims ;;
  removePolicies_loop cluster sub (types.Groups c).

Fixpoint addPolicies_loop (cluster sub : string) (groups : list string) : M unit :=
  match groups with
  | [] => ret tt
  | g :: rest =>
      let group := groupName cluster g in
      r <- AddGroupingPolicy sub group ;;
      match r.2 with
      | Some _ =>
          fail (ErrorString ("failed to add policy for group " +:+ Quote d group))
      | None => addPolicies_loop cluster sub rest
      end
  end.

Definition addPolicies (claims : option types.Claims) (cluster sub : string) : M unit :=
  c <- deref claims ;;
  addPolicies_loop cluster sub (types.Groups c).

(** *** Service-account selection *)

Definition precedence (serviceAccount : corev1.ServiceAccount) : Z :=
  (Atoi (default "" (corev1.Annotations serviceAccount
                       !! AnnotationKeyRBACRulePrecedence d))).1.

Definition hasRule (serviceAccount : corev1.ServiceAccount) : bool :=
  bool_decide (is_Some (corev1.Annotations serviceAccount !! AnnotationKeyRBACRule d)).

(** The second loop of [getServiceAccount], over the sorted accounts. *)
Fixpoint getServiceAccount_loop (claims : option types.Claims)
    (serviceAccounts : list corev1.ServiceAccount) : result corev1.ServiceAccount :=
  match serviceAccounts with
  | [] => Err (ErrorString "no service account rule matches")
  | serviceAccount :: rest =>
      let rule := default "" (corev1.Annotations serviceAccount !! AnnotationKeyRBACRule d) in
      match Jsonify d claims with
      | Err e => Err (ErrorString ("failed to marshall claims: " +:+ Error e))
      | Panic p => Panic p
      | Ok v =>
          match EvalBool d rule v with
          | Err e => Err (ErrorString ("failed to evaluate rule: " +:+ Error e))
          | Panic p => Panic p
          | Ok allow =>
              if allow then Ok serviceAccount
              else getServiceAccount_loop claims rest
          end
      end
  end.

Definition getServiceAccount (claims : option types.Claims) (namespace : string)
    : result corev1.ServiceAccount :=
  match ListServiceAccounts (cache s) namespace with
  | Err e => Err (ErrorString ("failed to list SSO RBAC service accounts: " +:+ Error e))
  | Panic p => Panic p
  | Ok list =>
      let serviceAccounts := List.filter hasRule list in
      let serviceAccounts :=
        sort_Slice d (fun a b => precedence b <? precedence a) serviceAccounts in
      getServiceAccount_loop claims serviceAccounts
  end.

Definition canDelegateRBACToRequestNamespace (namespace : string) : bool :=
  if namespaced s
     || negb (String.eqb (Getenv d "SSO_DELEGATE_RBAC_TO_NAMESPACE") "true")
  then false
  else negb (Nat.eqb (String.length namespace) 0)
       && negb (String.eqb (ssoNamespace s) namespace).

Definition authorizationForServiceAccount (serviceAccount : corev1.ServiceAccount)
    : result string :=
  match corev1.Secrets serviceAccount with
  | [] =>
      Err (ErrorString ("expected at least one secret for SSO RBAC service account: "
                        +:+ corev1.Name serviceAccount))
  | name :: _ =>
      match GetSecret (cache s) (corev1.Namespace serviceAccount) name with
      | Err e => Err (ErrorString ("failed to get service account secret: " +:+ Error e))
      | Panic p => Panic p
      | Ok secret => Ok ("Bearer " +:+ default "" (corev1.Data secret !! "token"))
      end
  end.

Definition clientForAuthorization (authorization : string) : M servertypes.Clients :=
  primary <- deref (Primary (clients s)) ;;
  restConfig <- lift (GetRestConfig d (servertypes.RESTConfig primary) authorization) ;;
  lift (NewProfile d restConfig).

(** [claims.ServiceAccountName = name], through the pointer. *)
Definition setServiceAccountName (c : types.Claims) (name : string) : types.Claims :=
  {| types.Subject := types.Subject c; types.Email := types.Email c;
     types.Groups := types.Groups c; types.ServiceAccountName := name |}.

(** Returns the clients together with the claims object as the
    assignment through the pointer leaves it. *)
Definition getClientsForServiceAccount (claims : option types.Claims)
    (serviceAccount : corev1.ServiceAccount)
    : M (servertypes.Clients * option types.Claims) :=
  authorization <- lift (authorizationForServiceAccount serviceAccount) ;;
  clients <- clientForAuthorization authorization ;;
  c <- deref claims ;;
  ret (clients, Some (setServiceAccountName c (corev1.Name serviceAccount))).

(** Lines 365-380 of [rbacAuthorization]: the delegate, and the two
    flags [ssoDelegationAllowed] and [ssoDelegated]. *)
Definition selectDelegate (claims : option types.Claims) (namespace : string)
    (loginAccount : corev1.ServiceAccount)
    : M (corev1.ServiceAccount * bool * bool) :=
  if canDelegateRBACToRequestNamespace namespace then
    match getServiceAccount claims namespace with
    | Err e =>
        log InfoLevel "Error while SSO Delegation" [] (Some e) ;;;
        ret (loginAccount, true, false)
    | Panic p => panic p
    | Ok namespaceAccount =>
        if precedence loginAccount <? precedence namespaceAccount
        then ret (namespaceAccount, true, true)
        else ret (loginAccount, true, false)
    end
  else ret (loginAccount, false, false).

Definition rbacAuthorization (claims : option types.Claims) (namespace : string)
    : M (servertypes.Clients * option types.Claims) :=
  loginAccount <- lift (getServiceAccount claims (ssoNamespace s)) ;;
  sel <- selectDelegate claims namespace loginAccount ;;
  let '(delegatedAccount, ssoDelegationAllowed, ssoDelegated) := sel in
  c <- deref claims ;;
  log InfoLevel "selected SSO RBAC service account for user"
    [("serviceAccount", corev1.Name delegatedAccount);
     ("loginServiceAccount", corev1.Name loginAccount);
     ("subject", types.Subject c);
     ("email", types.Email c);
     ("ssoDelegationAllowed", bool_string ssoDelegationAllowed);
     ("ssoDelegated", bool_string ssoDelegated)] None ;;;
  getClientsForServiceAccount claims delegatedAccount.

Definition addClaimsLogFields (c : types.Claims) (fields : list (string * string))
    : list (string * string) :=
  let fields := (fields ++ [("subject", types.Subject c)])%list in
  if String.eqb (types.Email c) "" then fields
  else (fields ++ [("email", types.Email c)])%list.

(** *** The orchestrator *)

(** The closure [allowed] of [getClients], for the object [obj] and the
    action [act] of the request. *)
Definition allowed (obj act sub : string) : M unit :=
  r <- Enforce sub obj act ;;
  match r with
  | (_, Some err) => fail err
  | (false, None) =>
      fail (StatusError PermissionDenied
              ("access denied to " +:+ Quote d sub +:+ " for " +:+ Quote d obj
               +:+ " " +:+ Quote d act))
  | (true, None) => ret tt
  end.

(** Lines 197-210: the request descriptor, given or derived. *)
Definition requestDescriptor (ctx : context.Context) (req : request)
    : M servertypes.Req :=
  match req with
  | IsReq m => ret m
  | NotReq cluster namespace =>
      method <- lift (context.operationID ctx) ;;
      let (act, resource) := splitOp d method in
      ret {| servertypes.Cluster := cluster; servertypes.Namespace := namespace;
             servertypes.Act := act; servertypes.Resource := resource |}
  end.

(** Lines 247-257, the SSO branch: the profile that serves the caller,
    chosen by the selector when RBAC is enabled, and the claims object as
    the selector leaves it. *)
Definition ssoProfile (claims : option types.Claims) (namespace : string)
    : M (option servertypes.Clients * option types.Claims) :=
  if IsRBACEnabled (ssoIf s) then
    on_error
      (r <- rbacAuthorization claims namespace ;;
       ret (Some r.1, r.2))
      (fun err =>
         log ErrorLevel "failed to perform RBAC authorization" [] (Some err) ;;;
         fail (StatusError PermissionDenied "not allowed"))
  else
    c <- deref claims ;;
    log InfoLevel "using the default service account for user"
      (addClaimsLogFields c []) None ;;;
    ret (Primary (clients s), claims).

(** Lines 259-279, the SSO branch: the group edges are added, the removal
    is deferred, the check is made and the cluster resolved. *)
Definition enforceWithGrants (profile : option servertypes.Clients)
    (claims : option types.Claims) (msg : servertypes.Req) (obj : string)
    : M (option servertypes.Clients * option types.Claims) :=
  c <- deref claims ;;
  let sub := "user:" +:+ PrimaryCluster d +:+ ":" +:+ types.Subject c in
  addPolicies claims (servertypes.Cluster msg) sub ;;;
  defer
    (on_error (removePolicies claims (servertypes.Cluster msg) sub)
       (fun err =>
          log ErrorLevel "failed to remove policy" [("sub", sub)] (Some err)))
    (allowed obj (servertypes.Act msg) sub ;;;
     if String.eqb (servertypes.Cluster msg) (PrimaryCluster d)
     then ret (profile, claims)
     else
       p <- Find (clients s) (servertypes.Cluster msg) ;;
       ret (Some p, claims)).

(** Lines 197-282 of [getClients]: what follows the selection of the mode
    and of its token.  [Mode] has three constructors, so the [default]
    branch of the [switch] (a panic) has no counterpart. *)
Definition resolve (mode : Mode) (authorization : string)
    (ctx : context.Context) (req : request)
    : M (option servertypes.Clients * option types.Claims) :=
  msg <- requestDescriptor ctx req ;;
  let obj := servertypes.Cluster msg +:+ ":" +:+ servertypes.Resource msg
             +:+ ":" +:+ servertypes.Namespace msg in
  match mode with
  | Client =>
      clients <- on_error (clientForAuthorization authorization)
                   (fun err => fail (StatusError Unauthenticated (Error err))) ;;
      let claims := ClaimSetFor d (servertypes.RESTConfig clients) in
      ret (Some clients, claims)
  | Server =>
      primary <- deref (Primary (clients s)) ;;
      let claims := ClaimSetFor d (servertypes.RESTConfig primary) in
      let sub := "serviceaccount:" +:+ PrimaryCluster d +:+ ":" +:+ namespace s
                 +:+ ":" +:+ "argo-server" in
      allowed obj (servertypes.Act msg) sub ;;;
      p <- Find (clients s) (servertypes.Cluster msg) ;;
      ret (Some p, claims)
  | SSO =>
      claims <- on_error (lift (Authorize (ssoIf s) authorization))
                  (fun err => fail (StatusError Unauthenticated (Error err))) ;;
      cc <- ssoProfile claims (servertypes.Namespace msg) ;;
      enforceWithGrants cc.1 cc.2 msg obj
  end.

(** Lines 175-196 of [getClients]: the candidate tokens, the empty-string
    sentinel, the token loop; then the rest of the function. *)
Definition getClients (ctx : context.Context) (req : request)
    : M (option servertypes.Clients * option types.Claims) :=
  let authorizations := getAuthHeaders (context.md ctx) in
  let authorizations :=
    if Nat.eqb (length authorizations) 0 then (authorizations ++ [""])%list
    else authorizations in
  match selectMode authorizations with
  | None => fail (StatusError Unauthenticated "token not valid for running mode")
  | Some (mode, authorization) => resolve mode authorization ctx req
  end.

Definition anyOf (mk : string -> Any) (i : option string) : Any :=
  match i with
  | Some h => mk h
  | None => AnyNil
  end.

(** The method [Context] of the gatekeeper. *)
Definition gatekeeper_Context (ctx : context.Context) (req : request)
    : M context.Context :=
  r <- getClients ctx req ;;
  let (clients, claims) := r in
  c <- deref clients ;;
  let ctx := context.WithValue ctx DynamicKey (anyOf AnyDynamic (servertypes.Dynamic c)) in
  let ctx := context.WithValue ctx WfKey (anyOf AnyWorkflow (servertypes.Workflow c)) in
  let ctx := context.WithValue ctx EventSourceKey
               (anyOf AnyEventSource (servertypes.EventSource c)) in
  let ctx := context.WithValue ctx SensorKey (anyOf AnySensor (servertypes.Sensor c)) in
  let ctx := context.WithValue ctx KubeKey (anyOf AnyKubernetes (servertypes.Kubernetes c)) in
  let ctx := context.WithValue ctx ClaimsKey (AnyClaims claims) in
  ret ctx.

(** [UnaryServerInterceptor], applied to a handler: the context is resolved
    once, and the handler runs on the resolved context. *)
Definition UnaryServerInterceptor {R : Type} (ctx : context.Context) (req : request)
    (handler : context.Context -> request -> M R) : M R :=
  ctx <- gatekeeper_Context ctx req ;;
  handler ctx req.

End Gatekeeper.

(** *** Context accessors

    A single-value type assertion [x.(T)] panics unless [x] holds a [T];
    the two-value form [v, _ := x.(T)] yields the zero value instead. *)

Definition GetDynamicClient (ctx : context.Context) : result string :=
  match context.Value ctx DynamicKey with
  | AnyDynamic h => Ok h
  | _ => Panic "interface conversion"
  end.

Definition GetWfClient (ctx : context.Context) : result string :=
  match context.Value ctx WfKey with
  | AnyWorkflow h => Ok h
  | _ => Panic "interface conversion"
  end.

Definition GetEventSourceClient (ctx : context.Context) : result string :=
  match context.Value ctx EventSourceKey with
  | AnyEventSource h => Ok h
  | _ => Panic "interface conversion"
  end.

Definition GetSensorClient (ctx : context.Context) : result string :=
  match context.Value ctx SensorKey with
  | AnySensor h => Ok h
  | _ => Panic "interface conversion"
  end.

Definition GetKubeClient (ctx : context.Context) : result string :=
  match context.Value ctx KubeKey with
  | AnyKubernetes h => Ok h
  | _ => Panic "interface conversion"
  end.

Definition GetClaims (ctx : context.Context) : result (option types.Claims) :=
  match context.Value ctx ClaimsKey with
  | AnyClaims config => Ok config
  | _ => Ok None
  end.

(** ** Specification-level definitions *)

(** The values of the cookies named "authorization", over all cookie
    lines of the metadata. *)
Definition cookieTokens (d : Deps) (md : gmap string (list string)) : list string :=
  flat_map
    (fun t =>
       map Cookie_Value
         (List.filter (fun c => String.eqb (Cookie_Name c) "authorization")
            (readCookies d t)))
    (MD_Get md "cookie").

(** The candidate tokens as the specification words them: the header value
    first; if absent, all cookie values named "authorization"; if none, a
    single empty-string sentinel. *)
Definition candidateTokens (d : Deps) (md : gmap string (list string)) : list string :=
  match MD_Get md "authorization" with
  | header :: _ => [header]
  | [] =>
      match cookieTokens d md with
      | [] => [""]
      | cookies => cookies
      end
  end.

(** The contract of [sort.Slice] for a comparison by a key, descending: the
    result is a rearrangement of the slice in which keys never increase.
    The order of equal keys is left open, as the sort is not stable. *)
Definition SortSliceSpec (d : Deps) : Prop :=
  forall (key : corev1.ServiceAccount -> Z) (l : list corev1.ServiceAccount),
    Permutation (sort_Slice d (fun a b => key b <? key a) l) l
    /\ StronglySorted (fun a b => key b <= key a)
         (sort_Slice d (fun a b => key b <? key a) l).

(** The rule annotation of an account. *)
Definition ruleOf (d : Deps) (sa : corev1.ServiceAccount) : string :=
  default "" (corev1.Annotations sa !! AnnotationKeyRBACRule d).

(** Whether the predicate of an account evaluates to true on the
    serialized claims. *)
Definition ruleHolds (d : Deps) (claims : option types.Claims)
    (sa : corev1.ServiceAccount) : bool :=
  match Jsonify d claims with
  | Ok v => match EvalBool d (ruleOf d sa) v with Ok true => true | _ => false end
  | _ => false
  end.

(** The selector as the specification words it: list, discard the accounts
    without a rule, sort by precedence descending, return the first account
    whose predicate is true; fail when there is none or the listing fails. *)
Definition selectorSpec (d : Deps) (s : gatekeeper) (claims : option types.Claims)
    (namespace : string) : option corev1.ServiceAccount :=
  match ListServiceAccounts (cache s) namespace with
  | Ok list =>
      List.find (ruleHolds d claims)
        (sort_Slice d (fun a b => precedence d b <? precedence d a)
           (List.filter (hasRule d) list))
  | _ => None
  end.

(** Delegation as the specification words it: single-namespace mode off,
    the toggle enabled, the requested namespace different from the
    identity-home namespace. *)
Definition delegationPermittedSpec (d : Deps) (s : gatekeeper) (namespace : string) : Prop :=
  namespaced s = false
  /\ Getenv d "SSO_DELEGATE_RBAC_TO_NAMESPACE" = "true"
  /\ namespace <> ssoNamespace s.

(** The edges [addPolicies] inserts for a subject. *)
Definition groupEdges (cluster sub : string) (groups : list string) : gset edge :=
  list_to_set (map (fun g => (sub, groupName cluster g)) groups).

(** An account whose precedence annotation is absent, or is rejected by
    [strconv.Atoi] with a syntax error. *)
Definition precedenceUnparsable (d : Deps) (sa : corev1.ServiceAccount) : Prop :=
  match corev1.Annotations sa !! AnnotationKeyRBACRulePrecedence d with
  | None => True
  | Some v => (Atoi v).2 = Some ErrSyntax
  end.

(** An account whose precedence annotation [strconv.Atoi] reads, without an
    error, as the integer [n]. *)
Definition annotatedPrecedence (d : Deps) (sa : corev1.ServiceAccount) (n : Z) : Prop :=
  exists v, corev1.Annotations sa !! AnnotationKeyRBACRulePrecedence d = Some v
            /\ Atoi v = (n, None).

(** The plain decimal numerals of the positive integers below 10^18: one
    to eighteen decimal digits, not all of them 0. *)
Fixpoint allDigits (v : string) : bool :=
  match v with
  | EmptyString => true
  | String c r => match digit_of c with Some _ => allDigits r | None => false end
  end.

Fixpoint hasNonzeroDigit (v : string) : bool :=
  match v with
  | EmptyString => false
  | String c r =>
      match digit_of c with
      | Some k => negb (k =? 0) || hasNonzeroDigit r
      | None => hasNonzeroDigit r
      end
  end.

Definition positiveNumeral (v : string) : bool :=
  (0 <? String.length v)%nat && (String.length v <? 19)%nat
  && allDigits v && hasNonzeroDigit v.

(** The credential exchange for [authorization] fails with [cause]: the
    primary profile is there, and either no REST configuration can be
    derived from its configuration and the token, or no profile can be
    built from the derived configuration. *)
Definition exchangeFailure (d : Deps) (s : gatekeeper) (authorization : string)
    (cause : error) : Prop :=
  exists primary, Primary d (clients s) = Some primary
    /\ (GetRestConfig d (servertypes.RESTConfig primary) authorization = Err cause
        \/ exists restConfig,
             GetRestConfig d (servertypes.RESTConfig primary) authorization = Ok restConfig
             /\ NewProfile d restConfig = Err cause).

(** A token that no enabled mode recognizes. *)
Definition unrecognized (s : gatekeeper) (token : string) : Prop :=
  (Modes s token).2 = false.

(** The outcome of evaluating the rule of an account on the claims, as the
    loop of [getServiceAccount] obtains it. *)
Definition ruleOutcome (d : Deps) (claims : option types.Claims)
    (sa : corev1.ServiceAccount) : result bool :=
  match Jsonify d claims with
  | Ok v => EvalBool d (ruleOf d sa) v
  | Err e => Err e
  | Panic p => Panic p
  end.

(** Delegation as the code gates it: the conditions of
    [delegationPermittedSpec], and a requested namespace that is not
    empty. *)
Definition delegationPermitted (d : Deps) (s : gatekeeper) (namespace : string) : Prop :=
  namespaced s = false
  /\ Getenv d "SSO_DELEGATE_RBAC_TO_NAMESPACE" = "true"
  /\ namespace <> ""
  /\ namespace <> ssoNamespace s.

(** The audit entry that [rbacAuthorization] writes. *)
Definition auditEntry (delegatedAccount loginAccount : corev1.ServiceAccount)
    (c : types.Claims) (ssoDelegationAllowed ssoDelegated : bool) : LogEntry :=
  {| log_Level := InfoLevel;
     log_Message := "selected SSO RBAC service account for user";
     log_Fields :=
       [("serviceAccount", corev1.Name delegatedAccount);
        ("loginServiceAccount", corev1.Name loginAccount);
        ("subject", types.Subject c);
        ("email", types.Email c);
        ("ssoDelegationAllowed", bool_string ssoDelegationAllowed);
        ("ssoDelegated", bool_string ssoDelegated)];
     log_Error := None |}.

Definition addLog (w : World) (e : LogEntry) : World :=
  {| policy := policy w; logs := (logs w ++ [e])%list; trace := trace w |}.

Definition addEvent (w : World) (ev : Event) : World :=
  {| policy := policy w; logs := logs w; trace := (trace w ++ [ev])%list |}.

(** The message of a denied policy check. *)
Definition accessDenied (d : Deps) (sub obj act : string) : error :=
  StatusError PermissionDenied
    ("access denied to " +:+ Quote d sub +:+ " for " +:+ Quote d obj
     +:+ " " +:+ Quote d act).

(** The policy object of a request: ["<cluster>:<resource>:<namespace>"]. *)
Definition objectOf (msg : servertypes.Req) : string :=
  servertypes.Cluster msg +:+ ":" +:+ servertypes.Resource msg
  +:+ ":" +:+ servertypes.Namespace msg.

(** The subject of an SSO identity: ["user:<primaryCluster>:<subject>"]. *)
Definition userSubject (d : Deps) (c : types.Claims) : string :=
  "user:" +:+ PrimaryCluster d +:+ ":" +:+ types.Subject c.

(** The deferred function of the SSO branch. *)
Definition removeGrants (d : Deps) (s : gatekeeper) (claims : option types.Claims)
    (cluster sub : string) : M unit :=
  on_error (removePolicies d s claims cluster sub)
    (fun err => log ErrorLevel "failed to remove policy" [("sub", sub)] (Some err)).

(** The check and the resolution that the deferred function follows. *)
Definition checkAndResolve (d : Deps) (s : gatekeeper)
    (profile : option servertypes.Clients) (claims : option types.Claims)
    (msg : servertypes.Req) (obj sub : string)
    : M (option servertypes.Clients * option types.Claims) :=
  allowed d s obj (servertypes.Act msg) sub ;;;
  if String.eqb (servertypes.Cluster msg) (PrimaryCluster d)
  then ret (profile, claims)
  else
    p <- Find (clients s) (servertypes.Cluster msg) ;;
    ret (Some p, claims).

(** The entry logged when the selector fails. *)
Definition rbacFailureEntry (e : error) : LogEntry :=
  {| log_Level := ErrorLevel;
     log_Message := "failed to perform RBAC authorization";
     log_Fields := [];
     log_Error := Some e |}.

(** A computation that leaves the world as it found it, whatever its
    outcome. *)
Definition keepsWorld {A} (m : M A) : Prop :=
  forall w, (m w).1 = w.

(** A computation that makes no call to the policy engine or to the cluster
    resolver: the edges and the trace stay as they were. *)
Definition keepsEngine {A} (m : M A) : Prop :=
  forall w, policy (m w).1 = policy w /\ trace (m w).1 = trace w.

(** The entry logged for an SSO identity when RBAC is disabled. *)
Definition defaultAccountEntry (c : types.Claims) : LogEntry :=
  {| log_Level := InfoLevel;
     log_Message := "using the default service account for user";
     log_Fields := addClaimsLogFields c [];
     log_Error := None |}.

(** What the caller of the SSO branch receives for a decision of the
    policy engine. *)
Definition decisionOutcome (d : Deps) (s : gatekeeper)
    (profile : option servertypes.Clients) (c : types.Claims) (msg : servertypes.Req)
    (decision : bool * option error)
    : result (option servertypes.Clients * option types.Claims) :=
  match decision with
  | (_, Some err) => Err err
  | (false, None) =>
      Err (accessDenied d (userSubject d c) (objectOf msg) (servertypes.Act msg))
  | (true, None) =>
      if String.eqb (servertypes.Cluster msg) (PrimaryCluster d) then Ok (profile, Some c)
      else match clients s !! servertypes.Cluster msg with
           | Some p => Ok (Some p, Some c)
           | None => Err (ClusterNotFound (servertypes.Cluster msg))
           end
  end.

(** The calls [addPolicies] and [removePolicies] make for a list of
    groups, in order. *)
Definition addEvents (cluster sub : string) (groups : list string) : list Event :=
  map (fun g => EvAddGroupingPolicy sub (groupName cluster g)) groups.

Definition removeEvents (cluster sub : string) (groups : list string) : list Event :=
  map (fun g => EvRemoveGroupingPolicy sub (groupName cluster g)) groups.

(** A computation that changes neither the edges of the policy engine nor
    the log. *)
Definition keepsStore {A} (m : M A) : Prop :=
  forall w, policy (m w).1 = policy w /\ logs (m w).1 = logs w.

(** The entry logged when the selector fails for the requested namespace. *)
Definition delegationErrorEntry (e : error) : LogEntry :=
  {| log_Level := InfoLevel;
     log_Message := "Error while SSO Delegation";
     log_Fields := [];
     log_Error := Some e |}.

(** ** A concrete deployment

    The fixture of the package's tests: five rule-bearing service accounts
    in four namespaces, their secrets, one primary cluster. *)

(** Insertion sort, the algorithm [sort.Slice] runs on short slices. *)
Fixpoint insertSorted {A} (less : A -> A -> bool) (x : A) (l : list A) : list A :=
  match l with
  | [] => [x]
  | y :: r => if less x y then x :: y :: r else y :: insertSorted less x r
  end.

Definition insertionSort {A} (less : A -> A -> bool) (l : list A) : list A :=
  fold_left (fun acc x => insertSorted less x acc) l [].

Definition dquote : string := String "034"%char EmptyString.

(** [strconv.Quote] on printable ASCII: the text between double quotes,
    with the double quote and the backslash escaped. *)
Fixpoint escapeASCII (s : string) : string :=
  match s with
  | EmptyString => EmptyString
  | String c r =>
      if Ascii.eqb c "034"%char || Ascii.eqb c "\"%char
      then String "\"%char (String c (escapeASCII r))
      else String c (escapeASCII r)
  end.

Definition quoteASCII (s : string) : string := dquote +:+ escapeASCII s +:+ dquote.

Fixpoint splitOn (sep : ascii) (s : string) : list string :=
  match s with
  | EmptyString => [EmptyString]
  | String c r =>
      if Ascii.eqb c sep then EmptyString :: splitOn sep r
      else match splitOn sep r with
           | [] => [String c EmptyString]
           | h :: t => String c h :: t
           end
  end.

Fixpoint trimLeft (s : string) : string :=
  match s with
  | String " "%char r => trimLeft r
  | _ => s
  end.

(** A cookie line of the form [name=value; name=value]. *)
Definition parseCookies (line : string) : list Cookie :=
  flat_map
    (fun part =>
       let part := trimLeft part in
       match String.index 0 "=" part with
       | Some i =>
           [{| Cookie_Name := String.substring 0 i part;
               Cookie_Value := String.substring (S i) (String.length part - S i) part |}]
       | None => []
       end)
    (splitOn ";"%char line).

Definition claimsJson (claims : option types.Claims) : Json :=
  match claims with
  | None => []
  | Some c =>
      [("sub", JString (types.Subject c));
       ("email", JString (types.Email c));
       ("groups", JStrings (types.Groups c));
       ("service_account_name", JString (types.ServiceAccountName c))]
  end.

Definition jsonGroups (v : Json) : list string :=
  match List.find (fun kv => String.eqb kv.1 "groups") v with
  | Some (_, JStrings l) => l
  | _ => []
  end.

(** The rules the fixture uses: [true], [false] and ['g' in groups];
    anything else does not compile. *)
Definition evalRule (rule : string) (v : Json) : result bool :=
  if String.eqb rule "true" then Ok true
  else if String.eqb rule "false" then Ok false
  else
    match rule with
    | String "'"%char r =>
        match String.index 0 "' in groups" r with
        | Some i =>
            if Nat.eqb (i + 11) (String.length r)
            then Ok (existsb (String.eqb (String.substring 0 i r)) (jsonGroups v))
            else Err (ErrorString "unexpected token")
        | None => Err (ErrorString "unexpected token")
        end
    | _ => Err (ErrorString "unexpected token")
    end.

(** Claims are derived from the user name of the credential, if it has
    one. *)
Definition claimsOfUsername (cfg : rest.Config) : option types.Claims :=
  if String.eqb (rest.Username cfg) "" then None
  else Some {| types.Subject := rest.Username cfg; types.Email := "";
               types.Groups := []; types.ServiceAccountName := "" |}.

Definition bearerConfig (base : rest.Config) (authorization : string) : result rest.Config :=
  Ok {| rest.Username := "";
        rest.BearerToken := String.substring 7 (String.length authorization - 7) authorization |}.

Definition tokenProfile (cfg : rest.Config) : servertypes.Clients :=
  {| servertypes.RESTConfig := cfg;
     servertypes.Dynamic := Some "dynamic-for-token";
     servertypes.Workflow := Some "workflow-for-token";
     servertypes.Sensor := Some "sensor-for-token";
     servertypes.EventSource := Some "eventsource-for-token";
     servertypes.Kubernetes := Some "kubernetes-for-token" |}.

Definition profileOf (cfg : rest.Config) : result servertypes.Clients :=
  Ok (tokenProfile cfg).

(** The packages around the gatekeeper, with the delegation toggle set to
    [toggle]. *)
Definition testDeps (toggle : string) : Deps :=
  {| PrimaryCluster := "primary";
     AnnotationKeyRBACRule := "workflows.argoproj.io/rbac-rule";
     AnnotationKeyRBACRulePrecedence := "workflows.argoproj.io/rbac-rule-precedence";
     Getenv := fun k => if String.eqb k "SSO_DELEGATE_RBAC_TO_NAMESPACE" then toggle else "";
     Quote := quoteASCII;
     readCookies := parseCookies;
     sort_Slice := insertionSort;
     ClaimSetFor := claimsOfUsername;
     GetRestConfig := bearerConfig;
     NewProfile := profileOf;
     Jsonify := fun claims => Ok (claimsJson claims);
     EvalBool := evalRule;
     splitOp := fun method => ("get", method) |}.

(** The same packages, with a credential exchange that fails with
    [cause]. *)
Definition testDepsRejecting (cause : error) : Deps :=
  {| PrimaryCluster := "primary";
     AnnotationKeyRBACRule := "workflows.argoproj.io/rbac-rule";
     AnnotationKeyRBACRulePrecedence := "workflows.argoproj.io/rbac-rule-precedence";
     Getenv := fun _ => "";
     Quote := quoteASCII;
     readCookies := parseCookies;
     sort_Slice := insertionSort;
     ClaimSetFor := claimsOfUsername;
     GetRestConfig := fun _ _ => Err cause;
     NewProfile := profileOf;
     Jsonify := fun claims => Ok (claimsJson claims);
     EvalBool := evalRule;
     splitOp := fun method => ("get", method) |}.

Definition account (name ns rule prec : string) (secrets : list string)
    : corev1.ServiceAccount :=
  {| corev1.Name := name; corev1.Namespace := ns;
     corev1.Annotations :=
       <[ "workflows.argoproj.io/rbac-rule" := rule ]>
         (<[ "workflows.argoproj.io/rbac-rule-precedence" := prec ]> ∅);
     corev1.Secrets := secrets |}.

Definition testAccounts : list corev1.ServiceAccount :=
  [ account "my-other-sa" "my-ns" "'other-group' in groups" "0" ["my-secret"];
    account "my-sa" "my-ns" "'my-group' in groups" "1" ["my-secret"];
    account "user1-sa" "user1-ns" "'my-group' in groups" "2" ["user-secret"];
    account "user2-sa" "user2-ns" "'my-group' in groups" "0" ["user-secret"];
    account "user3-sa" "user3-ns" "'my-group' in groups" "1" ["user-secret"] ].

Definition testSecrets : list (string * string) :=
  [ ("my-ns", "my-secret"); ("user1-ns", "user-secret");
    ("user2-ns", "user-secret"); ("user3-ns", "user-secret") ].

(** A lister over [accounts]; the empty namespace lists every namespace. *)
Definition cacheOf (accounts : list corev1.ServiceAccount) : ResourceCache :=
  {| ListServiceAccounts := fun ns =>
       Ok (List.filter
             (fun sa => String.eqb ns "" || String.eqb (corev1.Namespace sa) ns)
             accounts);
     GetSecret := fun ns name =>
       if existsb (fun p => String.eqb p.1 ns && String.eqb p.2 name) testSecrets
       then Ok {| corev1.Data := {[ "token" := "" ]} |}
       else Err (ErrorString "secret not found") |}.

Definition primaryClients : servertypes.Clients :=
  {| servertypes.RESTConfig := {| rest.Username := "my-username"; rest.BearerToken := "" |};
     servertypes.Dynamic := None;
     servertypes.Workflow := Some "wfClient";
     servertypes.Sensor := None;
     servertypes.EventSource := None;
     servertypes.Kubernetes := Some "kubeClient" |}.

(** A policy engine that allows the subjects in [subjects] and the members
    of the groups in [groups], and whose store rejects the insertion of the
    groups in [unwritable] and the removal of those in [unremovable]. *)
Definition testEnforcer (subjects groups unwritable unremovable : list string) : IEnforcer :=
  {| enf_Enforce := fun edges sub obj act =>
       (existsb (String.eqb sub) subjects
        || existsb (fun g => bool_decide ((sub, g) ∈ edges)) groups, None);
     enf_AddError := fun sub group =>
       if existsb (String.eqb group) unwritable
       then Some (ErrorString "store is read-only") else None;
     enf_RemoveError := fun sub group =>
       if existsb (String.eqb group) unremovable
       then Some (ErrorString "store is read-only") else None |}.

(** [Modes.GetMode] for a set of enabled modes: an SSO token carries the
    prefix [Bearer v2:], a client token [Bearer ] or [Basic ], and the
    server mode takes anything else. *)
Definition classify (enabled : Mode -> bool) (token : string) : Mode * bool :=
  if enabled SSO && String.prefix "Bearer v2:" token then (SSO, true)
  else if enabled Client
          && (String.prefix "Bearer " token || String.prefix "Basic " token)
       then (Client, true)
  else if enabled Server then (Server, true)
  else (Server, false).

Definition only (m : Mode) (m' : Mode) : bool :=
  match m, m' with
  | Client, Client | Server, Server | SSO, SSO => true
  | _, _ => false
  end.

Definition testSSO (rbac : bool) (claims : option types.Claims) : sso_Interface :=
  {| Authorize := fun _ => Ok claims; IsRBACEnabled := rbac |}.

Definition testGatekeeper (mode : Mode) (ssoIf : sso_Interface) (namespaced : bool)
    (accounts : list corev1.ServiceAccount) (enforcer : IEnforcer) : gatekeeper :=
  {| Modes := classify (only mode);
     clients := {[ "primary" := primaryClients ]};
     ssoIf := ssoIf;
     namespace := "my-ns";
     ssoNamespace := "my-ns";
     namespaced := namespaced;
     cache := cacheOf accounts;
     enforcer := enforcer |}.

Definition groupClaims (sub : string) (groups : list string) : types.Claims :=
  {| types.Subject := sub; types.Email := ""; types.Groups := groups;
     types.ServiceAccountName := "" |}.

(** An incoming context carrying one [authorization] header. *)
Definition x (authorization : string) : context.Context :=
  {| context.md := {[ "authorization" := [authorization] ]};
     context.operationID := Ok "/service.TestService/GetTests";
     context.values := [] |}.

(** [reqHolder] of the tests, with an action and a resource. *)
Definition reqHolder (namespace : string) : request :=
  IsReq {| servertypes.Cluster := "primary"; servertypes.Namespace := namespace;
           servertypes.Act := "get"; servertypes.Resource := "workflows" |}.

(** [context.TODO()]: no metadata, no attached value. *)
Definition TODO : context.Context :=
  {| context.md := ∅;
     context.operationID := Err (ErrorString "no operation");
     context.values := [] |}.

Definition emptyWorld : World := {| policy := ∅; logs := []; trace := [] |}.


(** * Properties *)

(** ** Laws of the effect combinators *)

Lemma bind_ret_l {A B} (a : A) (f : A -> M B) (w : World) :
  bind (ret a) f w = f a w.
Proof. reflexivity. Qed.

Lemma bind_run {A B} (m : M A) (f : A -> M B) (w w1 : World) (a : A) :
  m w = (w1, Ok a) -> bind m f w = f a w1.
Proof. intros H. unfold bind. by rewrite H. Qed.

Lemma bind_run_Err {A B} (m : M A) (f : A -> M B) (w w1 : World) (e : error) :
  m w = (w1, Err e) -> bind m f w = (w1, Err e).
Proof. intros H. unfold bind. by rewrite H. Qed.

Lemma bind_Ok_inv {A B} (m : M A) (f : A -> M B) (w w' : World) (b : B) :
  bind m f w = (w', Ok b) -> exists w1 a, m w = (w1, Ok a) /\ f a w1 = (w', Ok b).
Proof.
  unfold bind. destruct (m w) as [w1 [a|e|p]]; intros H; try discriminate.
  by exists w1, a.
Qed.

Lemma on_error_Ok_inv {A} (m : M A) (h : error -> M A) (w w' : World) (a : A) :
  (forall e w1 w2 b, h e w1 <> (w2, Ok b)) ->
  on_error m h w = (w', Ok a) -> m w = (w', Ok a).
Proof.
  intros Hh. unfold on_error. destruct (m w) as [w1 [a'|e|p]]; intros H; try done.
  by apply Hh in H.
Qed.

Lemma defer_Ok_inv {A} (cleanup : M unit) (body : M A) (w w' : World) (a : A) :
  defer cleanup body w = (w', Ok a) -> exists w1, body w = (w1, Ok a).
Proof.
  unfold defer. destruct (body w) as [w1 r]. destruct (cleanup w1) as [w2 [[]|e|p]];
    intros H; inversion H; subst; by exists w1.
Qed.

(** ** strconv.Atoi *)

Lemma Atoi_fast_loop_error (s : string) (n v : Z) (e : NumError) :
  Atoi_fast_loop s n = (v, Some e) -> v = 0 /\ e = ErrSyntax.
Proof.
  revert n. induction s as [|c r IH]; intros n; simpl.
  - discriminate.
  - destruct (digit_of c); [apply IH|]. intros H; by inversion H.
Qed.

(** Whenever [Atoi] reports a syntax error, the value next to it is 0. *)
Lemma Atoi_syntax_zero (s : string) :
  (Atoi s).2 = Some ErrSyntax -> (Atoi s).1 = 0.
Proof.
  unfold Atoi. destruct ((0 <? String.length s)%nat && (String.length s <? 19)%nat).
  - destruct s as [|c r]; [done|].
    destruct (if is_sign c then r else String c r) as [|c' r'] eqn:Hbody; [done|].
    destruct (Atoi_fast_loop (String c' r') 0) as [v [e|]] eqn:Hloop.
    + apply Atoi_fast_loop_error in Hloop as [-> ->]. done.
    + done.
  - unfold ParseInt. destruct s as [|c r]; [done|].
    destruct (ParseUint (if is_sign c then r else String c r)) as [un [[]|]]; [done|..];
      repeat case_match; done.
Qed.

Lemma Atoi_empty : Atoi "" = (0, Some ErrSyntax).
Proof. reflexivity. Qed.

(** ** Sorted slices *)

Lemma StronglySorted_lookup_lt {A} (R : A -> A -> Prop) (l : list A) (i j : nat) (a b : A) :
  StronglySorted R l -> l !! i = Some a -> l !! j = Some b -> (i < j)%nat -> R a b.
Proof.
  intros Hs. revert i j. induction Hs as [|x l Hs IH Hall]; intros i j Hi Hj Hlt.
  - done.
  - destruct j as [|j]; [lia|]. destruct i as [|i]; simpl in *.
    + inversion Hi; subst. rewrite Forall_forall in Hall. apply Hall.
      apply list_elem_of_lookup. eauto.
    + apply (IH i j); [done..|lia].
Qed.

Lemma insertSorted_Permutation {A} (less : A -> A -> bool) (x : A) (l : list A) :
  Permutation (insertSorted less x l) (x :: l).
Proof.
  induction l as [|y r IH]; simpl; [done|].
  destruct (less x y); [done|]. rewrite IH. apply perm_swap.
Qed.

Lemma insertSorted_sorted {A} (key : A -> Z) (x : A) (l : list A) :
  StronglySorted (fun a b => key b <= key a) l ->
  StronglySorted (fun a b => key b <= key a) (insertSorted (fun a b => key b <? key a) x l).
Proof.
  induction 1 as [|y r Hs IH Hall]; simpl.
  - repeat constructor.
  - destruct (key y <? key x) eqn:Hlt.
    + apply Z.ltb_lt in Hlt. constructor; [by constructor|].
      constructor; [lia|]. eapply Forall_impl; [exact Hall|]. simpl. intros; lia.
    + apply Z.ltb_ge in Hlt. constructor; [done|].
      rewrite (insertSorted_Permutation _ x r). by constructor.
Qed.

Lemma insertionSort_spec {A} (key : A -> Z) (l : list A) :
  Permutation (insertionSort (fun a b => key b <? key a) l) l
  /\ StronglySorted (fun a b => key b <= key a) (insertionSort (fun a b => key b <? key a) l).
Proof.
  unfold insertionSort.
  assert (forall acc,
    StronglySorted (fun a b => key b <= key a) acc ->
    Permutation (fold_left (fun acc x => insertSorted (fun a b => key b <? key a) x acc) l acc)
      (l ++ acc)
    /\ StronglySorted (fun a b => key b <= key a)
         (fold_left (fun acc x => insertSorted (fun a b => key b <? key a) x acc) l acc)) as H.
  { induction l as [|x l IH]; intros acc Hacc; simpl; [done|].
    destruct (IH (insertSorted (fun a b => key b <? key a) x acc)) as [Hp Hs].
    - by apply insertSorted_sorted.
    - split; [|done]. rewrite Hp, insertSorted_Permutation.
      by rewrite Permutation_middle. }
  destruct (H []) as [Hp Hs]; [constructor|]. split; [|done].
  by rewrite Hp, app_nil_r.
Qed.

Lemma testDeps_SortSliceSpec (toggle : string) : SortSliceSpec (testDeps toggle).
Proof. intros key l. apply insertionSort_spec. Qed.

(** ** Precedence *)

Lemma digit_is_no_sign (c : ascii) (k : Z) : digit_of c = Some k -> is_sign c = false.
Proof.
  destruct c as [[] [] [] [] [] [] [] []]; vm_compute; intros H; try reflexivity;
    discriminate H.
Qed.

Lemma digit_of_nonneg (c : ascii) (k : Z) : digit_of c = Some k -> 0 <= k.
Proof.
  unfold digit_of.
  destruct ((48 <=? Z.of_N (N_of_ascii c)) && (Z.of_N (N_of_ascii c) <=? 57)) eqn:H;
    [|discriminate].
  apply andb_true_iff in H as [H1 _]. apply Z.leb_le in H1.
  intros Heq. inversion Heq. lia.
Qed.

(** On decimal digits the fast path of [Atoi] reports no error, never
    decreases the number read so far, and ends above it when that number
    was positive or one of the digits is not 0. *)
Lemma Atoi_fast_loop_digits (v : string) (n : Z) :
  allDigits v = true -> 0 <= n ->
  exists m, Atoi_fast_loop v n = (m, None) /\ n <= m
            /\ (0 < n \/ hasNonzeroDigit v = true -> 0 < m).
Proof.
  revert n. induction v as [|c r IH]; intros n Hall Hn; simpl in *.
  - exists n. split; [done|]. split; [lia|]. intros [?|?]; [lia|discriminate].
  - destruct (digit_of c) as [k|] eqn:Hc; [|discriminate].
    pose proof (digit_of_nonneg _ _ Hc) as Hk.
    destruct (IH (n * 10 + k) Hall) as (m & Hrun & Hle & Hpos); [lia|].
    exists m. split; [exact Hrun|]. split; [lia|].
    intros [Hn'|Hnz]; apply Hpos.
    + left. lia.
    + apply orb_true_iff in Hnz as [Hnz|Hnz]; [left|by right].
      apply negb_true_iff, Z.eqb_neq in Hnz. lia.
Qed.

(** A plain decimal numeral of a positive integer is read by [Atoi] without
    an error, as a positive integer. *)
Lemma positiveNumeral_Atoi (v : string) :
  positiveNumeral v = true -> exists n, Atoi v = (n, None) /\ 0 < n.
Proof.
  unfold positiveNumeral. intros H.
  apply andb_true_iff in H as [H Hnz]. apply andb_true_iff in H as [Hlen Hall].
  unfold Atoi. rewrite Hlen. destruct v as [|c r]; [discriminate|].
  assert (is_sign c = false) as Hsign.
  { simpl in Hall. destruct (digit_of c) as [k|] eqn:Hc; [|discriminate].
    by eapply digit_is_no_sign. }
  rewrite Hsign.
  destruct (Atoi_fast_loop_digits (String c r) 0 Hall) as (m & Hrun & _ & Hpos); [lia|].
  rewrite Hrun. unfold is_sign in Hsign. apply orb_false_iff in Hsign as [_ Hminus].
  rewrite Hminus. exists m. split; [done|]. apply Hpos. by right.
Qed.

(** C10 (amended).  A service account whose precedence annotation is absent,
    or rejected by [strconv.Atoi] with a syntax error, has precedence 0,
    while an account whose annotation [Atoi] reads without error has the
    integer read as its precedence (a plain decimal numeral of a positive
    integer is read as a positive integer).  Hence in the sorted slice the
    former account comes after every account with a positive annotated
    precedence, and as the requested-namespace account it never replaces a
    login account with a positive annotated precedence. *)
Theorem unparsable_precedence_is_zero (d : Deps) (s : gatekeeper)
    (sa : corev1.ServiceAccount) (H : precedenceUnparsable d sa) :
  precedence d sa = 0
  /\ (forall other n, annotatedPrecedence d other n -> precedence d other = n)
  /\ (forall other v,
        corev1.Annotations other !! AnnotationKeyRBACRulePrecedence d = Some v ->
        positiveNumeral v = true ->
        exists n, annotatedPrecedence d other n /\ 0 < n)
  /\ (SortSliceSpec d ->
      forall (other : corev1.ServiceAccount) (n : Z)
             (l : list corev1.ServiceAccount) (i j : nat),
        annotatedPrecedence d other n -> 0 < n ->
        sort_Slice d (fun a b => precedence d b <? precedence d a) l !! i = Some sa ->
        sort_Slice d (fun a b => precedence d b <? precedence d a) l !! j = Some other ->
        (j < i)%nat)
  /\ (forall claims namespace loginAccount n w,
        annotatedPrecedence d loginAccount n -> 0 < n ->
        getServiceAccount d s claims namespace = Ok sa ->
        selectDelegate d s claims namespace loginAccount w
        = (w, Ok (loginAccount, canDelegateRBACToRequestNamespace d s namespace, false))).
Proof.
  assert (precedence d sa = 0) as Hzero.
  { unfold precedence, precedenceUnparsable in *.
    destruct (corev1.Annotations sa !! AnnotationKeyRBACRulePrecedence d) as [v|]; simpl.
    - by apply Atoi_syntax_zero.
    - reflexivity. }
  assert (forall other n, annotatedPrecedence d other n -> precedence d other = n) as Hann.
  { intros other n (v & Hv & Hatoi). unfold precedence. rewrite Hv. simpl.
    by rewrite Hatoi. }
  split; [exact Hzero|]. split; [exact Hann|]. split; [|split].
  - intros other v Hv Hnum. destruct (positiveNumeral_Atoi v Hnum) as (n & Hatoi & Hpos).
    exists n. split; [by exists v|exact Hpos].
  - intros Hsort other n l i j Hother Hpos Hi Hj. apply Hann in Hother.
    destruct (Hsort (precedence d) l) as [_ Hsorted].
    destruct (decide (j < i)%nat) as [|Hge]; [done|]. exfalso.
    destruct (decide (i = j)) as [->|Hne].
    + rewrite Hi in Hj. inversion Hj; subst. lia.
    + pose proof (StronglySorted_lookup_lt _ _ i j _ _ Hsorted Hi Hj) as Hle.
      simpl in Hle. lia.
  - intros claims namespace loginAccount n w Hlogin Hpos Hsa. apply Hann in Hlogin.
    unfold selectDelegate.
    destruct (canDelegateRBACToRequestNamespace d s namespace); [|done].
    rewrite Hsa, Hzero.
    destruct (precedence d loginAccount <? 0) eqn:Hlt; [|done].
    apply Z.ltb_lt in Hlt. lia.
Qed.

Lemma unparsable_precedence_is_zero_witness :
  let d := testDeps "true" in
  let sa := account "team-sa" "team-ns" "true" "high" ["user-secret"] in
  let login := account "my-sa" "my-ns" "true" "5" ["my-secret"] in
  let s := testGatekeeper SSO (testSSO true None) false [login; sa]
             (testEnforcer [] [] [] []) in
  let sorted := sort_Slice d (fun a b => precedence d b <? precedence d a) [sa; login] in
  precedenceUnparsable d sa
  /\ positiveNumeral "5" = true
  /\ annotatedPrecedence d login 5
  /\ precedence d sa = 0
  /\ precedence d login = 5
  /\ sorted = [login; sa]
  /\ (forall i j, sorted !! i = Some sa -> sorted !! j = Some login -> (j < i)%nat)
  /\ getServiceAccount d s None "team-ns" = Ok sa
  /\ selectDelegate d s None "team-ns" login emptyWorld
     = (emptyWorld, Ok (login, true, false)).
Proof.
  intros d sa login s sorted.
  assert (precedenceUnparsable d sa) as H by (vm_compute; reflexivity).
  assert (annotatedPrecedence d login 5) as H5.
  { exists "5". split; vm_compute; reflexivity. }
  assert (getServiceAccount d s None "team-ns" = Ok sa) as Hsa by (vm_compute; reflexivity).
  destruct (unparsable_precedence_is_zero d s sa H) as (Hzero & Hann & _ & Hsort & Hdel).
  split; [exact H|]. split; [reflexivity|]. split; [exact H5|]. split; [exact Hzero|].
  split; [exact (Hann login 5 H5)|]. split; [vm_compute; reflexivity|].
  split.
  - intros i j. apply (Hsort (testDeps_SortSliceSpec "true") login 5 [sa; login] i j H5).
    lia.
  - split; [exact Hsa|].
    rewrite (Hdel None "team-ns" login 5 emptyWorld H5 ltac:(lia) Hsa).
    vm_compute. reflexivity.
Defined.

(** C10 (as stated) fails: an annotation that is no integer at all, as long
    as it starts with enough digits to overflow, is rejected by [Atoi] and
    still yields the largest [int]; so does a numeral that is merely too
    large.  Such an account sorts first and wins the delegation comparison
    against an account of precedence 5. *)
Lemma overflowing_precedence_is_not_zero :
  let d := testDeps "true" in
  let sa := account "team-sa" "team-ns" "true" "99999999999999999999x" ["user-secret"] in
  let login := account "my-sa" "my-ns" "true" "5" ["my-secret"] in
  let s := testGatekeeper SSO (testSSO true None) false [login; sa]
             (testEnforcer [] [] [] []) in
  Atoi "99999999999999999999x" = (maxInt64, Some ErrRange)
  /\ Atoi "9223372036854775808" = (maxInt64, Some ErrRange)
  /\ precedence d sa = maxInt64
  /\ precedence d login = 5
  /\ sort_Slice d (fun a b => precedence d b <? precedence d a) [login; sa] = [sa; login]
  /\ selectDelegate d s None "team-ns" login emptyWorld = (emptyWorld, Ok (sa, true, true)).
Proof. vm_compute. repeat split; reflexivity. Qed.

(** ** Context accessors *)

(** After a successful [Context], the accessors read what the resolution
    attached: the claims (nil or not), and each client that is not the nil
    interface. *)
Lemma gatekeeper_Context_attaches (d : Deps) (s : gatekeeper)
    (ctx ctx' : context.Context) (req : request) (w w' : World) :
  gatekeeper_Context d s ctx req w = (w', Ok ctx') ->
  exists profile claims,
    getClients d s ctx req w = (w', Ok (Some profile, claims))
    /\ GetClaims ctx' = Ok claims
    /\ (forall h, servertypes.Workflow profile = Some h -> GetWfClient ctx' = Ok h)
    /\ (forall h, servertypes.Kubernetes profile = Some h -> GetKubeClient ctx' = Ok h)
    /\ (servertypes.Dynamic profile = None ->
        GetDynamicClient ctx' = Panic "interface conversion").
Proof.
  unfold gatekeeper_Context. intros H.
  apply bind_Ok_inv in H as (w1 & [profile claims] & Hget & H).
  destruct profile as [profile|]; [|discriminate].
  unfold deref in H. rewrite bind_ret_l in H. inversion H; subst.
  exists profile, claims. split; [done|]. split; [reflexivity|].
  unfold GetWfClient, GetKubeClient, GetDynamicClient, context.Value. simpl.
  split; [by intros h ->|]. split; [by intros h ->|]. by intros ->.
Qed.

(** C9 (amended).  On a context to which the corresponding value was never
    attached, each of the five client accessors panics, and the claims
    accessor returns nil without panicking. *)
Theorem accessors_on_unattached_values (ctx : context.Context) :
  (context.Value ctx DynamicKey = AnyNil -> GetDynamicClient ctx = Panic "interface conversion")
  /\ (context.Value ctx WfKey = AnyNil -> GetWfClient ctx = Panic "interface conversion")
  /\ (context.Value ctx EventSourceKey = AnyNil ->
      GetEventSourceClient ctx = Panic "interface conversion")
  /\ (context.Value ctx SensorKey = AnyNil -> GetSensorClient ctx = Panic "interface conversion")
  /\ (context.Value ctx KubeKey = AnyNil -> GetKubeClient ctx = Panic "interface conversion")
  /\ (context.Value ctx ClaimsKey = AnyNil -> GetClaims ctx = Ok None).
Proof.
  unfold GetDynamicClient, GetWfClient, GetEventSourceClient, GetSensorClient,
    GetKubeClient, GetClaims.
  repeat split; intros ->; reflexivity.
Qed.

Lemma accessors_on_unattached_values_witness :
  context.Value TODO KubeKey = AnyNil
  /\ GetKubeClient TODO = Panic "interface conversion"
  /\ GetClaims TODO = Ok None.
Proof.
  pose proof (accessors_on_unattached_values TODO) as (_ & _ & _ & _ & Hk & Hc).
  split; [reflexivity|]. split; [apply Hk|apply Hc]; reflexivity.
Defined.

(** C9 (as stated) fails for the claims accessor: on a context without
    any attached value it returns nil; it does not panic. *)
Lemma GetClaims_does_not_panic :
  context.Value TODO ClaimsKey = AnyNil
  /\ GetClaims TODO = Ok None
  /\ forall msg, GetClaims TODO <> Panic msg.
Proof. repeat split. intros msg H. discriminate H. Qed.

(** ** Mode selection *)

Lemma getAuthHeaders_candidateTokens (d : Deps) (md : gmap string (list string)) :
  (if Nat.eqb (length (getAuthHeaders d md)) 0
   then (getAuthHeaders d md ++ [""])%list
   else getAuthHeaders d md) = candidateTokens d md.
Proof.
  unfold getAuthHeaders, candidateTokens.
  destruct (MD_Get md "authorization") as [|h rest]; [|reflexivity].
  fold (cookieTokens d md). by destruct (cookieTokens d md).
Qed.

Lemma selectMode_Some (s : gatekeeper) (l : list string) (m : Mode) (t : string) :
  selectMode s l = Some (m, t) <->
  exists pre post, l = (pre ++ t :: post)%list /\ Modes s t = (m, true)
                   /\ Forall (unrecognized s) pre.
Proof.
  induction l as [|u l IH]; simpl.
  - split; [done|]. intros (pre & post & H & _). by destruct pre.
  - destruct (Modes s u) as [mu valid] eqn:Hu. destruct valid.
    + split.
      * intros H; inversion H; subst. by exists [], l.
      * intros (pre & post & Hl & Ht & Hpre). destruct pre as [|p pre]; simpl in Hl.
        -- inversion Hl; subst. rewrite Ht in Hu. by inversion Hu.
        -- inversion Hl; subst. apply Forall_cons in Hpre as [Hp _].
           unfold unrecognized in Hp. by rewrite Hu in Hp.
    + rewrite IH. split.
      * intros (pre & post & -> & Ht & Hpre). exists (u :: pre), post.
        repeat split; [done|]. constructor; [|done]. unfold unrecognized. by rewrite Hu.
      * intros (pre & post & Hl & Ht & Hpre). destruct pre as [|p pre]; simpl in Hl.
        -- inversion Hl; subst. rewrite Ht in Hu. by inversion Hu.
        -- inversion Hl; subst. apply Forall_cons in Hpre as [_ Hpre]. by exists pre, post.
Qed.

Lemma selectMode_None (s : gatekeeper) (l : list string) :
  selectMode s l = None <-> Forall (unrecognized s) l.
Proof.
  induction l as [|u l IH]; simpl; [by split|].
  rewrite Forall_cons. unfold unrecognized at 1.
  destruct (Modes s u) as [mu valid]; destruct valid; simpl.
  - split; [done|]. by intros [? _].
  - rewrite IH. split; [by split|by intros [_ ?]].
Qed.

(** C5.  The candidate tokens are the header value if there is one, else
    the values of the cookies named "authorization", else the empty-string
    sentinel.  [getClients] continues with the first candidate that an
    enabled mode recognizes, and with that one only; when no candidate is
    recognized it fails as [Unauthenticated] and touches nothing. *)
Theorem mode_selection_first_match (d : Deps) (s : gatekeeper)
    (ctx : context.Context) (req : request) (w : World) :
  let md := context.md ctx in
  let candidates := candidateTokens d md in
  (forall header rest, MD_Get md "authorization" = header :: rest -> candidates = [header])
  /\ (MD_Get md "authorization" = [] -> cookieTokens d md <> [] ->
      candidates = cookieTokens d md)
  /\ (MD_Get md "authorization" = [] -> cookieTokens d md = [] -> candidates = [""])
  /\ (forall m t,
        (exists pre post, candidates = (pre ++ t :: post)%list /\ Modes s t = (m, true)
                          /\ Forall (unrecognized s) pre) ->
        getClients d s ctx req w = resolve d s m t ctx req w)
  /\ (forall m t m' t' pre post pre' post',
        candidates = (pre ++ t :: post)%list -> Modes s t = (m, true) ->
        Forall (unrecognized s) pre ->
        candidates = (pre' ++ t' :: post')%list -> Modes s t' = (m', true) ->
        Forall (unrecognized s) pre' ->
        (m, t) = (m', t'))
  /\ (Forall (unrecognized s) candidates ->
      getClients d s ctx req w
      = (w, Err (StatusError Unauthenticated "token not valid for running mode")))
  /\ (Forall (unrecognized s) candidates
      \/ exists m t pre post, candidates = (pre ++ t :: post)%list /\ Modes s t = (m, true)
                              /\ Forall (unrecognized s) pre).
Proof.
  intros md candidates.
  assert (getClients d s ctx req w
            = match selectMode s candidates with
              | None => (w, Err (StatusError Unauthenticated "token not valid for running mode"))
              | Some (mode, authorization) => resolve d s mode authorization ctx req w
              end) as Hget.
  { unfold getClients. cbv zeta. rewrite getAuthHeaders_candidateTokens.
    fold md. fold candidates. by destruct (selectMode s candidates) as [[? ?]|]. }
  repeat split.
  - intros header rest Hh. unfold candidates, candidateTokens. by rewrite Hh.
  - intros Hh Hc. unfold candidates, candidateTokens. rewrite Hh.
    by destruct (cookieTokens d md).
  - intros Hh Hc. unfold candidates, candidateTokens. by rewrite Hh, Hc.
  - intros m t Hfirst. apply selectMode_Some in Hfirst. by rewrite Hget, Hfirst.
  - intros m t m' t' pre post pre' post' H1 H2 H3 H4 H5 H6.
    assert (selectMode s candidates = Some (m, t)) as Ha
      by (apply selectMode_Some; eauto).
    assert (selectMode s candidates = Some (m', t')) as Hb
      by (apply selectMode_Some; eauto).
    rewrite Ha in Hb. by inversion Hb.
  - intros Hnone. apply selectMode_None in Hnone. by rewrite Hget, Hnone.
  - destruct (selectMode s candidates) as [[m t]|] eqn:Hsel.
    + right. apply selectMode_Some in Hsel as (pre & post & Hsel).
      by exists m, t, pre, post.
    + left. by apply selectMode_None.
Qed.

(** ** Service-account selection *)

Lemma ruleHolds_outcome (d : Deps) (claims : option types.Claims) (sa : corev1.ServiceAccount) :
  ruleHolds d claims sa = true <-> ruleOutcome d claims sa = Ok true.
Proof.
  unfold ruleHolds, ruleOutcome. destruct (Jsonify d claims); [|done..].
  destruct (EvalBool d (ruleOf d sa) a) as [[]| |]; done.
Qed.

Lemma getServiceAccount_loop_step (d : Deps) (claims : option types.Claims)
    (sa : corev1.ServiceAccount) (rest : list corev1.ServiceAccount) :
  getServiceAccount_loop d claims (sa :: rest)
  = match ruleOutcome d claims sa with
    | Ok true => Ok sa
    | Ok false => getServiceAccount_loop d claims rest
    | Err e =>
        match Jsonify d claims with
        | Ok _ => Err (ErrorString ("failed to evaluate rule: " +:+ Error e))
        | _ => Err (ErrorString ("failed to marshall claims: " +:+ Error e))
        end
    | Panic p => Panic p
    end.
Proof.
  simpl. unfold ruleOutcome, ruleOf. destruct (Jsonify d claims); [|done..].
  by destruct (EvalBool d _ a) as [[]| |].
Qed.

Lemma getServiceAccount_loop_Ok (d : Deps) (claims : option types.Claims)
    (l : list corev1.ServiceAccount) (sa : corev1.ServiceAccount) :
  getServiceAccount_loop d claims l = Ok sa <->
  exists pre post, l = (pre ++ sa :: post)%list
                   /\ Forall (fun x => ruleOutcome d claims x = Ok false) pre
                   /\ ruleOutcome d claims sa = Ok true.
Proof.
  induction l as [|x l IH].
  - simpl. split; [done|]. intros (pre & post & H & _). by destruct pre.
  - rewrite getServiceAccount_loop_step.
    destruct (ruleOutcome d claims x) as [[]|e|p] eqn:Hx.
    + split.
      * intros H; inversion H; subst. by exists [], l.
      * intros (pre & post & Hl & Hpre & Hsa). destruct pre as [|y pre]; simpl in Hl.
        -- by inversion Hl.
        -- inversion Hl; subst. apply Forall_cons in Hpre as [Hy _]. congruence.
    + rewrite IH. split.
      * intros (pre & post & -> & Hpre & Hsa). exists (x :: pre), post.
        repeat split; [by constructor|done].
      * intros (pre & post & Hl & Hpre & Hsa). destruct pre as [|y pre]; simpl in Hl.
        -- inversion Hl; subst. congruence.
        -- inversion Hl; subst. apply Forall_cons in Hpre as [_ Hpre]. by exists pre, post.
    + split.
      * by destruct (Jsonify d claims).
      * intros (pre & post & Hl & Hpre & Hsa). destruct pre as [|y pre]; simpl in Hl.
        -- inversion Hl; subst. congruence.
        -- inversion Hl; subst. apply Forall_cons in Hpre as [Hy _]. congruence.
    + split; [done|].
      intros (pre & post & Hl & Hpre & Hsa). destruct pre as [|y pre]; simpl in Hl.
      * inversion Hl; subst. congruence.
      * inversion Hl; subst. apply Forall_cons in Hpre as [Hy _]. congruence.
Qed.

Lemma getServiceAccount_loop_none (d : Deps) (claims : option types.Claims)
    (l : list corev1.ServiceAccount) :
  Forall (fun x => ruleOutcome d claims x = Ok false) l ->
  getServiceAccount_loop d claims l = Err (ErrorString "no service account rule matches").
Proof.
  induction 1 as [|x l Hx _ IH]; [done|].
  by rewrite getServiceAccount_loop_step, Hx.
Qed.

Lemma getServiceAccount_loop_error (d : Deps) (claims : option types.Claims)
    (pre post : list corev1.ServiceAccount) (sa : corev1.ServiceAccount) (v : Json) (e : error) :
  Forall (fun x => ruleOutcome d claims x = Ok false) pre ->
  Jsonify d claims = Ok v ->
  EvalBool d (ruleOf d sa) v = Err e ->
  getServiceAccount_loop d claims (pre ++ sa :: post)
  = Err (ErrorString ("failed to evaluate rule: " +:+ Error e)).
Proof.
  intros Hpre Hv He. induction Hpre as [|x pre Hx _ IH]; simpl app.
  - rewrite getServiceAccount_loop_step. unfold ruleOutcome. by rewrite Hv, He.
  - by rewrite getServiceAccount_loop_step, Hx.
Qed.

Lemma getServiceAccount_loop_find (d : Deps) (claims : option types.Claims)
    (l : list corev1.ServiceAccount) :
  Forall (fun x => is_Ok (ruleOutcome d claims x) = true) l ->
  getServiceAccount_loop d claims l
  = match List.find (ruleHolds d claims) l with
    | Some sa => Ok sa
    | None => Err (ErrorString "no service account rule matches")
    end.
Proof.
  induction 1 as [|x l Hx _ IH]; [done|].
  rewrite getServiceAccount_loop_step. simpl.
  destruct (ruleOutcome d claims x) as [[]|e|p] eqn:Hout; try discriminate.
  - apply ruleHolds_outcome in Hout. by rewrite Hout.
  - destruct (ruleHolds d claims x) eqn:Hh; [|done].
    apply ruleHolds_outcome in Hh. congruence.
Qed.

(** C3 (amended).  The selector lists the accounts of the namespace, keeps
    those with a rule annotation, sorts them by precedence descending and
    evaluates the rules on the serialized claims in that order.  It returns
    the first account whose predicate is true, provided the predicates
    before it evaluated to false.  It fails when every predicate is false,
    when the listing fails, and when a predicate met before any match does
    not evaluate.  When no predicate fails to evaluate, it is the selector
    of the specification. *)
Theorem selector_returns_first_match (d : Deps) (s : gatekeeper)
    (claims : option types.Claims) (namespace : string) (Hsort : SortSliceSpec d) :
  match ListServiceAccounts (cache s) namespace with
  | Ok list =>
      let candidates :=
        sort_Slice d (fun a b => precedence d b <? precedence d a)
          (List.filter (hasRule d) list) in
      (forall sa, sa ∈ candidates <-> sa ∈ list /\ hasRule d sa = true)
      /\ StronglySorted (fun a b => precedence d b <= precedence d a) candidates
      /\ (forall sa,
            getServiceAccount d s claims namespace = Ok sa <->
            exists pre post, candidates = (pre ++ sa :: post)%list
                             /\ Forall (fun x => ruleOutcome d claims x = Ok false) pre
                             /\ ruleOutcome d claims sa = Ok true)
      /\ (Forall (fun x => ruleOutcome d claims x = Ok false) candidates ->
          getServiceAccount d s claims namespace
          = Err (ErrorString "no service account rule matches"))
      /\ (forall pre sa post v e,
            candidates = (pre ++ sa :: post)%list ->
            Forall (fun x => ruleOutcome d claims x = Ok false) pre ->
            Jsonify d claims = Ok v ->
            EvalBool d (ruleOf d sa) v = Err e ->
            getServiceAccount d s claims namespace
            = Err (ErrorString ("failed to evaluate rule: " +:+ Error e)))
      /\ (Forall (fun x => is_Ok (ruleOutcome d claims x) = true) candidates ->
          getServiceAccount d s claims namespace
          = match selectorSpec d s claims namespace with
            | Some sa => Ok sa
            | None => Err (ErrorString "no service account rule matches")
            end)
  | Err e =>
      getServiceAccount d s claims namespace
      = Err (ErrorString ("failed to list SSO RBAC service accounts: " +:+ Error e))
  | Panic p => getServiceAccount d s claims namespace = Panic p
  end.
Proof.
  unfold getServiceAccount, selectorSpec.
  destruct (ListServiceAccounts (cache s) namespace) as [list|e|p]; [|done..].
  cbv zeta.
  destruct (Hsort (precedence d) (List.filter (hasRule d) list)) as [Hperm Hsorted].
  set (candidates := sort_Slice d _ _) in *.
  split; [|split; [exact Hsorted|]].
  - intros sa. rewrite Hperm, !list_elem_of_In, filter_In. done.
  - split; [intros sa; apply getServiceAccount_loop_Ok|].
    split; [apply getServiceAccount_loop_none|].
    split; [|apply getServiceAccount_loop_find].
    intros pre sa post v e -> Hpre Hv He. by eapply getServiceAccount_loop_error.
Qed.

Lemma selector_returns_first_match_witness :
  let d := testDeps "" in
  let s := testGatekeeper SSO (testSSO true None) true testAccounts (testEnforcer [] [] [] []) in
  let claims := Some (groupClaims "u" ["my-group"; "other-group"]) in
  SortSliceSpec d
  /\ getServiceAccount d s claims "my-ns"
     = Ok (account "my-sa" "my-ns" "'my-group' in groups" "1" ["my-secret"]).
Proof.
  intros d s claims. split; [apply testDeps_SortSliceSpec|].
  pose proof (selector_returns_first_match d s claims "my-ns" (testDeps_SortSliceSpec ""))
    as H.
  destruct (ListServiceAccounts (cache s) "my-ns") as [list| |] eqn:Hlist;
    [|discriminate Hlist..].
  destruct H as (_ & _ & _ & _ & _ & H). rewrite H.
  - vm_compute. reflexivity.
  - injection Hlist as <-. vm_compute. repeat constructor.
Defined.

(** C3 (as stated) fails: the account of precedence 2 has a rule that does
    not compile, the account of precedence 1 has a predicate that is true.
    The first account whose predicate is true is the second one, and the
    selector fails instead of returning it. *)
Lemma rule_error_stops_selection :
  let d := testDeps "" in
  let broken := account "broken-sa" "my-ns" "(" "2" ["my-secret"] in
  let good := account "my-sa" "my-ns" "'my-group' in groups" "1" ["my-secret"] in
  let s := testGatekeeper SSO (testSSO true None) true [good; broken]
             (testEnforcer [] [] [] []) in
  let claims := Some (groupClaims "u" ["my-group"]) in
  ruleOutcome d claims good = Ok true
  /\ ruleOutcome d claims broken = Err (ErrorString "unexpected token")
  /\ selectorSpec d s claims "my-ns" = Some good
  /\ getServiceAccount d s claims "my-ns"
     = Err (ErrorString "failed to evaluate rule: unexpected token").
Proof. vm_compute. repeat split; reflexivity. Qed.

(** ** Delegation to the requested namespace *)

Lemma canDelegate_permitted (d : Deps) (s : gatekeeper) (namespace : string) :
  canDelegateRBACToRequestNamespace d s namespace = true <-> delegationPermitted d s namespace.
Proof.
  unfold canDelegateRBACToRequestNamespace, delegationPermitted.
  destruct (namespaced s); simpl.
  { split; [done|]. by intros [? _]. }
  destruct (String.eqb_spec (Getenv d "SSO_DELEGATE_RBAC_TO_NAMESPACE") "true") as [->|Hne];
    simpl.
  2: { split; [done|]. by intros (_ & ? & _). }
  destruct namespace as [|c r]; simpl.
  { split; [done|]. by intros (_ & _ & ? & _). }
  destruct (String.eqb_spec (ssoNamespace s) (String c r)) as [Heq|Hne]; simpl.
  - split; [done|]. intros (_ & _ & _ & Hd). by rewrite Heq in Hd.
  - split; [|done]. intros _. repeat split; [done|]. intros Heq. by rewrite Heq in Hne.
Qed.

(** C2 (amended).  With the login account selected, the requested-namespace
    account becomes the delegate if and only if delegation is permitted
    (single-namespace mode off, the toggle equal to "true", the requested
    namespace not empty and different from the identity-home namespace) and
    the selector finds in the requested namespace an account of precedence
    strictly greater than the login account's; in every other case the
    login account is the delegate.  The delegate is the account of the
    audit entry and the one whose credential serves the request.  (The
    lister, the serializer and the evaluator behind the selector are taken
    to return, not to panic.) *)
Theorem delegation_needs_higher_precedence (d : Deps) (s : gatekeeper)
    (claims : option types.Claims) (namespace : string)
    (loginAccount : corev1.ServiceAccount) (w : World)
    (Hlogin : getServiceAccount d s claims (ssoNamespace s) = Ok loginAccount)
    (Hns : forall p, getServiceAccount d s claims namespace <> Panic p) :
  exists w1 delegate ssoDelegated,
    selectDelegate d s claims namespace loginAccount w
    = (w1, Ok (delegate, canDelegateRBACToRequestNamespace d s namespace, ssoDelegated))
    /\ policy w1 = policy w /\ trace w1 = trace w
    /\ (canDelegateRBACToRequestNamespace d s namespace = true
        <-> delegationPermitted d s namespace)
    /\ (ssoDelegated = true <->
        delegationPermitted d s namespace
        /\ exists namespaceAccount,
             getServiceAccount d s claims namespace = Ok namespaceAccount
             /\ precedence d loginAccount < precedence d namespaceAccount)
    /\ (ssoDelegated = true -> getServiceAccount d s claims namespace = Ok delegate)
    /\ (ssoDelegated = false -> delegate = loginAccount)
    /\ (forall c, claims = Some c ->
          rbacAuthorization d s claims namespace w
          = getClientsForServiceAccount d s claims delegate
              (addLog w1 (auditEntry delegate loginAccount c
                            (canDelegateRBACToRequestNamespace d s namespace)
                            ssoDelegated))).
Proof.
  pose proof (canDelegate_permitted d s namespace) as Hperm.
  assert (forall w1 delegate ssoDelegated,
    selectDelegate d s claims namespace loginAccount w
    = (w1, Ok (delegate, canDelegateRBACToRequestNamespace d s namespace, ssoDelegated)) ->
    forall c, claims = Some c ->
      rbacAuthorization d s claims namespace w
      = getClientsForServiceAccount d s claims delegate
          (addLog w1 (auditEntry delegate loginAccount c
                        (canDelegateRBACToRequestNamespace d s namespace) ssoDelegated)))
    as Hrbac.
  { intros w1 delegate ssoDelegated Hsel c ->. unfold rbacAuthorization.
    unfold bind at 1. unfold lift. rewrite Hlogin.
    unfold bind at 1. rewrite Hsel. reflexivity. }
  unfold selectDelegate in *.
  destruct (canDelegateRBACToRequestNamespace d s namespace) eqn:Hcan.
  - destruct (getServiceAccount d s claims namespace) as [namespaceAccount|e|p] eqn:Hsa.
    + destruct (precedence d loginAccount <? precedence d namespaceAccount) eqn:Hlt.
      * apply Z.ltb_lt in Hlt. exists w, namespaceAccount, true.
        split; [done|]. split; [done|]. split; [done|]. split; [done|].
        split; [|split; [done|split; [done|by apply Hrbac]]].
        split; [|done]. intros _. split; [by apply Hperm|]. by exists namespaceAccount.
      * apply Z.ltb_ge in Hlt. exists w, loginAccount, false.
        split; [done|]. split; [done|]. split; [done|]. split; [done|].
        split; [|split; [done|split; [done|by apply Hrbac]]].
        split; [done|]. intros (_ & acc & Hacc & Hprec). inversion Hacc; subst. lia.
    + eexists _, loginAccount, false.
      split; [reflexivity|]. split; [done|]. split; [done|]. split; [done|].
      split; [|split; [done|split; [done|by apply Hrbac]]].
      split; [done|]. intros (_ & acc & Hacc & _). discriminate Hacc.
    + by destruct (Hns p).
  - exists w, loginAccount, false.
    split; [done|]. split; [done|]. split; [done|]. split; [done|].
    split; [|split; [done|split; [done|by apply Hrbac]]].
    split; [done|]. intros (Hp & _). apply Hperm in Hp. discriminate Hp.
Qed.

Lemma delegation_needs_higher_precedence_witness :
  let d := testDeps "true" in
  let claims := Some (groupClaims "u" ["my-group"; "other-group"]) in
  let s := testGatekeeper SSO (testSSO true claims) false testAccounts
             (testEnforcer [] [] [] []) in
  let login := account "my-sa" "my-ns" "'my-group' in groups" "1" ["my-secret"] in
  getServiceAccount d s claims (ssoNamespace s) = Ok login
  /\ (forall p, getServiceAccount d s claims "user1-ns" <> Panic p)
  /\ exists w1 delegate ssoDelegated,
       selectDelegate d s claims "user1-ns" login emptyWorld
       = (w1, Ok (delegate, canDelegateRBACToRequestNamespace d s "user1-ns", ssoDelegated)).
Proof.
  intros d claims s login.
  assert (getServiceAccount d s claims (ssoNamespace s) = Ok login) as H1
    by (vm_compute; reflexivity).
  assert (forall p, getServiceAccount d s claims "user1-ns" <> Panic p) as H2
    by (intros p; vm_compute; discriminate).
  split; [exact H1|]. split; [exact H2|].
  destruct (delegation_needs_higher_precedence d s claims "user1-ns" login emptyWorld H1 H2)
    as (w1 & delegate & b & Hsel & _).
  by exists w1, delegate, b.
Defined.

(** C2 (as stated) fails on a request without a namespace.  Single-namespace
    mode is off, the toggle is on, the requested namespace (empty) differs
    from the identity-home namespace, and the selector finds for it an
    account of precedence 2 against the login account's 1; the login account
    remains the delegate. *)
Lemma empty_namespace_is_not_delegated :
  let d := testDeps "true" in
  let claims := Some (groupClaims "u" ["my-group"; "other-group"]) in
  let s := testGatekeeper SSO (testSSO true claims) false testAccounts
             (testEnforcer [] [] [] []) in
  let login := account "my-sa" "my-ns" "'my-group' in groups" "1" ["my-secret"] in
  let other := account "user1-sa" "user1-ns" "'my-group' in groups" "2" ["user-secret"] in
  delegationPermittedSpec d s ""
  /\ getServiceAccount d s claims (ssoNamespace s) = Ok login
  /\ getServiceAccount d s claims "" = Ok other
  /\ precedence d login < precedence d other
  /\ selectDelegate d s claims "" login emptyWorld = (emptyWorld, Ok (login, false, false))
  /\ (rbacAuthorization d s claims "" emptyWorld).1
     = addLog emptyWorld (auditEntry login login (groupClaims "u" ["my-group"; "other-group"])
                            false false).
Proof.
  split; [repeat split; discriminate|].
  vm_compute. repeat split; reflexivity.
Qed.

(** ** Server mode *)

(** C6.  In Server mode the policy engine is asked about the subject
    ["serviceaccount:<primaryCluster>:<serverNamespace>:argo-server"], and
    the requested cluster is resolved only after the engine has answered
    yes; a denial ends the call as [PermissionDenied] with no resolution
    attempted, while an unknown cluster ends it, after a passed check, as
    [ClusterNotFound], which is no gRPC status error. *)
Theorem server_mode_enforces_before_resolving (d : Deps) (s : gatekeeper)
    (ctx : context.Context) (req : request) (w : World) (authorization : string)
    (msg : servertypes.Req) (primary : servertypes.Clients)
    (Hmsg : requestDescriptor d ctx req w = (w, Ok msg))
    (Hprimary : Primary d (clients s) = Some primary) :
  let sub := "serviceaccount:" +:+ PrimaryCluster d +:+ ":" +:+ namespace s
             +:+ ":" +:+ "argo-server" in
  let obj := objectOf msg in
  let act := servertypes.Act msg in
  let cluster := servertypes.Cluster msg in
  let decision := enf_Enforce (enforcer s) (policy w) sub obj act in
  let w1 := addEvent w (EvEnforce sub obj act decision) in
  let w2 := addEvent w1 (EvFind cluster) in
  resolve d s Server authorization ctx req w
  = match decision with
    | (_, Some err) => (w1, Err err)
    | (false, None) => (w1, Err (accessDenied d sub obj act))
    | (true, None) =>
        match clients s !! cluster with
        | Some p => (w2, Ok (Some p, ClaimSetFor d (servertypes.RESTConfig primary)))
        | None => (w2, Err (ClusterNotFound cluster))
        end
    end
  /\ (forall c desc, ClusterNotFound cluster <> StatusError c desc).
Proof.
  intros sub obj act cluster decision w1 w2. split; [|done].
  subst w2 w1 decision cluster act obj sub.
  unfold resolve, bind. rewrite Hmsg. unfold deref. rewrite Hprimary.
  unfold allowed, bind, Enforce, Find, emit, ret, fail, addEvent, accessDenied, objectOf.
  destruct (enf_Enforce (enforcer s) (policy w) _ _ _) as [[] [e|]]; try reflexivity.
  cbn [policy logs trace]. by destruct (clients s !! servertypes.Cluster msg).
Qed.

Lemma server_mode_enforces_before_resolving_witness :
  let d := testDeps "" in
  let s := testGatekeeper Server (testSSO false None) true testAccounts
             (testEnforcer ["serviceaccount:primary:my-ns:argo-server"] [] [] []) in
  let req := IsReq {| servertypes.Cluster := "elsewhere"; servertypes.Namespace := "my-ns";
                      servertypes.Act := "get"; servertypes.Resource := "workflows" |} in
  let msg := {| servertypes.Cluster := "elsewhere"; servertypes.Namespace := "my-ns";
                servertypes.Act := "get"; servertypes.Resource := "workflows" |} in
  requestDescriptor d (x "") req emptyWorld = (emptyWorld, Ok msg)
  /\ Primary d (clients s) = Some primaryClients
  /\ (resolve d s Server "" (x "") req emptyWorld).2 = Err (ClusterNotFound "elsewhere")
  /\ trace (resolve d s Server "" (x "") req emptyWorld).1
     = [EvEnforce "serviceaccount:primary:my-ns:argo-server" "elsewhere:workflows:my-ns" "get"
          (true, None);
        EvFind "elsewhere"].
Proof.
  intros d s req msg.
  assert (requestDescriptor d (x "") req emptyWorld = (emptyWorld, Ok msg)) as H1
    by reflexivity.
  assert (Primary d (clients s) = Some primaryClients) as H2 by (vm_compute; reflexivity).
  split; [exact H1|]. split; [exact H2|].
  destruct (server_mode_enforces_before_resolving d s (x "") req emptyWorld "" msg
              primaryClients H1 H2) as [H _].
  rewrite H. vm_compute. split; reflexivity.
Defined.

(** ** Transient grants *)

Section Grants.
Variable d : Deps.
Variable s : gatekeeper.
Variables cluster sub : string.

Lemma addPolicies_loop_logs (groups : list string) (w : World) :
  exists w' r, addPolicies_loop d s cluster sub groups w = (w', r)
               /\ logs w' = logs w /\ (forall p, r <> Panic p).
Proof.
  revert w. induction groups as [|g groups IH]; intros w; simpl.
  - by exists w, (Ok tt).
  - unfold bind, AddGroupingPolicy.
    destruct (enf_AddError (enforcer s) sub (groupName cluster g)) as [e|]; simpl.
    + by eexists _, _.
    + destruct (IH {| policy := {[(sub, groupName cluster g)]} ∪ policy w;
                      logs := logs w;
                      trace := trace w ++ [EvAddGroupingPolicy sub (groupName cluster g)] |})
        as (w' & r & -> & Hlogs & Hr).
      by exists w', r.
Qed.

Lemma removePolicies_loop_logs (groups : list string) (w : World) :
  exists w' r, removePolicies_loop d s cluster sub groups w = (w', r)
               /\ logs w' = logs w /\ (forall p, r <> Panic p).
Proof.
  revert w. induction groups as [|g groups IH]; intros w; simpl.
  - by exists w, (Ok tt).
  - unfold bind, RemoveGroupingPolicy.
    destruct (enf_RemoveError (enforcer s) sub (groupName cluster g)) as [e|]; simpl.
    + by eexists _, _.
    + destruct (IH {| policy := policy w ∖ {[(sub, groupName cluster g)]};
                      logs := logs w;
                      trace := trace w ++ [EvRemoveGroupingPolicy sub (groupName cluster g)] |})
        as (w' & r & -> & Hlogs & Hr).
      by exists w', r.
Qed.

(** When the engine accepts every insertion, [addPolicies] holds exactly
    the edges of the groups on top of what the engine held. *)
Lemma addPolicies_loop_ok (groups : list string) (w : World) :
  Forall (fun g => enf_AddError (enforcer s) sub (groupName cluster g) = None) groups ->
  exists w', addPolicies_loop d s cluster sub groups w = (w', Ok tt)
             /\ policy w' = groupEdges cluster sub groups ∪ policy w
             /\ logs w' = logs w.
Proof.
  intros Hall. revert w. induction Hall as [|g groups Hg _ IH]; intros w; simpl.
  - exists w. unfold groupEdges. simpl. repeat split. set_solver.
  - unfold bind, AddGroupingPolicy. rewrite Hg. simpl.
    destruct (IH {| policy := {[(sub, groupName cluster g)]} ∪ policy w;
                    logs := logs w;
                    trace := trace w ++ [EvAddGroupingPolicy sub (groupName cluster g)] |})
      as (w' & -> & Hpol & Hlogs).
    exists w'. repeat split; [|done]. rewrite Hpol. unfold groupEdges. simpl. set_solver.
Qed.

(** When the engine accepts every removal, [removePolicies] leaves none
    of the edges of the groups. *)
Lemma removePolicies_loop_ok (groups : list string) (w : World) :
  Forall (fun g => enf_RemoveError (enforcer s) sub (groupName cluster g) = None) groups ->
  exists w', removePolicies_loop d s cluster sub groups w = (w', Ok tt)
             /\ policy w' = policy w ∖ groupEdges cluster sub groups
             /\ logs w' = logs w.
Proof.
  intros Hall. revert w. induction Hall as [|g groups Hg _ IH]; intros w; simpl.
  - exists w. unfold groupEdges. simpl. repeat split. set_solver.
  - unfold bind, RemoveGroupingPolicy. rewrite Hg. simpl.
    destruct (IH {| policy := policy w ∖ {[(sub, groupName cluster g)]};
                    logs := logs w;
                    trace := trace w ++ [EvRemoveGroupingPolicy sub (groupName cluster g)] |})
      as (w' & -> & Hpol & Hlogs).
    exists w'. repeat split; [|done]. rewrite Hpol. unfold groupEdges. simpl. set_solver.
Qed.
End Grants.

(** ** The SSO branch *)

Lemma defer_run {A} (cleanup : M unit) (body : M A) (w : World) :
  (forall p, (cleanup (body w).1).2 <> Panic p) ->
  defer cleanup body w = ((cleanup (body w).1).1, (body w).2).
Proof.
  unfold defer. destruct (body w) as [w1 r]. simpl.
  destruct (cleanup w1) as [w2 [[]|e|p]]; simpl; intros H; try done.
  by destruct (H p).
Qed.

Lemma removeGrants_run (d : Deps) (s : gatekeeper) (c : types.Claims)
    (cluster sub : string) (w : World) :
  exists w' r, removeGrants d s (Some c) cluster sub w = (w', r)
    /\ (forall p, r <> Panic p)
    /\ (logs w' = logs w
        \/ exists e, logs w' = (logs w ++ [{| log_Level := ErrorLevel;
                                              log_Message := "failed to remove policy";
                                              log_Fields := [("sub", sub)];
                                              log_Error := Some e |}])%list).
Proof.
  unfold removeGrants, on_error, removePolicies, deref. rewrite bind_ret_l.
  destruct (removePolicies_loop_logs d s cluster sub (types.Groups c) w)
    as (w1 & r & -> & Hlogs & Hr).
  destruct r as [[]|e|p].
  - exists w1, (Ok tt). by repeat split; [|left].
  - eexists _, _. split; [reflexivity|]. split; [done|]. right. exists e. simpl.
    by rewrite Hlogs.
  - by destruct (Hr p).
Qed.

Lemma enforceWithGrants_run (d : Deps) (s : gatekeeper)
    (profile : option servertypes.Clients) (c : types.Claims)
    (msg : servertypes.Req) (obj : string) (w w1 : World) :
  addPolicies d s (Some c) (servertypes.Cluster msg) (userSubject d c) w = (w1, Ok tt) ->
  enforceWithGrants d s profile (Some c) msg obj w
  = ((removeGrants d s (Some c) (servertypes.Cluster msg) (userSubject d c)
        (checkAndResolve d s profile (Some c) msg obj (userSubject d c) w1).1).1,
     (checkAndResolve d s profile (Some c) msg obj (userSubject d c) w1).2).
Proof.
  intros Hadd. unfold enforceWithGrants, deref. rewrite bind_ret_l.
  fold (userSubject d c). rewrite (bind_run _ _ _ _ _ Hadd).
  fold (removeGrants d s (Some c) (servertypes.Cluster msg) (userSubject d c)).
  fold (checkAndResolve d s profile (Some c) msg obj (userSubject d c)).
  apply defer_run. intros p.
  destruct (removeGrants_run d s c (servertypes.Cluster msg) (userSubject d c)
              (checkAndResolve d s profile (Some c) msg obj (userSubject d c) w1).1)
    as (w' & r & -> & Hr & _).
  apply Hr.
Qed.

Lemma accessDenied_is_not_generic (d : Deps) (sub obj act : string) :
  accessDenied d sub obj act <> StatusError PermissionDenied "not allowed".
Proof. unfold accessDenied. simpl. discriminate. Qed.

Section SSOBranch.
Variable d : Deps.
Variable s : gatekeeper.
Variable ctx : context.Context.
Variable req : request.
Variable authorization : string.
Variable msg : servertypes.Req.

(** The SSO branch, once the descriptor is built and the identity
    authorizer has answered. *)
Lemma resolve_SSO_run (claims : option types.Claims) (w : World) :
  requestDescriptor d ctx req w = (w, Ok msg) ->
  Authorize (ssoIf s) authorization = Ok claims ->
  resolve d s SSO authorization ctx req w
  = (cc <- ssoProfile d s claims (servertypes.Namespace msg) ;;
     enforceWithGrants d s cc.1 cc.2 msg (objectOf msg)) w.
Proof.
  intros Hmsg Hauth. unfold resolve. rewrite (bind_run _ _ _ _ _ Hmsg).
  unfold on_error at 1, lift. unfold bind at 1. rewrite Hauth. reflexivity.
Qed.

(** C4 (amended).  In SSO mode, when the policy engine answers no, the
    caller receives [PermissionDenied] with the detailed reason as its
    message, naming subject, object and action; this is not the fixed
    message "not allowed", and the denial adds no log entry (the only
    entry the grant wrapper can add reports a failed removal). *)
Theorem sso_denial_returns_detailed_reason
    (claims : option types.Claims) (profile : option servertypes.Clients)
    (c : types.Claims) (w w1 w2 : World)
    (Hmsg : requestDescriptor d ctx req w = (w, Ok msg))
    (Hauth : Authorize (ssoIf s) authorization = Ok claims)
    (Hprofile : ssoProfile d s claims (servertypes.Namespace msg) w
                = (w1, Ok (profile, Some c)))
    (Hadd : addPolicies d s (Some c) (servertypes.Cluster msg) (userSubject d c) w1
            = (w2, Ok tt))
    (Hdeny : enf_Enforce (enforcer s) (policy w2) (userSubject d c) (objectOf msg)
               (servertypes.Act msg) = (false, None)) :
  exists w',
    resolve d s SSO authorization ctx req w
    = (w', Err (accessDenied d (userSubject d c) (objectOf msg) (servertypes.Act msg)))
    /\ accessDenied d (userSubject d c) (objectOf msg) (servertypes.Act msg)
       <> StatusError PermissionDenied "not allowed"
    /\ (logs w' = logs w2
        \/ exists e, logs w' = (logs w2 ++ [{| log_Level := ErrorLevel;
                                               log_Message := "failed to remove policy";
                                               log_Fields := [("sub", userSubject d c)];
                                               log_Error := Some e |}])%list).
Proof.
  rewrite (resolve_SSO_run _ _ Hmsg Hauth), (bind_run _ _ _ _ _ Hprofile).
  simpl fst; simpl snd. rewrite (enforceWithGrants_run _ _ _ _ _ _ _ _ Hadd).
  assert (checkAndResolve d s profile (Some c) msg (objectOf msg) (userSubject d c) w2
          = (addEvent w2 (EvEnforce (userSubject d c) (objectOf msg) (servertypes.Act msg)
                            (false, None)),
             Err (accessDenied d (userSubject d c) (objectOf msg) (servertypes.Act msg))))
    as ->.
  { unfold checkAndResolve, allowed, bind, Enforce. by rewrite Hdeny. }
  simpl fst; simpl snd.
  destruct (removeGrants_run d s c (servertypes.Cluster msg) (userSubject d c)
              (addEvent w2 (EvEnforce (userSubject d c) (objectOf msg)
                              (servertypes.Act msg) (false, None))))
    as (w' & r & -> & _ & Hlogs).
  exists w'. split; [done|]. split; [apply accessDenied_is_not_generic|exact Hlogs].
Qed.

(** C8 (amended).  In SSO mode with RBAC enabled, when the selector finds
    no matching rule for the login namespace (or fails there in any other
    way), the failure is logged and the caller receives
    [PermissionDenied] with the message "not allowed"; nothing else
    happens.  A policy denial carries the same code, and a different
    message. *)
Theorem sso_no_matching_rule_is_not_allowed
    (claims : option types.Claims) (e : error) (w : World)
    (Hmsg : requestDescriptor d ctx req w = (w, Ok msg))
    (Hauth : Authorize (ssoIf s) authorization = Ok claims)
    (Hrbac : IsRBACEnabled (ssoIf s) = true)
    (Hnone : getServiceAccount d s claims (ssoNamespace s) = Err e) :
  resolve d s SSO authorization ctx req w
  = (addLog w (rbacFailureEntry e), Err (StatusError PermissionDenied "not allowed"))
  /\ Error (StatusError PermissionDenied "not allowed")
     = "rpc error: code = PermissionDenied desc = not allowed"
  /\ (forall sub obj act,
        exists desc, accessDenied d sub obj act = StatusError PermissionDenied desc
                     /\ desc <> "not allowed").
Proof.
  split; [|split; [reflexivity|]].
  - rewrite (resolve_SSO_run _ _ Hmsg Hauth).
    unfold ssoProfile. rewrite Hrbac. unfold rbacAuthorization.
    unfold bind at 1. unfold on_error. unfold bind at 1. unfold bind at 1.
    unfold lift. rewrite Hnone. reflexivity.
  - intros sub obj act. eexists. split; [reflexivity|]. simpl. discriminate.
Qed.
End SSOBranch.

Lemma sso_denial_returns_detailed_reason_witness :
  let d := testDeps "" in
  let c := groupClaims "u" ["my-group"] in
  let s := testGatekeeper SSO (testSSO false (Some c)) true testAccounts
             (testEnforcer [] [] [] []) in
  let msg := {| servertypes.Cluster := "primary"; servertypes.Namespace := "my-ns";
                servertypes.Act := "get"; servertypes.Resource := "workflows" |} in
  exists profile w1 w2,
    requestDescriptor d (x "Bearer v2:whatever") (reqHolder "my-ns") emptyWorld
    = (emptyWorld, Ok msg)
    /\ Authorize (ssoIf s) "Bearer v2:whatever" = Ok (Some c)
    /\ ssoProfile d s (Some c) (servertypes.Namespace msg) emptyWorld
       = (w1, Ok (profile, Some c))
    /\ addPolicies d s (Some c) (servertypes.Cluster msg) (userSubject d c) w1 = (w2, Ok tt)
    /\ enf_Enforce (enforcer s) (policy w2) (userSubject d c) (objectOf msg)
         (servertypes.Act msg) = (false, None)
    /\ exists w',
         resolve d s SSO "Bearer v2:whatever" (x "Bearer v2:whatever") (reqHolder "my-ns")
           emptyWorld
         = (w', Err (accessDenied d (userSubject d c) (objectOf msg) (servertypes.Act msg))).
Proof.
  intros d c s msg.
  pose (w1 := (ssoProfile d s (Some c) (servertypes.Namespace msg) emptyWorld).1).
  pose (w2 := (addPolicies d s (Some c) (servertypes.Cluster msg) (userSubject d c) w1).1).
  assert (ssoProfile d s (Some c) (servertypes.Namespace msg) emptyWorld
          = (w1, Ok (Some primaryClients, Some c))) as H3 by (vm_compute; reflexivity).
  assert (addPolicies d s (Some c) (servertypes.Cluster msg) (userSubject d c) w1
          = (w2, Ok tt)) as H4 by (vm_compute; reflexivity).
  assert (enf_Enforce (enforcer s) (policy w2) (userSubject d c) (objectOf msg)
            (servertypes.Act msg) = (false, None)) as H5 by (vm_compute; reflexivity).
  exists (Some primaryClients), w1, w2.
  split; [reflexivity|]. split; [reflexivity|]. split; [exact H3|].
  split; [exact H4|]. split; [exact H5|].
  destruct (sso_denial_returns_detailed_reason d s (x "Bearer v2:whatever")
              (reqHolder "my-ns") "Bearer v2:whatever" msg (Some c)
              (Some primaryClients) c emptyWorld w1 w2 eq_refl eq_refl H3 H4 H5)
    as (w' & Hres & _).
  by exists w'.
Defined.

(** C4 (as stated) fails: the rule of [my-sa] matches, the policy engine
    answers no, and the caller reads the subject, the object and the action
    in the message; the log holds the audit entry only. *)
Lemma sso_denial_message_is_detailed :
  let d := testDeps "" in
  let c := groupClaims "u" ["my-group"] in
  let s := testGatekeeper SSO (testSSO true (Some c)) true testAccounts
             (testEnforcer [] [] [] []) in
  let r := getClients d s (x "Bearer v2:whatever") (reqHolder "my-ns") emptyWorld in
  trace r.1
  = [EvAddGroupingPolicy "user:primary:u" "group:primary:my-group";
     EvEnforce "user:primary:u" "primary:workflows:my-ns" "get" (false, None);
     EvRemoveGroupingPolicy "user:primary:u" "group:primary:my-group"]
  /\ r.2 = Err (StatusError PermissionDenied
                  ("access denied to " +:+ quoteASCII "user:primary:u" +:+ " for "
                   +:+ quoteASCII "primary:workflows:my-ns" +:+ " "
                   +:+ quoteASCII "get"))
  /\ r.2 <> Err (StatusError PermissionDenied "not allowed")
  /\ map log_Message (logs r.1) = ["selected SSO RBAC service account for user"].
Proof.
  vm_compute. split; [reflexivity|split; [reflexivity|split; [discriminate|reflexivity]]].
Qed.

Lemma sso_no_matching_rule_is_not_allowed_witness :
  let d := testDeps "" in
  let c := groupClaims "" [] in
  let s := testGatekeeper SSO (testSSO true (Some c)) true testAccounts
             (testEnforcer [] [] [] []) in
  let msg := {| servertypes.Cluster := "primary"; servertypes.Namespace := "my-ns";
                servertypes.Act := "get"; servertypes.Resource := "workflows" |} in
  let e := ErrorString "no service account rule matches" in
  requestDescriptor d (x "Bearer v2:whatever") (reqHolder "my-ns") emptyWorld
  = (emptyWorld, Ok msg)
  /\ Authorize (ssoIf s) "Bearer v2:whatever" = Ok (Some c)
  /\ IsRBACEnabled (ssoIf s) = true
  /\ getServiceAccount d s (Some c) (ssoNamespace s) = Err e
  /\ resolve d s SSO "Bearer v2:whatever" (x "Bearer v2:whatever") (reqHolder "my-ns")
       emptyWorld
     = (addLog emptyWorld (rbacFailureEntry e),
        Err (StatusError PermissionDenied "not allowed")).
Proof.
  intros d c s msg e.
  assert (getServiceAccount d s (Some c) (ssoNamespace s) = Err e) as H4
    by (vm_compute; reflexivity).
  split; [reflexivity|]. split; [reflexivity|]. split; [reflexivity|]. split; [exact H4|].
  exact (proj1 (sso_no_matching_rule_is_not_allowed d s (x "Bearer v2:whatever")
                  (reqHolder "my-ns") "Bearer v2:whatever" msg (Some c) e emptyWorld
                  eq_refl eq_refl eq_refl H4)).
Defined.

(** C8 (as stated) fails in its last clause: the same request, against the
    same policy engine, is refused once because no rule matches the claims
    and once because the engine denies the matched identity; the two
    refusals reach the caller with different messages. *)
Lemma no_match_and_denial_are_distinguishable :
  let d := testDeps "" in
  let unmatched := testGatekeeper SSO (testSSO true (Some (groupClaims "u" []))) true
                     testAccounts (testEnforcer [] [] [] []) in
  let denied := testGatekeeper SSO (testSSO true (Some (groupClaims "u" ["my-group"]))) true
                  testAccounts (testEnforcer [] [] [] []) in
  let run s := (getClients d s (x "Bearer v2:whatever") (reqHolder "my-ns") emptyWorld).2 in
  getServiceAccount d unmatched (Some (groupClaims "u" [])) "my-ns"
  = Err (ErrorString "no service account rule matches")
  /\ run unmatched = Err (StatusError PermissionDenied "not allowed")
  /\ run denied = Err (StatusError PermissionDenied
                         ("access denied to " +:+ quoteASCII "user:primary:u" +:+ " for "
                          +:+ quoteASCII "primary:workflows:my-ns" +:+ " "
                          +:+ quoteASCII "get"))
  /\ run unmatched <> run denied.
Proof. vm_compute. repeat split; try reflexivity. discriminate. Qed.

(** ** Claims of a successful resolution *)

Lemma enforceWithGrants_Ok_claims (d : Deps) (s : gatekeeper)
    (profile p : option servertypes.Clients) (claims0 claims : option types.Claims)
    (msg : servertypes.Req) (obj : string) (w w' : World) :
  enforceWithGrants d s profile claims0 msg obj w = (w', Ok (p, claims)) ->
  claims = claims0 /\ is_Some claims.
Proof.
  unfold enforceWithGrants. destruct claims0 as [c|]; [|discriminate].
  unfold deref. rewrite bind_ret_l. intros H.
  apply bind_Ok_inv in H as (w1 & [] & _ & H).
  apply defer_Ok_inv in H as (w2 & H).
  apply bind_Ok_inv in H as (w3 & [] & _ & H).
  destruct (String.eqb _ _).
  - inversion H; subst. split; [done|by exists c].
  - apply bind_Ok_inv in H as (w4 & p' & _ & H). inversion H; subst.
    split; [done|by exists c].
Qed.

(** C7 (amended).  A successful resolution in SSO mode returns claims that
    are not nil.  In Client and in Server mode the claims are whatever
    [serviceaccount.ClaimSetFor] derives from the credential of the
    resolved profile, respectively of the primary cluster: nil when nothing
    can be derived. *)
Theorem successful_resolution_claims (d : Deps) (s : gatekeeper)
    (ctx : context.Context) (req : request) (w w' : World)
    (p : option servertypes.Clients) (claims : option types.Claims)
    (H : getClients d s ctx req w = (w', Ok (p, claims))) :
  exists mode authorization,
    selectMode s (candidateTokens d (context.md ctx)) = Some (mode, authorization)
    /\ match mode with
       | SSO => is_Some claims
       | Client =>
           exists profile, p = Some profile
                           /\ claims = ClaimSetFor d (servertypes.RESTConfig profile)
       | Server =>
           exists primary, Primary d (clients s) = Some primary
                           /\ claims = ClaimSetFor d (servertypes.RESTConfig primary)
       end.
Proof.
  unfold getClients in H. cbv zeta in H. rewrite getAuthHeaders_candidateTokens in H.
  destruct (selectMode s (candidateTokens d (context.md ctx))) as [[mode authorization]|];
    [|discriminate].
  exists mode, authorization. split; [done|].
  unfold resolve in H. apply bind_Ok_inv in H as (w1 & msg & _ & H).
  destruct mode.
  - apply bind_Ok_inv in H as (w2 & profile & _ & H). inversion H; subst.
    by exists profile.
  - destruct (Primary d (clients s)) as [primary|]; [|discriminate].
    unfold deref in H. rewrite bind_ret_l in H.
    apply bind_Ok_inv in H as (w2 & [] & _ & H).
    apply bind_Ok_inv in H as (w3 & p' & _ & H). inversion H; subst.
    by exists primary.
  - apply bind_Ok_inv in H as (w2 & claims0 & _ & H).
    apply bind_Ok_inv in H as (w3 & cc & _ & H).
    by apply enforceWithGrants_Ok_claims in H as [_ ?].
Qed.

Lemma successful_resolution_claims_witness :
  let d := testDeps "" in
  let c := groupClaims "u" ["my-group"; "other-group"] in
  let s := testGatekeeper SSO (testSSO true (Some c)) true testAccounts
             (testEnforcer [] ["group:primary:my-group"] [] []) in
  let ctx := x "Bearer v2:whatever" in
  let run := getClients d s ctx (reqHolder "my-ns") emptyWorld in
  run = (run.1, Ok (Some (tokenProfile {| rest.Username := ""; rest.BearerToken := "" |}),
                    Some (setServiceAccountName c "my-sa")))
  /\ exists mode authorization,
       selectMode s (candidateTokens d (context.md ctx)) = Some (mode, authorization)
       /\ mode = SSO.
Proof.
  intros d c s ctx run.
  match goal with |- ?L = ?R /\ _ => assert (L = R) as H by (vm_compute; reflexivity) end.
  split; [exact H|].
  destruct (successful_resolution_claims d s ctx (reqHolder "my-ns") emptyWorld _ _ _ H)
    as (mode & authorization & Hsel & _).
  exists mode, authorization. split; [exact Hsel|].
  vm_compute in Hsel. by inversion Hsel.
Defined.

(** C7 (as stated) fails in Client mode: a bearer token from which no
    claims can be derived resolves successfully, with nil claims. *)
Lemma client_mode_claims_may_be_nil :
  let d := testDeps "" in
  let s := testGatekeeper Client (testSSO false None) true testAccounts
             (testEnforcer [] [] [] []) in
  exists w' profile,
    getClients d s (x "Bearer ") (reqHolder "my-ns") emptyWorld
    = (w', Ok (Some profile, None)).
Proof. eexists _, _. vm_compute. reflexivity. Qed.

(** ** Removal of the transient grants *)

Lemma checkAndResolve_policy (d : Deps) (s : gatekeeper)
    (profile : option servertypes.Clients) (claims : option types.Claims)
    (msg : servertypes.Req) (obj sub : string) (w : World) :
  policy (checkAndResolve d s profile claims msg obj sub w).1 = policy w.
Proof.
  unfold checkAndResolve, allowed, bind, Enforce, Find, emit, ret, fail.
  destruct (enf_Enforce (enforcer s) (policy w) sub obj (servertypes.Act msg))
    as [[] [e|]]; try reflexivity.
  destruct (String.eqb _ _); [reflexivity|]. cbn [policy].
  by destruct (clients s !! servertypes.Cluster msg).
Qed.

(** Where the grant wrapper keeps its promise: when the engine accepts
    every insertion and every removal, no edge from the subject to a group
    of the claims is left once the decision is returned, whatever the
    check and the cluster resolution answered. *)
Lemma grants_removed_when_engine_cooperates (d : Deps) (s : gatekeeper)
    (profile : option servertypes.Clients) (c : types.Claims)
    (msg : servertypes.Req) (obj : string) (w : World) :
  Forall (fun g => enf_AddError (enforcer s) (userSubject d c)
                     (groupName (servertypes.Cluster msg) g) = None) (types.Groups c) ->
  Forall (fun g => enf_RemoveError (enforcer s) (userSubject d c)
                     (groupName (servertypes.Cluster msg) g) = None) (types.Groups c) ->
  policy (enforceWithGrants d s profile (Some c) msg obj w).1
  = policy w ∖ groupEdges (servertypes.Cluster msg) (userSubject d c) (types.Groups c).
Proof.
  intros Hadd Hremove.
  destruct (addPolicies_loop_ok d s (servertypes.Cluster msg) (userSubject d c)
              (types.Groups c) w Hadd) as (w1 & Hrun & Hpol & _).
  rewrite (enforceWithGrants_run d s profile c msg obj w w1)
    by (unfold addPolicies, deref; by rewrite bind_ret_l).
  cbn [fst]. unfold removeGrants, on_error, removePolicies, deref. rewrite bind_ret_l.
  destruct (removePolicies_loop_ok d s (servertypes.Cluster msg) (userSubject d c)
              (types.Groups c)
              (checkAndResolve d s profile (Some c) msg obj (userSubject d c) w1).1 Hremove)
    as (w2 & -> & Hpol2 & _).
  cbn [fst]. rewrite Hpol2, checkAndResolve_policy, Hpol. set_solver.
Qed.

(** C1, at the inputs where the code breaks it.  First run: the engine
    rejects the insertion of the second group; [getClients] returns the
    error before the removal is deferred, and the edge to the first group
    stays in the engine.  Second run: the engine rejects the removal of the
    first group; [removePolicies] stops there, and the edge to the second
    group stays as well. *)
Theorem grants_left_behind :
  let d := testDeps "" in
  let c := groupClaims "u" ["my-group"; "other-group"] in
  let failedAdd :=
    getClients d
      (testGatekeeper SSO (testSSO false (Some c)) true testAccounts
         (testEnforcer [] ["group:primary:my-group"] ["group:primary:other-group"] []))
      (x "Bearer v2:whatever") (reqHolder "my-ns") emptyWorld in
  let failedRemove :=
    getClients d
      (testGatekeeper SSO (testSSO false (Some c)) true testAccounts
         (testEnforcer [] ["group:primary:my-group"] [] ["group:primary:my-group"]))
      (x "Bearer v2:whatever") (reqHolder "my-ns") emptyWorld in
  failedAdd.2
  = Err (ErrorString ("failed to add policy for group "
                      +:+ quoteASCII "group:primary:other-group"))
  /\ trace failedAdd.1
     = [EvAddGroupingPolicy "user:primary:u" "group:primary:my-group";
        EvAddGroupingPolicy "user:primary:u" "group:primary:other-group"]
  /\ elements (policy failedAdd.1) = [("user:primary:u", "group:primary:my-group")]
  /\ is_Ok failedRemove.2 = true
  /\ trace failedRemove.1
     = [EvAddGroupingPolicy "user:primary:u" "group:primary:my-group";
        EvAddGroupingPolicy "user:primary:u" "group:primary:other-group";
        EvEnforce "user:primary:u" "primary:workflows:my-ns" "get" (true, None);
        EvRemoveGroupingPolicy "user:primary:u" "group:primary:my-group"]
  /\ ("user:primary:u", "group:primary:my-group") ∈ policy failedRemove.1
  /\ ("user:primary:u", "group:primary:other-group") ∈ policy failedRemove.1.
Proof.
  repeat split; try (vm_compute; reflexivity);
    apply elem_of_elements; vm_compute; auto using list_elem_of_here, list_elem_of_further.
Qed.

(** * Further properties of the gatekeeper *)

(** ** Computations that leave the world, or the policy engine, alone *)

Lemma keepsWorld_ret {A} (a : A) : keepsWorld (ret a).
Proof. by intros w. Qed.

Lemma keepsWorld_fail {A} (e : error) : keepsWorld (@fail A e).
Proof. by intros w. Qed.

Lemma keepsWorld_panic {A} (p : string) : keepsWorld (@panic A p).
Proof. by intros w. Qed.

Lemma keepsWorld_lift {A} (r : result A) : keepsWorld (lift r).
Proof. by intros w. Qed.

Lemma keepsWorld_deref {A} (p : option A) : keepsWorld (deref p).
Proof. intros w. by destruct p. Qed.

Lemma keepsWorld_bind {A B} (m : M A) (f : A -> M B) :
  keepsWorld m -> (forall a, keepsWorld (f a)) -> keepsWorld (bind m f).
Proof.
  intros Hm Hf w. unfold bind. specialize (Hm w).
  destruct (m w) as [w1 [a|e|p]]; simpl in *; subst; [apply Hf|done..].
Qed.

Lemma keepsWorld_on_error {A} (m : M A) (h : error -> M A) :
  keepsWorld m -> (forall e, keepsWorld (h e)) -> keepsWorld (on_error m h).
Proof.
  intros Hm Hh w. unfold on_error. specialize (Hm w).
  destruct (m w) as [w1 [a|e|p]]; simpl in *; subst; [done|apply Hh|done].
Qed.

Lemma keepsWorld_keepsEngine {A} (m : M A) : keepsWorld m -> keepsEngine m.
Proof. intros H w. by rewrite H. Qed.

Lemma keepsEngine_log (l : Level) (msg : string) (fields : list (string * string))
    (e : option error) : keepsEngine (log l msg fields e).
Proof. by intros w. Qed.

Lemma keepsEngine_bind {A B} (m : M A) (f : A -> M B) :
  keepsEngine m -> (forall a, keepsEngine (f a)) -> keepsEngine (bind m f).
Proof.
  intros Hm Hf w. unfold bind. destruct (Hm w) as [Hp Ht].
  destruct (m w) as [w1 [a|e|p]]; simpl in *; [|done..].
  destruct (Hf a w1) as [Hp' Ht']. by rewrite Hp', Ht'.
Qed.

Lemma keepsEngine_on_error {A} (m : M A) (h : error -> M A) :
  keepsEngine m -> (forall e, keepsEngine (h e)) -> keepsEngine (on_error m h).
Proof.
  intros Hm Hh w. unfold on_error. destruct (Hm w) as [Hp Ht].
  destruct (m w) as [w1 [a|e|p]]; simpl in *; [done| |done].
  destruct (Hh e w1) as [Hp' Ht']. by rewrite Hp', Ht'.
Qed.

Create HintDb keeps discriminated.
#[local] Hint Resolve keepsWorld_ret keepsWorld_fail keepsWorld_panic keepsWorld_lift
  keepsWorld_deref keepsEngine_log : keeps.
#[local] Hint Extern 2 (keepsWorld (bind _ _)) => apply keepsWorld_bind; [|intros ?] : keeps.
#[local] Hint Extern 2 (keepsWorld (on_error _ _)) =>
  apply keepsWorld_on_error; [|intros ?] : keeps.
#[local] Hint Extern 2 (keepsEngine (bind _ _)) => apply keepsEngine_bind; [|intros ?] : keeps.
#[local] Hint Extern 2 (keepsEngine (on_error _ _)) =>
  apply keepsEngine_on_error; [|intros ?] : keeps.
#[local] Hint Extern 5 (keepsEngine _) => apply keepsWorld_keepsEngine : keeps.

Lemma keepsWorld_requestDescriptor (d : Deps) (ctx : context.Context) (req : request) :
  keepsWorld (requestDescriptor d ctx req).
Proof.
  unfold requestDescriptor. destruct req; [auto with keeps|].
  apply keepsWorld_bind; [auto with keeps|]. intros method.
  destruct (splitOp d method). auto with keeps.
Qed.

Lemma keepsWorld_clientForAuthorization (d : Deps) (s : gatekeeper) (authorization : string) :
  keepsWorld (clientForAuthorization d s authorization).
Proof. unfold clientForAuthorization. auto 10 with keeps. Qed.

Lemma keepsWorld_getClientsForServiceAccount (d : Deps) (s : gatekeeper)
    (claims : option types.Claims) (sa : corev1.ServiceAccount) :
  keepsWorld (getClientsForServiceAccount d s claims sa).
Proof.
  unfold getClientsForServiceAccount.
  pose proof (keepsWorld_clientForAuthorization d s). auto 10 with keeps.
Qed.

Lemma keepsEngine_selectDelegate (d : Deps) (s : gatekeeper)
    (claims : option types.Claims) (namespace : string) (login : corev1.ServiceAccount) :
  keepsEngine (selectDelegate d s claims namespace login).
Proof.
  unfold selectDelegate.
  destruct (canDelegateRBACToRequestNamespace d s namespace); [|auto with keeps].
  destruct (getServiceAccount d s claims namespace); [|auto 10 with keeps..].
  destruct (_ <? _); auto with keeps.
Qed.

Lemma keepsEngine_rbacAuthorization (d : Deps) (s : gatekeeper)
    (claims : option types.Claims) (namespace : string) :
  keepsEngine (rbacAuthorization d s claims namespace).
Proof.
  unfold rbacAuthorization.
  apply keepsEngine_bind; [auto with keeps|]. intros login.
  apply keepsEngine_bind; [apply keepsEngine_selectDelegate|]. intros [[delegate a] b].
  apply keepsEngine_bind; [auto with keeps|]. intros c.
  apply keepsEngine_bind; [auto with keeps|]. intros _.
  apply keepsWorld_keepsEngine, keepsWorld_getClientsForServiceAccount.
Qed.

Lemma keepsEngine_ssoProfile (d : Deps) (s : gatekeeper)
    (claims : option types.Claims) (namespace : string) :
  keepsEngine (ssoProfile d s claims namespace).
Proof.
  unfold ssoProfile. destruct (IsRBACEnabled (ssoIf s)); [|auto 10 with keeps].
  apply keepsEngine_on_error; [|intros e; auto 10 with keeps].
  apply keepsEngine_bind; [apply keepsEngine_rbacAuthorization|]. auto with keeps.
Qed.

Lemma getClients_resolve (d : Deps) (s : gatekeeper) (ctx : context.Context)
    (req : request) (mode : Mode) (authorization : string) (w : World) :
  selectMode s (candidateTokens d (context.md ctx)) = Some (mode, authorization) ->
  getClients d s ctx req w = resolve d s mode authorization ctx req w.
Proof.
  intros Hsel. unfold getClients. cbv zeta.
  by rewrite getAuthHeaders_candidateTokens, Hsel.
Qed.

(** ** Credential failures and the request descriptor *)

(** [clientForAuthorization] fails exactly when the credential exchange
    does, with the same error. *)
Lemma clientForAuthorization_Err (d : Deps) (s : gatekeeper) (authorization : string)
    (cause : error) (w : World) :
  (clientForAuthorization d s authorization w).2 = Err cause
  <-> exchangeFailure d s authorization cause.
Proof.
  unfold clientForAuthorization, exchangeFailure, bind, lift.
  destruct (Primary d (clients s)) as [primary|]; simpl.
  - destruct (GetRestConfig d (servertypes.RESTConfig primary) authorization)
      as [restConfig|e|p] eqn:Hcfg; simpl.
    + split.
      * intros H. exists primary. split; [done|]. right. by exists restConfig.
      * intros (primary' & Hp & [Hbad|(cfg & Hok & Hnew)]); inversion Hp; subst.
        -- rewrite Hcfg in Hbad. discriminate.
        -- rewrite Hcfg in Hok. by inversion Hok; subst.
    + split.
      * intros H. inversion H; subst. exists primary. split; [done|]. by left.
      * intros (primary' & Hp & [Hbad|(cfg & Hok & Hnew)]); inversion Hp; subst.
        -- rewrite Hcfg in Hbad. by inversion Hbad.
        -- rewrite Hcfg in Hok. discriminate.
    + split; [discriminate|].
      intros (primary' & Hp & [Hbad|(cfg & Hok & Hnew)]); inversion Hp; subst.
      * rewrite Hcfg in Hbad. discriminate.
      * rewrite Hcfg in Hok. discriminate.
  - split; [discriminate|]. by intros (primary & Hp & _).
Qed.

(** X1.  In Client mode the gatekeeper consults neither the policy engine nor the
    cluster resolver and writes no log entry: the world is left as it was
    on every outcome.  The only errors it returns are [Unauthenticated]
    with the message of the error on which the credential exchange failed
    and, for a request that is no descriptor, the failure to determine the
    operation; and whenever the descriptor is there and the exchange fails,
    that [Unauthenticated] error is what it returns. *)
Theorem client_mode_leaves_the_world (d : Deps) (s : gatekeeper)
    (ctx : context.Context) (req : request) (authorization : string) (w : World)
    (Hsel : selectMode s (candidateTokens d (context.md ctx)) = Some (Client, authorization)) :
  (getClients d s ctx req w).1 = w
  /\ (forall e, (getClients d s ctx req w).2 = Err e ->
        (exists cause, exchangeFailure d s authorization cause
                       /\ e = StatusError Unauthenticated (Error cause))
        \/ (exists cluster namespace,
              req = NotReq cluster namespace /\ context.operationID ctx = Err e))
  /\ (forall msg cause,
        (requestDescriptor d ctx req w).2 = Ok msg ->
        exchangeFailure d s authorization cause ->
        getClients d s ctx req w = (w, Err (StatusError Unauthenticated (Error cause)))).
Proof.
  rewrite (getClients_resolve _ _ _ _ _ _ _ Hsel).
  pose proof (clientForAuthorization_Err d s authorization) as Hfail.
  split; [|split].
  - unfold resolve. apply keepsWorld_bind; [apply keepsWorld_requestDescriptor|].
    intros msg. pose proof (keepsWorld_clientForAuthorization d s authorization).
    auto 10 with keeps.
  - intros e. unfold resolve, bind at 1.
    destruct req as [m|cluster namespace]; simpl.
    + unfold bind, on_error.
      destruct (clientForAuthorization d s authorization w) as [w1 [c|cause|p]] eqn:Hc;
        simpl; intros H; inversion H; subst. left. exists cause. split; [|done].
      apply (Hfail cause w). by rewrite Hc.
    + unfold bind at 1, lift.
      destruct (context.operationID ctx) as [method|cause|p]; simpl.
      * destruct (splitOp d method). simpl. unfold bind, on_error.
        destruct (clientForAuthorization d s authorization w) as [w1 [c|cause|p]] eqn:Hc;
          simpl; intros H; inversion H; subst. left. exists cause. split; [|done].
        apply (Hfail cause w). by rewrite Hc.
      * intros H; inversion H; subst. right. by exists cluster, namespace.
      * discriminate.
  - intros msg cause Hmsg Hex. apply (Hfail cause w) in Hex.
    pose proof (keepsWorld_requestDescriptor d ctx req w) as Hwd.
    pose proof (keepsWorld_clientForAuthorization d s authorization w) as Hw.
    unfold resolve, bind at 1.
    destruct (requestDescriptor d ctx req w) as [w0 r0]. simpl in Hmsg, Hwd.
    rewrite Hmsg, Hwd. unfold bind, on_error.
    destruct (clientForAuthorization d s authorization w) as [w1 r1].
    simpl in Hw, Hex. by rewrite Hw, Hex.
Qed.

Lemma client_mode_leaves_the_world_witness :
  let d := testDepsRejecting (ErrorString "invalid token") in
  let s := testGatekeeper Client (testSSO false None) true testAccounts
             (testEnforcer [] [] [] []) in
  selectMode s (candidateTokens d (context.md (x "Bearer token"))) = Some (Client, "Bearer token")
  /\ exchangeFailure d s "Bearer token" (ErrorString "invalid token")
  /\ getClients d s (x "Bearer token") (reqHolder "my-ns") emptyWorld
     = (emptyWorld, Err (StatusError Unauthenticated "invalid token")).
Proof.
  intros d s.
  assert (selectMode s (candidateTokens d (context.md (x "Bearer token")))
          = Some (Client, "Bearer token")) as H by (vm_compute; reflexivity).
  assert (exchangeFailure d s "Bearer token" (ErrorString "invalid token")) as Hex.
  { exists primaryClients. split; [vm_compute; reflexivity|]. left. reflexivity. }
  assert (exists msg, (requestDescriptor d (x "Bearer token") (reqHolder "my-ns") emptyWorld).2
                      = Ok msg) as [msg Hmsg] by (eexists; vm_compute; reflexivity).
  split; [exact H|]. split; [exact Hex|].
  exact (proj2 (proj2 (client_mode_leaves_the_world d s (x "Bearer token")
                         (reqHolder "my-ns") "Bearer token" emptyWorld H))
           msg (ErrorString "invalid token") Hmsg Hex).
Defined.

(** X2.  In SSO mode a token that the identity authorizer rejects is refused as
    [Unauthenticated], with the authorizer's message, before the selector,
    the policy engine or the log is involved. *)
Theorem sso_rejected_token_is_unauthenticated (d : Deps) (s : gatekeeper)
    (ctx : context.Context) (msg : servertypes.Req) (authorization : string)
    (cause : error) (w : World)
    (Hsel : selectMode s (candidateTokens d (context.md ctx)) = Some (SSO, authorization))
    (Hauth : Authorize (ssoIf s) authorization = Err cause) :
  getClients d s ctx (IsReq msg) w = (w, Err (StatusError Unauthenticated (Error cause))).
Proof.
  rewrite (getClients_resolve _ _ _ _ _ _ _ Hsel).
  unfold resolve. simpl requestDescriptor. rewrite bind_ret_l.
  unfold bind, on_error, lift. by rewrite Hauth.
Qed.

Lemma sso_rejected_token_is_unauthenticated_witness :
  let d := testDeps "" in
  let s := {| Modes := classify (only SSO);
              clients := {[ "primary" := primaryClients ]};
              ssoIf := {| Authorize := fun _ => Err (ErrorString "token expired");
                          IsRBACEnabled := true |};
              namespace := "my-ns"; ssoNamespace := "my-ns"; namespaced := true;
              cache := cacheOf testAccounts;
              enforcer := testEnforcer [] [] [] [] |} in
  let msg := {| servertypes.Cluster := "primary"; servertypes.Namespace := "my-ns";
                servertypes.Act := "get"; servertypes.Resource := "workflows" |} in
  selectMode s (candidateTokens d (context.md (x "Bearer v2:old")))
  = Some (SSO, "Bearer v2:old")
  /\ Authorize (ssoIf s) "Bearer v2:old" = Err (ErrorString "token expired")
  /\ getClients d s (x "Bearer v2:old") (IsReq msg) emptyWorld
     = (emptyWorld, Err (StatusError Unauthenticated "token expired")).
Proof.
  intros d s msg.
  assert (selectMode s (candidateTokens d (context.md (x "Bearer v2:old")))
          = Some (SSO, "Bearer v2:old")) as H by (vm_compute; reflexivity).
  split; [exact H|]. split; [reflexivity|].
  exact (sso_rejected_token_is_unauthenticated d s (x "Bearer v2:old") msg "Bearer v2:old"
           (ErrorString "token expired") emptyWorld H eq_refl).
Defined.

(** X3.  For a request that is no descriptor, the operation is looked up after
    the token has been accepted and before anything else: when the lookup
    fails, its error is returned as it is, in every mode, and the world is
    untouched. *)
Theorem operation_lookup_failure_is_returned (d : Deps) (s : gatekeeper)
    (ctx : context.Context) (cluster namespace : string) (mode : Mode)
    (authorization : string) (cause : error) (w : World)
    (Hsel : selectMode s (candidateTokens d (context.md ctx)) = Some (mode, authorization))
    (Hop : context.operationID ctx = Err cause) :
  getClients d s ctx (NotReq cluster namespace) w = (w, Err cause).
Proof.
  rewrite (getClients_resolve _ _ _ _ _ _ _ Hsel).
  unfold resolve, requestDescriptor, bind, lift. by rewrite Hop.
Qed.

Lemma operation_lookup_failure_is_returned_witness :
  let d := testDeps "" in
  let s := testGatekeeper Server (testSSO false None) true testAccounts
             (testEnforcer [] [] [] []) in
  selectMode s (candidateTokens d (context.md TODO)) = Some (Server, "")
  /\ context.operationID TODO = Err (ErrorString "no operation")
  /\ getClients d s TODO (NotReq "primary" "my-ns") emptyWorld
     = (emptyWorld, Err (ErrorString "no operation")).
Proof.
  intros d s.
  assert (selectMode s (candidateTokens d (context.md TODO)) = Some (Server, "")) as H
    by (vm_compute; reflexivity).
  split; [exact H|]. split; [reflexivity|].
  exact (operation_lookup_failure_is_returned d s TODO "primary" "my-ns" Server ""
           (ErrorString "no operation") emptyWorld H eq_refl).
Defined.

(** X4.  A request that is no descriptor is handled exactly as the descriptor
    made of its cluster, its namespace, and the action and resource that
    [splitOp] reads off the operation. *)
Theorem generic_request_is_its_descriptor (d : Deps) (s : gatekeeper)
    (ctx : context.Context) (cluster namespace method : string) (w : World)
    (Hop : context.operationID ctx = Ok method) :
  getClients d s ctx (NotReq cluster namespace) w
  = getClients d s ctx
      (IsReq {| servertypes.Cluster := cluster; servertypes.Namespace := namespace;
                servertypes.Act := (splitOp d method).1;
                servertypes.Resource := (splitOp d method).2 |}) w.
Proof.
  unfold getClients. cbv zeta.
  destruct (selectMode s _) as [[mode authorization]|]; [|done].
  unfold resolve, requestDescriptor. unfold bind at 1. unfold bind at 1.
  unfold lift. rewrite Hop. rewrite bind_ret_l.
  by destruct (splitOp d method).
Qed.

Lemma generic_request_is_its_descriptor_witness :
  let d := testDeps "" in
  let s := testGatekeeper Server (testSSO false None) true testAccounts
             (testEnforcer ["serviceaccount:primary:my-ns:argo-server"] [] [] []) in
  context.operationID (x "") = Ok "/service.TestService/GetTests"
  /\ getClients d s (x "") (NotReq "primary" "my-ns") emptyWorld
     = getClients d s (x "")
         (IsReq {| servertypes.Cluster := "primary"; servertypes.Namespace := "my-ns";
                   servertypes.Act := "get";
                   servertypes.Resource := "/service.TestService/GetTests" |}) emptyWorld.
Proof.
  intros d s. split; [reflexivity|].
  exact (generic_request_is_its_descriptor d s (x "") "primary" "my-ns"
           "/service.TestService/GetTests" emptyWorld eq_refl).
Defined.

(** ** Credential extraction *)

(** X5.  When the metadata carries an authorization header, its first value is
    the only candidate: if no enabled mode recognizes it the request is
    [Unauthenticated], whatever the further header values and the cookies
    hold. *)
Theorem unrecognized_header_is_not_rescued (d : Deps) (s : gatekeeper)
    (ctx : context.Context) (req : request) (w : World) (header : string)
    (rest : list string)
    (Hheader : MD_Get (context.md ctx) "authorization" = header :: rest)
    (Hbad : unrecognized s header) :
  getAuthHeaders d (context.md ctx) = [header]
  /\ getClients d s ctx req w
     = (w, Err (StatusError Unauthenticated "token not valid for running mode")).
Proof.
  assert (getAuthHeaders d (context.md ctx) = [header]) as Hget
    by (unfold getAuthHeaders; by rewrite Hheader).
  split; [exact Hget|].
  unfold getClients. cbv zeta. rewrite Hget. simpl.
  unfold unrecognized in Hbad. destruct (Modes s header) as [m valid].
  simpl in Hbad. by subst valid.
Qed.

Lemma unrecognized_header_is_not_rescued_witness :
  let d := testDeps "" in
  let s := testGatekeeper SSO (testSSO false None) true testAccounts
             (testEnforcer [] [] [] []) in
  let ctx := {| context.md := {[ "authorization" := ["Basic abc"; "Bearer v2:good"];
                                 "cookie" := ["authorization=Bearer v2:good"] ]};
                context.operationID := Ok "get";
                context.values := [] |} in
  MD_Get (context.md ctx) "authorization" = ["Basic abc"; "Bearer v2:good"]
  /\ unrecognized s "Basic abc"
  /\ cookieTokens d (context.md ctx) = ["Bearer v2:good"]
  /\ getClients d s ctx (reqHolder "my-ns") emptyWorld
     = (emptyWorld, Err (StatusError Unauthenticated "token not valid for running mode")).
Proof.
  intros d s ctx.
  assert (MD_Get (context.md ctx) "authorization" = ["Basic abc"; "Bearer v2:good"]) as H1
    by (vm_compute; reflexivity).
  assert (unrecognized s "Basic abc") as H2 by (vm_compute; reflexivity).
  split; [exact H1|]. split; [exact H2|]. split; [vm_compute; reflexivity|].
  exact (proj2 (unrecognized_header_is_not_rescued d s ctx (reqHolder "my-ns") emptyWorld
                  _ _ H1 H2)).
Defined.

(** X6.  Without an authorization header, the tokens are exactly the values of
    the cookies named "authorization" (the name is compared as it is
    written), over all cookie lines. *)
Theorem cookie_tokens_are_authorization_cookies (d : Deps)
    (md : gmap string (list string))
    (Hnone : MD_Get md "authorization" = []) :
  forall token,
    token ∈ getAuthHeaders d md <->
    exists line c, line ∈ MD_Get md "cookie" /\ c ∈ readCookies d line
                   /\ Cookie_Name c = "authorization" /\ Cookie_Value c = token.
Proof.
  intros token. unfold getAuthHeaders. rewrite Hnone. split.
  - intros Hin. apply list_elem_of_In, in_flat_map in Hin as (line & Hline & Hin).
    apply in_map_iff in Hin as (c & Hval & Hc).
    apply filter_In in Hc as [Hc Hname]. apply String.eqb_eq in Hname.
    exists line, c. split; [by apply list_elem_of_In|]. split; [by apply list_elem_of_In|].
    done.
  - intros (line & c & Hline & Hc & Hname & Hval).
    apply list_elem_of_In, in_flat_map. exists line.
    split; [by apply list_elem_of_In|].
    apply in_map_iff. exists c. split; [done|]. apply filter_In.
    split; [by apply list_elem_of_In|]. by apply String.eqb_eq.
Qed.

Lemma cookie_tokens_are_authorization_cookies_witness :
  let d := testDeps "" in
  let md : gmap string (list string) :=
    {[ "cookie" := ["theme=dark; authorization=Bearer v2:a"; "Authorization=b; authorization=c"] ]} in
  MD_Get md "authorization" = []
  /\ getAuthHeaders d md = ["Bearer v2:a"; "c"]
  /\ ("c" ∈ getAuthHeaders d md <->
      exists line c, line ∈ MD_Get md "cookie" /\ c ∈ readCookies d line
                     /\ Cookie_Name c = "authorization" /\ Cookie_Value c = "c").
Proof.
  intros d md.
  assert (MD_Get md "authorization" = []) as H by (vm_compute; reflexivity).
  split; [exact H|]. split; [vm_compute; reflexivity|].
  exact (cookie_tokens_are_authorization_cookies d md H "c").
Defined.

(** ** The resolved context *)

(** X7.  [Context] exposes a context exactly when the resolution succeeded with
    a profile; no partial context exists.  On the resolved context the
    claims accessor returns the resolved claims (nil included), each client
    accessor returns the client of the profile or panics when the profile
    has none, and the metadata and the values attached before are still
    there.  An error or a panic of the resolution is passed on with the
    world as the resolution left it. *)
Theorem Context_exposes_the_resolution (d : Deps) (s : gatekeeper)
    (ctx : context.Context) (req : request) (w : World) :
  match getClients d s ctx req w with
  | (w', Ok (Some profile, claims)) =>
      exists ctx',
        gatekeeper_Context d s ctx req w = (w', Ok ctx')
        /\ GetClaims ctx' = Ok claims
        /\ GetDynamicClient ctx'
           = from_option Ok (Panic "interface conversion") (servertypes.Dynamic profile)
        /\ GetWfClient ctx'
           = from_option Ok (Panic "interface conversion") (servertypes.Workflow profile)
        /\ GetEventSourceClient ctx'
           = from_option Ok (Panic "interface conversion") (servertypes.EventSource profile)
        /\ GetSensorClient ctx'
           = from_option Ok (Panic "interface conversion") (servertypes.Sensor profile)
        /\ GetKubeClient ctx'
           = from_option Ok (Panic "interface conversion") (servertypes.Kubernetes profile)
        /\ context.md ctx' = context.md ctx
        /\ context.operationID ctx' = context.operationID ctx
        /\ exists attached, context.values ctx' = (attached ++ context.values ctx)%list
                            /\ length attached = 6%nat
  | (w', Ok (None, claims)) =>
      exists p, gatekeeper_Context d s ctx req w = (w', Panic p)
  | (w', Err e) => gatekeeper_Context d s ctx req w = (w', Err e)
  | (w', Panic p) => gatekeeper_Context d s ctx req w = (w', Panic p)
  end.
Proof.
  unfold gatekeeper_Context, bind.
  destruct (getClients d s ctx req w) as [w' [[[profile|] claims]|e|p]]; simpl;
    [|by eexists|done..].
  eexists. split; [reflexivity|].
  unfold GetClaims, GetDynamicClient, GetWfClient, GetEventSourceClient, GetSensorClient,
    GetKubeClient, context.Value. simpl.
  split; [done|].
  split; [by destruct (servertypes.Dynamic profile)|].
  split; [by destruct (servertypes.Workflow profile)|].
  split; [by destruct (servertypes.EventSource profile)|].
  split; [by destruct (servertypes.Sensor profile)|].
  split; [by destruct (servertypes.Kubernetes profile)|].
  split; [done|]. split; [done|].
  by eexists [_; _; _; _; _; _].
Qed.

(** X8.  The unary interceptor runs the handler only after a successful
    resolution, on the resolved context and in the world the resolution
    left; when the resolution fails the handler is not run and the caller
    receives the resolution's error. *)
Theorem interceptor_guards_the_handler {R : Type} (d : Deps) (s : gatekeeper)
    (ctx : context.Context) (req : request)
    (handler : context.Context -> request -> M R) (w : World) :
  match getClients d s ctx req w with
  | (w', Ok (Some profile, claims)) =>
      exists ctx',
        UnaryServerInterceptor d s ctx req handler w = handler ctx' req w'
        /\ GetClaims ctx' = Ok claims
        /\ context.md ctx' = context.md ctx
  | (w', Ok (None, claims)) =>
      exists p, UnaryServerInterceptor d s ctx req handler w = (w', Panic p)
  | (w', Err e) => UnaryServerInterceptor d s ctx req handler w = (w', Err e)
  | (w', Panic p) => UnaryServerInterceptor d s ctx req handler w = (w', Panic p)
  end.
Proof.
  unfold UnaryServerInterceptor, gatekeeper_Context, bind.
  destruct (getClients d s ctx req w) as [w' [[[profile|] claims]|e|p]]; simpl;
    [|by eexists|done..].
  eexists. split; [reflexivity|]. by split.
Qed.

(** ** The grant wrapper under a faulty or a cooperative policy engine *)

Section GrantLoops.
Variable d : Deps.
Variable s : gatekeeper.
Variables cluster sub : string.

Lemma addPolicies_loop_app (pre rest : list string) (w : World) :
  Forall (fun g => enf_AddError (enforcer s) sub (groupName cluster g) = None) pre ->
  exists w1, addPolicies_loop d s cluster sub (pre ++ rest) w
             = addPolicies_loop d s cluster sub rest w1
             /\ policy w1 = groupEdges cluster sub pre ∪ policy w
             /\ logs w1 = logs w
             /\ trace w1 = (trace w ++ addEvents cluster sub pre)%list.
Proof.
  intros Hall. revert w. induction Hall as [|g pre Hg _ IH]; intros w.
  - exists w. simpl. rewrite app_nil_r. repeat split. unfold groupEdges. simpl. set_solver.
  - simpl. unfold bind at 1, AddGroupingPolicy. rewrite Hg. simpl.
    destruct (IH {| policy := {[(sub, groupName cluster g)]} ∪ policy w;
                    logs := logs w;
                    trace := trace w ++ [EvAddGroupingPolicy sub (groupName cluster g)] |})
      as (w1 & -> & Hpol & Hlogs & Htrace).
    exists w1. split; [done|]. simpl in *. split; [|split; [done|]].
    + rewrite Hpol. unfold groupEdges. simpl. set_solver.
    + by rewrite Htrace, <- app_assoc.
Qed.

Lemma removePolicies_loop_app (pre rest : list string) (w : World) :
  Forall (fun g => enf_RemoveError (enforcer s) sub (groupName cluster g) = None) pre ->
  exists w1, removePolicies_loop d s cluster sub (pre ++ rest) w
             = removePolicies_loop d s cluster sub rest w1
             /\ policy w1 = policy w ∖ groupEdges cluster sub pre
             /\ logs w1 = logs w
             /\ trace w1 = (trace w ++ removeEvents cluster sub pre)%list.
Proof.
  intros Hall. revert w. induction Hall as [|g pre Hg _ IH]; intros w.
  - exists w. simpl. rewrite app_nil_r. repeat split. unfold groupEdges. simpl. set_solver.
  - simpl. unfold bind at 1, RemoveGroupingPolicy. rewrite Hg. simpl.
    destruct (IH {| policy := policy w ∖ {[(sub, groupName cluster g)]};
                    logs := logs w;
                    trace := trace w ++ [EvRemoveGroupingPolicy sub (groupName cluster g)] |})
      as (w1 & -> & Hpol & Hlogs & Htrace).
    exists w1. split; [done|]. simpl in *. split; [|split; [done|]].
    + rewrite Hpol. unfold groupEdges. simpl. set_solver.
    + by rewrite Htrace, <- app_assoc.
Qed.

(** Whatever the engine answers, the insertions only add edges of the
    groups, and the removals only remove such edges. *)
Lemma addPolicies_loop_frame (groups : list string) (w : World) :
  policy w ⊆ policy (addPolicies_loop d s cluster sub groups w).1
  /\ policy (addPolicies_loop d s cluster sub groups w).1
     ⊆ policy w ∪ groupEdges cluster sub groups.
Proof.
  revert w. induction groups as [|g groups IH]; intros w; simpl.
  - set_solver.
  - unfold bind, AddGroupingPolicy.
    destruct (enf_AddError (enforcer s) sub (groupName cluster g)); simpl.
    + set_solver.
    + destruct (IH {| policy := {[(sub, groupName cluster g)]} ∪ policy w;
                      logs := logs w;
                      trace := trace w ++ [EvAddGroupingPolicy sub (groupName cluster g)] |})
        as [H1 H2].
      simpl in *. unfold groupEdges in *. simpl. set_solver.
Qed.

Lemma removePolicies_loop_frame (groups : list string) (w : World) :
  policy w ∖ groupEdges cluster sub groups
    ⊆ policy (removePolicies_loop d s cluster sub groups w).1
  /\ policy (removePolicies_loop d s cluster sub groups w).1 ⊆ policy w.
Proof.
  revert w. induction groups as [|g groups IH]; intros w; simpl.
  - set_solver.
  - unfold bind, RemoveGroupingPolicy.
    destruct (enf_RemoveError (enforcer s) sub (groupName cluster g)); simpl.
    + set_solver.
    + destruct (IH {| policy := policy w ∖ {[(sub, groupName cluster g)]};
                      logs := logs w;
                      trace := trace w ++ [EvRemoveGroupingPolicy sub (groupName cluster g)] |})
        as [H1 H2].
      simpl in *. unfold groupEdges in *. simpl. set_solver.
Qed.
End GrantLoops.

Section GrantWrapper.
Variable d : Deps.
Variable s : gatekeeper.
Variable profile : option servertypes.Clients.
Variable c : types.Claims.
Variable msg : servertypes.Req.

Let cluster := servertypes.Cluster msg.
Let sub := userSubject d c.
Let obj := objectOf msg.
Let act := servertypes.Act msg.

(** The check and the resolution, for the decision of the engine over the
    edges it holds. *)
Lemma checkAndResolve_run (w : World) :
  let decision := enf_Enforce (enforcer s) (policy w) sub obj act in
  exists w1 resolved,
    checkAndResolve d s profile (Some c) msg obj sub w
    = (w1, decisionOutcome d s profile c msg decision)
    /\ policy w1 = policy w /\ logs w1 = logs w
    /\ trace w1 = (trace w ++ EvEnforce sub obj act decision :: resolved)%list
    /\ (resolved = [] \/ resolved = [EvFind cluster]).
Proof.
  intros decision. subst decision.
  unfold checkAndResolve, allowed, bind, Enforce, Find, emit, ret, fail, decisionOutcome.
  fold cluster sub obj act.
  destruct (enf_Enforce (enforcer s) (policy w) sub obj act) as [[] [e|]]; simpl;
    try (eexists _, []; repeat split; by left).
  destruct (String.eqb cluster (PrimaryCluster d)).
  - eexists _, []. repeat split. by left.
  - destruct (clients s !! cluster); eexists _, [EvFind cluster]; simpl;
      (split; [reflexivity|]); simpl; rewrite <- ?app_assoc; repeat split; by right.
Qed.

(** X9.  When the engine rejects the insertion of a group, the decision ends
    there: the edges of the groups before it are in the engine and stay
    there, the later groups are not attempted, nothing is checked or
    removed, and the caller receives an error naming the rejected group
    (the engine's own error is dropped). *)
Theorem rejected_grant_aborts_the_decision (pre post : list string) (g : string)
    (cause : error) (w : World)
    (Hgroups : types.Groups c = (pre ++ g :: post)%list)
    (Hpre : Forall (fun g => enf_AddError (enforcer s) sub (groupName cluster g) = None) pre)
    (Hg : enf_AddError (enforcer s) sub (groupName cluster g) = Some cause) :
  exists w',
    enforceWithGrants d s profile (Some c) msg obj w
    = (w', Err (ErrorString ("failed to add policy for group "
                             +:+ Quote d (groupName cluster g))))
    /\ policy w' = groupEdges cluster sub pre ∪ policy w
    /\ logs w' = logs w
    /\ trace w' = (trace w ++ addEvents cluster sub (pre ++ [g]))%list.
Proof.
  unfold enforceWithGrants, deref. rewrite bind_ret_l.
  fold (userSubject d c). fold sub cluster.
  destruct (addPolicies_loop_app d s cluster sub pre (g :: post) w Hpre)
    as (w1 & Hrun & Hpol & Hlogs & Htrace).
  unfold bind at 1. unfold addPolicies, deref. rewrite bind_ret_l, Hgroups, Hrun.
  simpl. unfold bind at 1, AddGroupingPolicy.
  rewrite Hg. simpl.
  eexists. split; [reflexivity|]. simpl. split; [done|]. split; [done|].
  rewrite Htrace. unfold addEvents. by rewrite map_app, <- app_assoc.
Qed.

(** X10.  With every insertion accepted, the engine decides over the edges it
    held plus the edges from the subject to each group of the claims, and
    the caller receives the outcome of that decision: the engine's error,
    a denial naming subject, object and action, or, on a yes, the selected
    profile for the primary cluster and the resolved profile (or
    [ClusterNotFound]) for another one.  What the removal does afterwards
    does not change the outcome. *)
Theorem decision_is_taken_with_the_grants (w : World)
    (Hadd : Forall (fun g => enf_AddError (enforcer s) sub (groupName cluster g) = None)
              (types.Groups c)) :
  (enforceWithGrants d s profile (Some c) msg obj w).2
  = decisionOutcome d s profile c msg
      (enf_Enforce (enforcer s) (groupEdges cluster sub (types.Groups c) ∪ policy w)
         sub obj act).
Proof.
  destruct (addPolicies_loop_ok d s cluster sub (types.Groups c) w Hadd)
    as (w1 & Hrun & Hpol & _).
  rewrite (enforceWithGrants_run d s profile c msg obj w w1)
    by (unfold addPolicies, deref; by rewrite bind_ret_l).
  cbn [snd]. fold sub.
  destruct (checkAndResolve_run w1) as (w2 & resolved & -> & _). cbn [snd].
  by rewrite Hpol.
Qed.

(** The run of the grant wrapper against an engine that accepts every
    insertion and every removal. *)
Lemma enforceWithGrants_cooperative (w : World)
    (Hadd : Forall (fun g => enf_AddError (enforcer s) sub (groupName cluster g) = None)
              (types.Groups c))
    (Hremove : Forall (fun g => enf_RemoveError (enforcer s) sub (groupName cluster g) = None)
                 (types.Groups c)) :
  let edges := groupEdges cluster sub (types.Groups c) in
  let decision := enf_Enforce (enforcer s) (edges ∪ policy w) sub obj act in
  exists w' resolved,
    enforceWithGrants d s profile (Some c) msg obj w
    = (w', decisionOutcome d s profile c msg decision)
    /\ policy w' = policy w ∖ edges
    /\ (edges ## policy w -> policy w' = policy w)
    /\ logs w' = logs w
    /\ trace w' = (trace w ++ addEvents cluster sub (types.Groups c)
                   ++ EvEnforce sub obj act decision :: resolved
                   ++ removeEvents cluster sub (types.Groups c))%list
    /\ (resolved = [] \/ resolved = [EvFind cluster]).
Proof.
  intros edges decision.
  destruct (addPolicies_loop_app d s cluster sub (types.Groups c) [] w Hadd)
    as (w1 & Hrun & Hpol & Hlogs & Htrace).
  rewrite app_nil_r in Hrun. simpl in Hrun.
  rewrite (enforceWithGrants_run d s profile c msg obj w w1)
    by (unfold addPolicies, deref; by rewrite bind_ret_l).
  fold sub cluster.
  destruct (checkAndResolve_run w1) as (w2 & resolved & -> & Hpol2 & Hlogs2 & Htrace2 & Hres).
  cbn [fst snd]. rewrite Hpol.
  unfold removeGrants, on_error, removePolicies, deref. rewrite bind_ret_l.
  destruct (removePolicies_loop_app d s cluster sub (types.Groups c) [] w2 Hremove)
    as (w3 & Hrun3 & Hpol3 & Hlogs3 & Htrace3).
  rewrite app_nil_r in Hrun3. simpl in Hrun3. rewrite Hrun3. cbn [fst].
  exists w3, resolved. split; [done|].
  assert (policy w3 = policy w ∖ edges) as Hfinal.
  { rewrite Hpol3, Hpol2, Hpol. subst edges. set_solver. }
  split; [exact Hfinal|]. split; [intros Hdisj; rewrite Hfinal; set_solver|].
  split; [by rewrite Hlogs3, Hlogs2, Hlogs|]. split; [|exact Hres].
  rewrite Hpol in Htrace2. rewrite Htrace3, Htrace2, Htrace.
  by rewrite <- !app_assoc.
Qed.

(** X12.  A removal that the engine rejects is logged and does not reach the
    caller, who receives the outcome of the decision; the removal stops
    there, so the edges of the rejected group and of the groups after it
    stay in the engine. *)
Theorem rejected_removal_is_only_logged (pre post : list string) (g : string)
    (cause : error) (w : World)
    (Hadd : Forall (fun g => enf_AddError (enforcer s) sub (groupName cluster g) = None)
              (types.Groups c))
    (Hgroups : types.Groups c = (pre ++ g :: post)%list)
    (Hpre : Forall (fun g => enf_RemoveError (enforcer s) sub (groupName cluster g) = None)
              pre)
    (Hg : enf_RemoveError (enforcer s) sub (groupName cluster g) = Some cause) :
  let edges := groupEdges cluster sub (types.Groups c) in
  exists w',
    enforceWithGrants d s profile (Some c) msg obj w
    = (w', decisionOutcome d s profile c msg
             (enf_Enforce (enforcer s) (edges ∪ policy w) sub obj act))
    /\ policy w' = (edges ∪ policy w) ∖ groupEdges cluster sub pre
    /\ logs w'
       = (logs w ++ [{| log_Level := ErrorLevel;
                        log_Message := "failed to remove policy";
                        log_Fields := [("sub", sub)];
                        log_Error :=
                          Some (ErrorString ("failed to remove policy for group "
                                             +:+ Quote d (groupName cluster g))) |}])%list.
Proof.
  intros edges. subst edges.
  destruct (addPolicies_loop_ok d s cluster sub (types.Groups c) w Hadd)
    as (w1 & Hrun & Hpol & Hlogs).
  rewrite (enforceWithGrants_run d s profile c msg obj w w1)
    by (unfold addPolicies, deref; by rewrite bind_ret_l).
  fold sub cluster.
  destruct (checkAndResolve_run w1) as (w2 & resolved & -> & Hpol2 & Hlogs2 & _).
  cbn [fst snd]. rewrite Hpol.
  unfold removeGrants, on_error, removePolicies, deref. rewrite bind_ret_l, Hgroups.
  destruct (removePolicies_loop_app d s cluster sub pre (g :: post) w2 Hpre)
    as (w3 & Hrun3 & Hpol3 & Hlogs3 & _).
  rewrite Hrun3. simpl. unfold bind at 1, RemoveGroupingPolicy. rewrite Hg. simpl.
  eexists. split; [reflexivity|]. simpl. split.
  - rewrite Hpol3, Hpol2, Hpol. by rewrite Hgroups.
  - by rewrite Hlogs3, Hlogs2, Hlogs.
Qed.

(** The edges the grant wrapper can change, whatever the engine answers. *)
Lemma enforceWithGrants_frame (w : World) :
  let edges := groupEdges cluster sub (types.Groups c) in
  let w' := (enforceWithGrants d s profile (Some c) msg obj w).1 in
  policy w ∖ edges ⊆ policy w' /\ policy w' ⊆ policy w ∪ edges.
Proof.
  intros edges w'.
  pose proof (addPolicies_loop_frame d s cluster sub (types.Groups c) w) as [Ha1 Ha2].
  pose proof (removePolicies_loop_frame d s cluster sub (types.Groups c)) as Hr.
  fold edges in Ha2, Hr. clearbody edges.
  assert (w' = (enforceWithGrants d s profile (Some c) msg obj w).1) as Hw by reflexivity.
  clearbody w'. revert Hw.
  unfold enforceWithGrants, deref. rewrite bind_ret_l.
  fold (userSubject d c). fold sub cluster.
  unfold bind at 1. unfold addPolicies, deref. rewrite bind_ret_l.
  destruct (addPolicies_loop d s cluster sub (types.Groups c) w) as [w1 [[]|e|p]];
    cbn [fst snd] in *; [|intros ->; set_solver..].
  change (defer _ _ w1)
    with (defer (removeGrants d s (Some c) cluster sub)
            (checkAndResolve d s profile (Some c) msg obj sub) w1).
  unfold defer.
  destruct (checkAndResolve_run w1) as (w2 & resolved & -> & Hpol2 & _).
  unfold removeGrants, on_error, removePolicies, deref. rewrite bind_ret_l.
  destruct (Hr w2) as [Hr1 Hr2]. rewrite Hpol2 in Hr1, Hr2.
  destruct (removePolicies_loop d s cluster sub (types.Groups c) w2) as [w3 [[]|e|p]];
    cbn [fst snd policy log] in *; intros ->; cbn [policy]; set_solver.
Qed.
End GrantWrapper.

(** X11.  With every insertion and every removal accepted, the decision leaves in
    the engine no edge from the subject to a group of the claims (an edge
    of that form that the engine held before is gone too), leaves every
    other edge as it was, logs nothing, and calls the engine in this order:
    the insertions, the check, the cluster resolution if any, the
    removals. *)
Theorem cooperative_engine_round_trip (d : Deps) (s : gatekeeper)
    (profile : option servertypes.Clients) (c : types.Claims) (msg : servertypes.Req)
    (w : World)
    (Hadd : Forall (fun g => enf_AddError (enforcer s) (userSubject d c)
                               (groupName (servertypes.Cluster msg) g) = None)
              (types.Groups c))
    (Hremove : Forall (fun g => enf_RemoveError (enforcer s) (userSubject d c)
                                  (groupName (servertypes.Cluster msg) g) = None)
                 (types.Groups c)) :
  let cluster := servertypes.Cluster msg in
  let sub := userSubject d c in
  let edges := groupEdges cluster sub (types.Groups c) in
  let decision := enf_Enforce (enforcer s) (edges ∪ policy w) sub (objectOf msg)
                    (servertypes.Act msg) in
  exists w' resolved,
    enforceWithGrants d s profile (Some c) msg (objectOf msg) w
    = (w', decisionOutcome d s profile c msg decision)
    /\ policy w' = policy w ∖ edges
    /\ (edges ## policy w -> policy w' = policy w)
    /\ logs w' = logs w
    /\ trace w' = (trace w ++ addEvents cluster sub (types.Groups c)
                   ++ EvEnforce sub (objectOf msg) (servertypes.Act msg) decision :: resolved
                   ++ removeEvents cluster sub (types.Groups c))%list
    /\ (resolved = [] \/ resolved = [EvFind cluster]).
Proof. exact (enforceWithGrants_cooperative d s profile c msg w Hadd Hremove). Qed.

Lemma rejected_grant_aborts_the_decision_witness :
  let d := testDeps "" in
  let c := groupClaims "u" ["my-group"; "other-group"] in
  let s := testGatekeeper SSO (testSSO false (Some c)) true testAccounts
             (testEnforcer [] ["group:primary:my-group"] ["group:primary:other-group"] []) in
  let msg := {| servertypes.Cluster := "primary"; servertypes.Namespace := "my-ns";
                servertypes.Act := "get"; servertypes.Resource := "workflows" |} in
  types.Groups c = (["my-group"] ++ "other-group" :: [])%list
  /\ Forall (fun g => enf_AddError (enforcer s) (userSubject d c)
                        (groupName (servertypes.Cluster msg) g) = None) ["my-group"]
  /\ enf_AddError (enforcer s) (userSubject d c)
       (groupName (servertypes.Cluster msg) "other-group")
     = Some (ErrorString "store is read-only")
  /\ exists w',
       enforceWithGrants d s (Some primaryClients) (Some c) msg (objectOf msg) emptyWorld
       = (w', Err (ErrorString ("failed to add policy for group "
                                +:+ quoteASCII "group:primary:other-group")))
       /\ trace w' = addEvents "primary" "user:primary:u" ["my-group"; "other-group"].
Proof.
  intros d c s msg.
  assert (Forall (fun g => enf_AddError (enforcer s) (userSubject d c)
                             (groupName (servertypes.Cluster msg) g) = None) ["my-group"])
    as H2 by (repeat constructor).
  split; [reflexivity|]. split; [exact H2|]. split; [reflexivity|].
  destruct (rejected_grant_aborts_the_decision d s (Some primaryClients) c msg
              ["my-group"] [] "other-group" (ErrorString "store is read-only") emptyWorld
              eq_refl H2 eq_refl) as (w' & Hrun & _ & _ & Htrace).
  exists w'. split; [exact Hrun|exact Htrace].
Defined.

Lemma decision_is_taken_with_the_grants_witness :
  let d := testDeps "" in
  let c := groupClaims "u" ["my-group"; "other-group"] in
  let s := testGatekeeper SSO (testSSO false (Some c)) true testAccounts
             (testEnforcer [] ["group:primary:my-group"] [] []) in
  let msg := {| servertypes.Cluster := "primary"; servertypes.Namespace := "my-ns";
                servertypes.Act := "get"; servertypes.Resource := "workflows" |} in
  Forall (fun g => enf_AddError (enforcer s) (userSubject d c)
                     (groupName (servertypes.Cluster msg) g) = None) (types.Groups c)
  /\ enf_Enforce (enforcer s) ∅ (userSubject d c) (objectOf msg) (servertypes.Act msg)
     = (false, None)
  /\ (enforceWithGrants d s (Some primaryClients) (Some c) msg (objectOf msg) emptyWorld).2
     = Ok (Some primaryClients, Some c).
Proof.
  intros d c s msg.
  assert (Forall (fun g => enf_AddError (enforcer s) (userSubject d c)
                             (groupName (servertypes.Cluster msg) g) = None)
            (types.Groups c)) as H by (repeat constructor).
  split; [exact H|]. split; [vm_compute; reflexivity|].
  rewrite (decision_is_taken_with_the_grants d s (Some primaryClients) c msg emptyWorld H).
  vm_compute. reflexivity.
Defined.

Lemma cooperative_engine_round_trip_witness :
  let d := testDeps "" in
  let c := groupClaims "u" ["my-group"; "other-group"] in
  let s := testGatekeeper SSO (testSSO false (Some c)) true testAccounts
             (testEnforcer [] ["group:primary:my-group"] [] []) in
  let msg := {| servertypes.Cluster := "primary"; servertypes.Namespace := "my-ns";
                servertypes.Act := "get"; servertypes.Resource := "workflows" |} in
  Forall (fun g => enf_AddError (enforcer s) (userSubject d c)
                     (groupName (servertypes.Cluster msg) g) = None) (types.Groups c)
  /\ Forall (fun g => enf_RemoveError (enforcer s) (userSubject d c)
                        (groupName (servertypes.Cluster msg) g) = None) (types.Groups c)
  /\ exists w',
       (enforceWithGrants d s (Some primaryClients) (Some c) msg (objectOf msg) emptyWorld).1
       = w'
       /\ policy w' = policy emptyWorld /\ logs w' = [].
Proof.
  intros d c s msg.
  assert (Forall (fun g => enf_AddError (enforcer s) (userSubject d c)
                             (groupName (servertypes.Cluster msg) g) = None)
            (types.Groups c)) as H1 by (repeat constructor).
  assert (Forall (fun g => enf_RemoveError (enforcer s) (userSubject d c)
                             (groupName (servertypes.Cluster msg) g) = None)
            (types.Groups c)) as H2 by (repeat constructor).
  split; [exact H1|]. split; [exact H2|].
  destruct (cooperative_engine_round_trip d s (Some primaryClients) c msg emptyWorld H1 H2)
    as (w' & resolved & Hrun & _ & Hsame & Hlogs & _).
  exists w'. rewrite Hrun. split; [reflexivity|]. split; [|exact Hlogs].
  apply Hsame. simpl. apply disjoint_empty_r.
Defined.

Lemma rejected_removal_is_only_logged_witness :
  let d := testDeps "" in
  let c := groupClaims "u" ["my-group"; "other-group"] in
  let s := testGatekeeper SSO (testSSO false (Some c)) true testAccounts
             (testEnforcer [] ["group:primary:my-group"] [] ["group:primary:my-group"]) in
  let msg := {| servertypes.Cluster := "primary"; servertypes.Namespace := "my-ns";
                servertypes.Act := "get"; servertypes.Resource := "workflows" |} in
  Forall (fun g => enf_AddError (enforcer s) (userSubject d c)
                     (groupName (servertypes.Cluster msg) g) = None) (types.Groups c)
  /\ types.Groups c = ([] ++ "my-group" :: ["other-group"])%list
  /\ enf_RemoveError (enforcer s) (userSubject d c)
       (groupName (servertypes.Cluster msg) "my-group")
     = Some (ErrorString "store is read-only")
  /\ exists w',
       enforceWithGrants d s (Some primaryClients) (Some c) msg (objectOf msg) emptyWorld
       = (w', Ok (Some primaryClients, Some c))
       /\ map log_Message (logs w') = ["failed to remove policy"].
Proof.
  intros d c s msg.
  assert (Forall (fun g => enf_AddError (enforcer s) (userSubject d c)
                             (groupName (servertypes.Cluster msg) g) = None)
            (types.Groups c)) as H1 by (repeat constructor).
  split; [exact H1|]. split; [reflexivity|]. split; [reflexivity|].
  destruct (rejected_removal_is_only_logged d s (Some primaryClients) c msg
              [] ["other-group"] "my-group" (ErrorString "store is read-only") emptyWorld
              H1 eq_refl (List.Forall_nil _) eq_refl) as (w' & Hrun & _ & Hlogs).
  exists w'. split.
  - rewrite Hrun. reflexivity.
  - rewrite Hlogs. reflexivity.
Defined.

(** ** The selected account *)

Lemma StronglySorted_after {A} (R : A -> A -> Prop) (pre post : list A) (x : A) :
  StronglySorted R (pre ++ x :: post) -> Forall (R x) post.
Proof.
  induction pre as [|y pre IH]; simpl; intros H; apply StronglySorted_inv in H as [H1 H2].
  - exact H2.
  - by apply IH.
Qed.

Lemma getServiceAccount_loop_max (d : Deps) (claims : option types.Claims)
    (candidates : list corev1.ServiceAccount) (sa : corev1.ServiceAccount) :
  StronglySorted (fun a b => precedence d b <= precedence d a) candidates ->
  getServiceAccount_loop d claims candidates = Ok sa ->
  sa ∈ candidates
  /\ ruleOutcome d claims sa = Ok true
  /\ forall x, x ∈ candidates -> ruleOutcome d claims x = Ok true ->
               precedence d x <= precedence d sa.
Proof.
  intros Hsorted Hrun.
  apply getServiceAccount_loop_Ok in Hrun as (pre & post & -> & Hpre & Hsa).
  split; [set_solver|]. split; [exact Hsa|].
  intros x Hx Htrue. apply elem_of_app in Hx as [Hx|Hx].
  - rewrite Forall_forall in Hpre. apply Hpre in Hx. congruence.
  - apply elem_of_cons in Hx as [->|Hx]; [lia|].
    apply StronglySorted_after in Hsorted as Htail.
    rewrite Forall_forall in Htail. by apply Htail.
Qed.

(** X14.  A successful selection returns an account of the listing that carries
    a rule annotation and whose predicate is true of the claims, and no
    rule-bearing account of the listing whose predicate is true has a
    greater precedence. *)
Theorem selected_account_has_highest_precedence (d : Deps) (s : gatekeeper)
    (claims : option types.Claims) (namespace : string)
    (list : list corev1.ServiceAccount) (sa : corev1.ServiceAccount)
    (Hsort : SortSliceSpec d)
    (Hlist : ListServiceAccounts (cache s) namespace = Ok list)
    (Hsel : getServiceAccount d s claims namespace = Ok sa) :
  sa ∈ list
  /\ hasRule d sa = true
  /\ ruleOutcome d claims sa = Ok true
  /\ forall x, x ∈ list -> hasRule d x = true -> ruleOutcome d claims x = Ok true ->
               precedence d x <= precedence d sa.
Proof.
  unfold getServiceAccount in Hsel. rewrite Hlist in Hsel.
  destruct (Hsort (precedence d) (List.filter (hasRule d) list)) as [Hperm Hsorted].
  destruct (getServiceAccount_loop_max _ _ _ _ Hsorted Hsel) as (Hin & Htrue & Hmax).
  assert (forall x, x ∈ sort_Slice d (fun a b => precedence d b <? precedence d a)
                          (List.filter (hasRule d) list)
                    <-> x ∈ list /\ hasRule d x = true) as Hmem.
  { intros x. rewrite Hperm, !list_elem_of_In, filter_In. done. }
  apply Hmem in Hin as [Hin Hrule].
  split; [exact Hin|]. split; [exact Hrule|]. split; [exact Htrue|].
  intros x Hx Hxrule Hxtrue. apply Hmax; [|exact Hxtrue]. by apply Hmem.
Qed.

Lemma selected_account_has_highest_precedence_witness :
  let d := testDeps "" in
  let s := testGatekeeper SSO (testSSO true None) true testAccounts (testEnforcer [] [] [] []) in
  let claims := Some (groupClaims "u" ["my-group"; "other-group"]) in
  let mySa := account "my-sa" "my-ns" "'my-group' in groups" "1" ["my-secret"] in
  let other := account "my-other-sa" "my-ns" "'other-group' in groups" "0" ["my-secret"] in
  SortSliceSpec d
  /\ ListServiceAccounts (cache s) "my-ns" = Ok [other; mySa]
  /\ getServiceAccount d s claims "my-ns" = Ok mySa
  /\ precedence d other <= precedence d mySa.
Proof.
  intros d s claims mySa other.
  assert (ListServiceAccounts (cache s) "my-ns" = Ok [other; mySa]) as H2
    by (vm_compute; reflexivity).
  assert (getServiceAccount d s claims "my-ns" = Ok mySa) as H3
    by (vm_compute; reflexivity).
  split; [apply testDeps_SortSliceSpec|]. split; [exact H2|]. split; [exact H3|].
  destruct (selected_account_has_highest_precedence d s claims "my-ns" _ _
              (testDeps_SortSliceSpec "") H2 H3) as (_ & _ & _ & Hmax).
  apply Hmax; [set_solver|vm_compute; reflexivity..].
Defined.

(** X15.  The order in which the lister returns the accounts does not change the
    precedence of the selected account: two listings with the same accounts
    in different orders, when both selections succeed, yield accounts of
    the same precedence (which of several accounts of that precedence is
    returned is left to the sort). *)
Theorem selection_ignores_listing_order (d : Deps) (s1 s2 : gatekeeper)
    (claims : option types.Claims) (namespace : string)
    (l1 l2 : list corev1.ServiceAccount) (sa1 sa2 : corev1.ServiceAccount)
    (Hsort : SortSliceSpec d)
    (Hl1 : ListServiceAccounts (cache s1) namespace = Ok l1)
    (Hl2 : ListServiceAccounts (cache s2) namespace = Ok l2)
    (Hperm : Permutation l1 l2)
    (H1 : getServiceAccount d s1 claims namespace = Ok sa1)
    (H2 : getServiceAccount d s2 claims namespace = Ok sa2) :
  precedence d sa1 = precedence d sa2.
Proof.
  assert (forall s l sa,
            ListServiceAccounts (cache s) namespace = Ok l ->
            getServiceAccount d s claims namespace = Ok sa ->
            sa ∈ l /\ hasRule d sa = true /\ ruleOutcome d claims sa = Ok true
            /\ forall x, x ∈ l -> hasRule d x = true -> ruleOutcome d claims x = Ok true ->
                         precedence d x <= precedence d sa) as Hmax.
  { intros s l sa Hl Hsel. unfold getServiceAccount in Hsel. rewrite Hl in Hsel.
    destruct (Hsort (precedence d) (List.filter (hasRule d) l)) as [Hp Hsorted].
    destruct (getServiceAccount_loop_max _ _ _ _ Hsorted Hsel) as (Hin & Htrue & Hm).
    assert (forall x, x ∈ sort_Slice d (fun a b => precedence d b <? precedence d a)
                            (List.filter (hasRule d) l)
                      <-> x ∈ l /\ hasRule d x = true) as Hmem.
    { intros x. rewrite Hp, !list_elem_of_In, filter_In. done. }
    apply Hmem in Hin as [Hin Hrule]. repeat split; try done.
    intros x Hx Hxr Hxt. apply Hm; [by apply Hmem|done]. }
  destruct (Hmax s1 l1 sa1 Hl1 H1) as (Hin1 & Hr1 & Ht1 & Hm1).
  destruct (Hmax s2 l2 sa2 Hl2 H2) as (Hin2 & Hr2 & Ht2 & Hm2).
  assert (precedence d sa2 <= precedence d sa1)
    by (apply Hm1; [by rewrite Hperm|done..]).
  assert (precedence d sa1 <= precedence d sa2)
    by (apply Hm2; [by rewrite <- Hperm|done..]).
  lia.
Qed.

Lemma selection_ignores_listing_order_witness :
  let d := testDeps "" in
  let mySa := account "my-sa" "my-ns" "'my-group' in groups" "1" ["my-secret"] in
  let other := account "my-other-sa" "my-ns" "'other-group' in groups" "0" ["my-secret"] in
  let s1 := testGatekeeper SSO (testSSO true None) true [other; mySa] (testEnforcer [] [] [] []) in
  let s2 := testGatekeeper SSO (testSSO true None) true [mySa; other] (testEnforcer [] [] [] []) in
  let claims := Some (groupClaims "u" ["my-group"; "other-group"]) in
  SortSliceSpec d
  /\ ListServiceAccounts (cache s1) "my-ns" = Ok [other; mySa]
  /\ ListServiceAccounts (cache s2) "my-ns" = Ok [mySa; other]
  /\ Permutation [other; mySa] [mySa; other]
  /\ getServiceAccount d s1 claims "my-ns" = Ok mySa
  /\ getServiceAccount d s2 claims "my-ns" = Ok mySa
  /\ precedence d mySa = precedence d mySa.
Proof.
  intros d mySa other s1 s2 claims.
  assert (ListServiceAccounts (cache s1) "my-ns" = Ok [other; mySa]) as Hl1
    by (vm_compute; reflexivity).
  assert (ListServiceAccounts (cache s2) "my-ns" = Ok [mySa; other]) as Hl2
    by (vm_compute; reflexivity).
  assert (getServiceAccount d s1 claims "my-ns" = Ok mySa) as H1 by (vm_compute; reflexivity).
  assert (getServiceAccount d s2 claims "my-ns" = Ok mySa) as H2 by (vm_compute; reflexivity).
  split; [apply testDeps_SortSliceSpec|]. split; [exact Hl1|]. split; [exact Hl2|].
  split; [apply perm_swap|]. split; [exact H1|]. split; [exact H2|].
  exact (selection_ignores_listing_order d s1 s2 claims "my-ns" _ _ _ _
           (testDeps_SortSliceSpec "") Hl1 Hl2 (perm_swap _ _ _) H1 H2).
Defined.

(** ** The range of a precedence *)

Lemma digit_of_range (c : ascii) (n : Z) : digit_of c = Some n -> 0 <= n <= 9.
Proof.
  unfold digit_of.
  destruct ((48 <=? Z.of_N (N_of_ascii c)) && (Z.of_N (N_of_ascii c) <=? 57)) eqn:H;
    [|discriminate].
  apply andb_true_iff in H as [H1 H2]. apply Z.leb_le in H1, H2.
  intros Heq. inversion Heq. lia.
Qed.

Lemma Atoi_fast_loop_bound (s : string) (n v : Z) :
  0 <= n -> Atoi_fast_loop s n = (v, None) ->
  0 <= v < (n + 1) * 10 ^ Z.of_nat (String.length s).
Proof.
  revert n. induction s as [|c r IH]; intros n Hn; simpl Atoi_fast_loop.
  - intros H; inversion H; subst. simpl. lia.
  - destruct (digit_of c) as [k|] eqn:Hc; [|discriminate].
    apply digit_of_range in Hc. intros H. apply IH in H; [|lia].
    simpl String.length. rewrite Nat2Z.inj_succ, Z.pow_succ_r by lia.
    assert (0 < 10 ^ Z.of_nat (String.length r)) by (apply Z.pow_pos_nonneg; lia).
    nia.
Qed.

Lemma ParseUint_loop_bound (s : string) (n v : Z) (e : option NumError) :
  0 <= n <= maxUint64 -> ParseUint_loop s n = (v, e) -> 0 <= v <= maxUint64.
Proof.
  revert n. induction s as [|c r IH]; intros n Hn; simpl ParseUint_loop.
  - intros H; inversion H; subst. lia.
  - destruct (digit_of c) as [k|] eqn:Hc.
    + apply digit_of_range in Hc.
      destruct (maxUint64 / 10 + 1 <=? n); [intros H; inversion H; subst; unfold maxUint64; lia|].
      destruct (maxUint64 <? n * 10 + k) eqn:Hover.
      * intros H; inversion H; subst. unfold maxUint64. lia.
      * apply Z.ltb_ge in Hover. apply IH. lia.
    + intros H; inversion H; subst. unfold maxUint64. lia.
Qed.

Lemma ParseInt_bound (s : string) : minInt64 <= (ParseInt s).1 <= maxInt64.
Proof.
  unfold ParseInt, minInt64, maxInt64. destruct s as [|c r]; [simpl; lia|].
  destruct (ParseUint (if is_sign c then r else String c r)) as [un e] eqn:Hun.
  assert (0 <= un <= maxUint64) as Hrange.
  { unfold ParseUint in Hun. destruct (if is_sign c then r else String c r).
    - inversion Hun. unfold maxUint64. lia.
    - eapply ParseUint_loop_bound; [|exact Hun]. unfold maxUint64. lia. }
  assert (forall b : bool,
            minInt64 <= (if negb b && (9223372036854775808 <=? un)
                         then (9223372036854775808 - 1, Some ErrRange)
                         else if b && (9223372036854775808 <? un)
                              then (- 9223372036854775808, Some ErrRange)
                              else (if b then - un else un, None)).1 <= maxInt64) as Hcase.
  { intros b. unfold minInt64, maxInt64.
    destruct b; simpl.
    - destruct (9223372036854775808 <? un) eqn:H; simpl; [lia|].
      apply Z.ltb_ge in H. lia.
    - destruct (9223372036854775808 <=? un) eqn:H; simpl; [lia|].
      apply Z.leb_gt in H. lia. }
  unfold minInt64, maxInt64 in Hcase.
  destruct e as [[]|]; [simpl; lia|apply Hcase..].
Qed.

Lemma Atoi_bound (s : string) : minInt64 <= (Atoi s).1 <= maxInt64.
Proof.
  unfold Atoi.
  destruct ((0 <? String.length s)%nat && (String.length s <? 19)%nat) eqn:Hlen;
    [|apply ParseInt_bound].
  apply andb_true_iff in Hlen as [_ Hlen]. apply Nat.ltb_lt in Hlen.
  unfold minInt64, maxInt64. destruct s as [|c r]; [simpl; lia|].
  destruct (if is_sign c then r else String c r) as [|c' r'] eqn:Hbody; [simpl; lia|].
  assert (String.length (String c' r') <= 18)%nat as Hb.
  { rewrite <- Hbody. destruct (is_sign c); simpl in *; lia. }
  destruct (Atoi_fast_loop (String c' r') 0) as [v [e|]] eqn:Hloop.
  - apply Atoi_fast_loop_error in Hloop as [-> _]. simpl. lia.
  - apply Atoi_fast_loop_bound in Hloop; [|lia].
    assert (10 ^ Z.of_nat (String.length (String c' r')) <= 10 ^ 18)
      by (apply Z.pow_le_mono_r; lia).
    assert (10 ^ 18 = 1000000000000000000) as Hpow by reflexivity.
    destruct (Ascii.eqb c "-"); simpl; lia.
Qed.

Lemma Atoi_range_extreme (s : string) :
  (Atoi s).2 = Some ErrRange -> (Atoi s).1 = maxInt64 \/ (Atoi s).1 = minInt64.
Proof.
  unfold Atoi.
  destruct ((0 <? String.length s)%nat && (String.length s <? 19)%nat).
  - destruct s as [|c r]; [discriminate|].
    destruct (if is_sign c then r else String c r) as [|c' r']; [discriminate|].
    destruct (Atoi_fast_loop (String c' r') 0) as [v [e|]] eqn:Hloop; [|discriminate].
    apply Atoi_fast_loop_error in Hloop as [_ ->]. discriminate.
  - unfold ParseInt. destruct s as [|c r]; [discriminate|].
    destruct (ParseUint (if is_sign c then r else String c r)) as [un e].
    assert (forall b : bool,
              (if negb b && (9223372036854775808 <=? un)
               then (9223372036854775808 - 1, Some ErrRange)
               else if b && (9223372036854775808 <? un)
                    then (- 9223372036854775808, Some ErrRange)
                    else (if b then - un else un, None)).2 = Some ErrRange ->
              (if negb b && (9223372036854775808 <=? un)
               then (9223372036854775808 - 1, Some ErrRange)
               else if b && (9223372036854775808 <? un)
                    then (- 9223372036854775808, Some ErrRange)
                    else (if b then - un else un, None)).1 = maxInt64
              \/ (if negb b && (9223372036854775808 <=? un)
                  then (9223372036854775808 - 1, Some ErrRange)
                  else if b && (9223372036854775808 <? un)
                       then (- 9223372036854775808, Some ErrRange)
                       else (if b then - un else un, None)).1 = minInt64) as Hcase.
    { intros b. destruct (negb b && _); [by left|].
      destruct (b && _); [by right|discriminate]. }
    destruct e as [[]|]; [discriminate|apply Hcase..].
Qed.

(** X16.  Whatever the annotation holds, the precedence of an account is a value
    of the 64-bit [int], so comparisons of precedences never meet a wrapped
    number; and an annotation that [strconv.Atoi] rejects as out of range
    gives the account the largest or the smallest [int], which sorts it
    before, or after, every account with another precedence. *)
Theorem precedence_fits_int (d : Deps) (sa : corev1.ServiceAccount) :
  minInt64 <= precedence d sa <= maxInt64
  /\ ((Atoi (default "" (corev1.Annotations sa !! AnnotationKeyRBACRulePrecedence d))).2
      = Some ErrRange ->
      precedence d sa = maxInt64 \/ precedence d sa = minInt64).
Proof.
  unfold precedence. split; [apply Atoi_bound|apply Atoi_range_extreme].
Qed.

(** ** The credential of the delegate *)

Lemma lift_Ok_inv {A} (r : result A) (w w' : World) (a : A) :
  lift r w = (w', Ok a) -> w' = w /\ r = Ok a.
Proof. unfold lift. intros H. by inversion H. Qed.

Lemma deref_Ok_inv {A} (p : option A) (w w' : World) (a : A) :
  deref p w = (w', Ok a) -> w' = w /\ p = Some a.
Proof. destruct p; intros H; inversion H; by subst. Qed.

(** X17.  When the exchange for the credential of a service account succeeds, the
    world is as before; the bearer token is the [token] entry (empty when
    the entry is missing) of the first secret bound to the account, looked
    up in the account's own namespace; the profile is built from the
    primary cluster's configuration with that token; and the claims differ
    from those passed in by the service-account name only, which is the
    name of the account. *)
Theorem delegate_credential_is_first_secret_token (d : Deps) (s : gatekeeper)
    (claims claims' : option types.Claims) (sa : corev1.ServiceAccount)
    (profile : servertypes.Clients) (w w' : World)
    (Hrun : getClientsForServiceAccount d s claims sa w = (w', Ok (profile, claims'))) :
  w' = w
  /\ exists c name others secret primary cfg,
       claims = Some c
       /\ claims' = Some {| types.Subject := types.Subject c; types.Email := types.Email c;
                            types.Groups := types.Groups c;
                            types.ServiceAccountName := corev1.Name sa |}
       /\ corev1.Secrets sa = name :: others
       /\ GetSecret (cache s) (corev1.Namespace sa) name = Ok secret
       /\ Primary d (clients s) = Some primary
       /\ GetRestConfig d (servertypes.RESTConfig primary)
            ("Bearer " +:+ default "" (corev1.Data secret !! "token")) = Ok cfg
       /\ NewProfile d cfg = Ok profile.
Proof.
  unfold getClientsForServiceAccount in Hrun.
  apply bind_Ok_inv in Hrun as (w1 & authorization & Hauth & Hrun).
  apply lift_Ok_inv in Hauth as [-> Hauth].
  apply bind_Ok_inv in Hrun as (w2 & clients0 & Hclients & Hrun).
  apply bind_Ok_inv in Hrun as (w3 & c & Hc & Hrun).
  apply deref_Ok_inv in Hc as [-> ->]. inversion Hrun; subst.
  unfold clientForAuthorization in Hclients.
  apply bind_Ok_inv in Hclients as (w4 & primary & Hprimary & Hclients).
  apply deref_Ok_inv in Hprimary as [-> Hprimary].
  apply bind_Ok_inv in Hclients as (w5 & cfg & Hcfg & Hclients).
  apply lift_Ok_inv in Hcfg as [-> Hcfg]. apply lift_Ok_inv in Hclients as [-> Hprofile].
  split; [done|].
  unfold authorizationForServiceAccount in Hauth.
  destruct (corev1.Secrets sa) as [|name others]; [discriminate|].
  destruct (GetSecret (cache s) (corev1.Namespace sa) name) as [secret| |] eqn:Hsecret;
    [|discriminate..].
  inversion Hauth; subst.
  by exists c, name, others, secret, primary, cfg.
Qed.

Lemma delegate_credential_is_first_secret_token_witness :
  let d := testDeps "" in
  let c := groupClaims "u" ["my-group"] in
  let s := testGatekeeper SSO (testSSO true (Some c)) true testAccounts
             (testEnforcer [] [] [] []) in
  let sa := account "my-sa" "my-ns" "'my-group' in groups" "1" ["my-secret"; "unused"] in
  let profile := tokenProfile {| rest.Username := ""; rest.BearerToken := "" |} in
  getClientsForServiceAccount d s (Some c) sa emptyWorld
  = (emptyWorld, Ok (profile, Some (setServiceAccountName c "my-sa")))
  /\ exists name others, corev1.Secrets sa = name :: others /\ name = "my-secret".
Proof.
  intros d c s sa profile.
  assert (getClientsForServiceAccount d s (Some c) sa emptyWorld
          = (emptyWorld, Ok (profile, Some (setServiceAccountName c "my-sa")))) as H
    by (vm_compute; reflexivity).
  split; [exact H|].
  destruct (delegate_credential_is_first_secret_token d s _ _ sa profile _ _ H)
    as (_ & c0 & name & others & secret & primary & cfg & _ & _ & Hsecrets & _).
  exists name, others. split; [exact Hsecrets|]. by inversion Hsecrets.
Defined.

(** ** The selection as a whole *)

Lemma getClientsForServiceAccount_Ok_inv (d : Deps) (s : gatekeeper)
    (c : types.Claims) (claims' : option types.Claims) (sa : corev1.ServiceAccount)
    (profile : servertypes.Clients) (w w' : World) :
  getClientsForServiceAccount d s (Some c) sa w = (w', Ok (profile, claims')) ->
  w' = w /\ claims' = Some (setServiceAccountName c (corev1.Name sa)).
Proof.
  intros Hrun.
  pose proof (keepsWorld_getClientsForServiceAccount d s (Some c) sa w) as Hw.
  rewrite Hrun in Hw. simpl in Hw. split; [done|].
  unfold getClientsForServiceAccount in Hrun.
  apply bind_Ok_inv in Hrun as (w1 & authorization & _ & Hrun).
  apply bind_Ok_inv in Hrun as (w2 & clients0 & _ & Hrun).
  simpl in Hrun. by inversion Hrun.
Qed.

Lemma selectDelegate_Ok_inv (d : Deps) (s : gatekeeper) (claims : option types.Claims)
    (namespace : string) (login delegate : corev1.ServiceAccount) (a b : bool)
    (w w1 : World) :
  selectDelegate d s claims namespace login w = (w1, Ok (delegate, a, b)) ->
  policy w1 = policy w /\ trace w1 = trace w
  /\ (logs w1 = logs w
      \/ exists e, getServiceAccount d s claims namespace = Err e
                   /\ logs w1 = (logs w ++ [delegationErrorEntry e])%list)
  /\ (delegate = login /\ b = false
      \/ getServiceAccount d s claims namespace = Ok delegate /\ a = true /\ b = true
         /\ precedence d login < precedence d delegate).
Proof.
  unfold selectDelegate.
  destruct (canDelegateRBACToRequestNamespace d s namespace).
  - destruct (getServiceAccount d s claims namespace) as [nsAccount|e|p].
    + destruct (precedence d login <? precedence d nsAccount) eqn:Hlt;
        intros H; inversion H; subst.
      * apply Z.ltb_lt in Hlt. repeat split; [by left|by right].
      * repeat split; [by left|by left].
    + intros H; inversion H; subst. repeat split; [|by left].
      right. by exists e.
    + discriminate.
  - intros H; inversion H; subst. repeat split; [by left|by left].
Qed.

(** X18.  When the selection succeeds, the service-account name written to the
    claims is the name of the account recorded as [serviceAccount] in the
    audit entry, which is the last entry of the log; subject, email and
    groups are those of the identity; the delegate is the login account or
    the account selected for the requested namespace; and no call was made
    to the policy engine or to the cluster resolver. *)
Theorem selection_names_the_audited_account (d : Deps) (s : gatekeeper)
    (claims claims' : option types.Claims) (namespace : string)
    (profile : servertypes.Clients) (w w' : World)
    (Hrun : rbacAuthorization d s claims namespace w = (w', Ok (profile, claims'))) :
  exists c login delegate allowed delegated before,
    claims = Some c
    /\ getServiceAccount d s claims (ssoNamespace s) = Ok login
    /\ (delegate = login \/ getServiceAccount d s claims namespace = Ok delegate)
    /\ claims' = Some {| types.Subject := types.Subject c; types.Email := types.Email c;
                         types.Groups := types.Groups c;
                         types.ServiceAccountName := corev1.Name delegate |}
    /\ logs w' = (before ++ [auditEntry delegate login c allowed delegated])%list
    /\ policy w' = policy w /\ trace w' = trace w.
Proof.
  unfold rbacAuthorization in Hrun.
  apply bind_Ok_inv in Hrun as (w1 & login & Hlogin & Hrun).
  apply lift_Ok_inv in Hlogin as [-> Hlogin].
  apply bind_Ok_inv in Hrun as (w2 & [[delegate a] b] & Hsel & Hrun).
  apply bind_Ok_inv in Hrun as (w3 & c & Hc & Hrun).
  apply deref_Ok_inv in Hc as [-> ->].
  apply bind_Ok_inv in Hrun as (w4 & [] & Hlog & Hrun).
  inversion Hlog; subst. clear Hlog.
  apply getClientsForServiceAccount_Ok_inv in Hrun as [-> ->].
  apply selectDelegate_Ok_inv in Hsel as (Hpol & Htrace & _ & Hdelegate).
  exists c, login, delegate, a, b, (logs w2).
  split; [done|]. split; [done|]. split; [|done].
  destruct Hdelegate as [[-> _]|[? _]]; [by left|by right].
Qed.

Lemma selection_names_the_audited_account_witness :
  let d := testDeps "true" in
  let c := groupClaims "u" ["my-group"; "other-group"] in
  let s := testGatekeeper SSO (testSSO true (Some c)) false testAccounts
             (testEnforcer [] [] [] []) in
  let profile := tokenProfile {| rest.Username := ""; rest.BearerToken := "" |} in
  let run := rbacAuthorization d s (Some c) "user1-ns" emptyWorld in
  run = (run.1, Ok (profile, Some (setServiceAccountName c "user1-sa")))
  /\ exists login delegate allowed delegated before,
       logs run.1 = (before ++ [auditEntry delegate login c allowed delegated])%list
       /\ corev1.Name delegate = "user1-sa".
Proof.
  intros d c s profile run.
  assert (run = (run.1, Ok (profile, Some (setServiceAccountName c "user1-sa")))) as H
    by (vm_compute; reflexivity).
  split; [exact H|].
  destruct (selection_names_the_audited_account d s _ _ _ _ _ _ H)
    as (c0 & login & delegate & a & b & before & Hc & _ & _ & Hclaims & Hlogs & _).
  exists login, delegate, a, b, before. inversion Hc; subst c0.
  split; [exact Hlogs|]. by inversion Hclaims.
Defined.

(** X19.  The selector makes no call to the policy engine or to the cluster
    resolver, whatever its outcome: after [rbacAuthorization], and after the
    whole choice of the profile, the edges and the sequence of calls are as
    before.  In particular an identity that is refused by the selector
    leaves no grant behind. *)
Theorem selector_never_calls_the_engine (d : Deps) (s : gatekeeper)
    (claims : option types.Claims) (namespace : string) (w : World) :
  policy (rbacAuthorization d s claims namespace w).1 = policy w
  /\ trace (rbacAuthorization d s claims namespace w).1 = trace w
  /\ policy (ssoProfile d s claims namespace w).1 = policy w
  /\ trace (ssoProfile d s claims namespace w).1 = trace w.
Proof.
  destruct (keepsEngine_rbacAuthorization d s claims namespace w) as [H1 H2].
  destruct (keepsEngine_ssoProfile d s claims namespace w) as [H3 H4].
  done.
Qed.

(** X20.  An account without a bound secret cannot serve as delegate: the
    selection is audited, then fails with an error naming the account, and
    the caller of an SSO request receives [PermissionDenied] "not allowed"
    with the failure logged after the audit entry. *)
Theorem delegate_without_secret_is_refused (d : Deps) (s : gatekeeper)
    (ctx : context.Context) (msg : servertypes.Req) (authorization : string)
    (c : types.Claims) (login delegate : corev1.ServiceAccount) (a b : bool)
    (w w1 : World)
    (Hmode : selectMode s (candidateTokens d (context.md ctx)) = Some (SSO, authorization))
    (Hauth : Authorize (ssoIf s) authorization = Ok (Some c))
    (Hrbac : IsRBACEnabled (ssoIf s) = true)
    (Hlogin : getServiceAccount d s (Some c) (ssoNamespace s) = Ok login)
    (Hsel : selectDelegate d s (Some c) (servertypes.Namespace msg) login w
            = (w1, Ok (delegate, a, b)))
    (Hsecrets : corev1.Secrets delegate = []) :
  let cause := ErrorString ("expected at least one secret for SSO RBAC service account: "
                            +:+ corev1.Name delegate) in
  rbacAuthorization d s (Some c) (servertypes.Namespace msg) w
  = (addLog w1 (auditEntry delegate login c a b), Err cause)
  /\ getClients d s ctx (IsReq msg) w
     = (addLog (addLog w1 (auditEntry delegate login c a b)) (rbacFailureEntry cause),
        Err (StatusError PermissionDenied "not allowed")).
Proof.
  intros cause.
  assert (rbacAuthorization d s (Some c) (servertypes.Namespace msg) w
          = (addLog w1 (auditEntry delegate login c a b), Err cause)) as Hrun.
  { unfold rbacAuthorization. unfold bind at 1, lift. rewrite Hlogin.
    unfold bind at 1. rewrite Hsel. unfold deref. rewrite bind_ret_l.
    unfold bind at 1, log. cbn [fst snd].
    unfold getClientsForServiceAccount, bind, lift, authorizationForServiceAccount.
    by rewrite Hsecrets. }
  split; [exact Hrun|].
  rewrite (getClients_resolve _ _ _ _ _ _ _ Hmode).
  rewrite (resolve_SSO_run d s ctx (IsReq msg) authorization msg (Some c) w eq_refl Hauth).
  unfold ssoProfile. rewrite Hrbac.
  unfold bind at 1, on_error. unfold bind at 1. by rewrite Hrun.
Qed.

Lemma delegate_without_secret_is_refused_witness :
  let d := testDeps "" in
  let c := groupClaims "u" ["my-group"] in
  let bare := account "bare-sa" "my-ns" "'my-group' in groups" "3" [] in
  let s := testGatekeeper SSO (testSSO true (Some c)) true (bare :: testAccounts)
             (testEnforcer [] [] [] []) in
  let msg := {| servertypes.Cluster := "primary"; servertypes.Namespace := "my-ns";
                servertypes.Act := "get"; servertypes.Resource := "workflows" |} in
  let ctx := x "Bearer v2:whatever" in
  selectMode s (candidateTokens d (context.md ctx)) = Some (SSO, "Bearer v2:whatever")
  /\ getServiceAccount d s (Some c) (ssoNamespace s) = Ok bare
  /\ selectDelegate d s (Some c) (servertypes.Namespace msg) bare emptyWorld
     = (emptyWorld, Ok (bare, false, false))
  /\ corev1.Secrets bare = []
  /\ (getClients d s ctx (IsReq msg) emptyWorld).2
     = Err (StatusError PermissionDenied "not allowed")
  /\ map log_Message (logs (getClients d s ctx (IsReq msg) emptyWorld).1)
     = ["selected SSO RBAC service account for user";
        "failed to perform RBAC authorization"].
Proof.
  intros d c bare s msg ctx.
  assert (selectMode s (candidateTokens d (context.md ctx)) = Some (SSO, "Bearer v2:whatever"))
    as H1 by (vm_compute; reflexivity).
  assert (getServiceAccount d s (Some c) (ssoNamespace s) = Ok bare) as H2
    by (vm_compute; reflexivity).
  assert (selectDelegate d s (Some c) (servertypes.Namespace msg) bare emptyWorld
          = (emptyWorld, Ok (bare, false, false))) as H3 by (vm_compute; reflexivity).
  split; [exact H1|]. split; [exact H2|]. split; [exact H3|]. split; [reflexivity|].
  destruct (delegate_without_secret_is_refused d s ctx msg "Bearer v2:whatever" c bare bare
              false false emptyWorld emptyWorld H1 eq_refl eq_refl H2 H3 eq_refl)
    as [_ Hget].
  rewrite Hget. split; reflexivity.
Defined.

(** ** What each mode writes *)

Lemma keepsWorld_keepsStore {A} (m : M A) : keepsWorld m -> keepsStore m.
Proof. intros H w. by rewrite H. Qed.

Lemma keepsStore_bind {A B} (m : M A) (f : A -> M B) :
  keepsStore m -> (forall a, keepsStore (f a)) -> keepsStore (bind m f).
Proof.
  intros Hm Hf w. unfold bind. destruct (Hm w) as [Hp Hl].
  destruct (m w) as [w1 [a|e|p]]; simpl in *; [|done..].
  destruct (Hf a w1) as [Hp' Hl']. by rewrite Hp', Hl'.
Qed.

Lemma keepsStore_allowed (d : Deps) (s : gatekeeper) (obj act sub : string) :
  keepsStore (allowed d s obj act sub).
Proof.
  intros w. unfold allowed, bind, Enforce.
  by destruct (enf_Enforce (enforcer s) (policy w) sub obj act) as [[] [e|]].
Qed.

Lemma keepsStore_Find (p : servertypes.Profiles) (cluster : string) :
  keepsStore (Find p cluster).
Proof. intros w. unfold Find, bind, emit. by destruct (p !! cluster). Qed.

(** X21.  In Server mode the gatekeeper reads the policy engine and never writes
    to it, and it writes no log entry, on any outcome. *)
Theorem server_mode_keeps_policy_and_log (d : Deps) (s : gatekeeper)
    (ctx : context.Context) (req : request) (authorization : string) (w : World)
    (Hmode : selectMode s (candidateTokens d (context.md ctx)) = Some (Server, authorization)) :
  policy (getClients d s ctx req w).1 = policy w
  /\ logs (getClients d s ctx req w).1 = logs w.
Proof.
  rewrite (getClients_resolve _ _ _ _ _ _ _ Hmode). unfold resolve.
  apply keepsStore_bind; [apply keepsWorld_keepsStore, keepsWorld_requestDescriptor|].
  intros msg.
  apply keepsStore_bind; [apply keepsWorld_keepsStore, keepsWorld_deref|]. intros primary.
  apply keepsStore_bind; [apply keepsStore_allowed|]. intros _.
  apply keepsStore_bind; [apply keepsStore_Find|]. intros p.
  apply keepsWorld_keepsStore, keepsWorld_ret.
Qed.

Lemma server_mode_keeps_policy_and_log_witness :
  let d := testDeps "" in
  let s := testGatekeeper Server (testSSO false None) true testAccounts
             (testEnforcer ["serviceaccount:primary:my-ns:argo-server"] [] [] []) in
  let w := {| policy := {[ ("user:primary:u", "group:primary:admins") ]};
              logs := []; trace := [] |} in
  selectMode s (candidateTokens d (context.md (x ""))) = Some (Server, "")
  /\ is_Ok (getClients d s (x "") (reqHolder "my-ns") w).2 = true
  /\ policy (getClients d s (x "") (reqHolder "my-ns") w).1 = policy w.
Proof.
  intros d s w.
  assert (selectMode s (candidateTokens d (context.md (x ""))) = Some (Server, "")) as H
    by (vm_compute; reflexivity).
  split; [exact H|]. split; [vm_compute; reflexivity|].
  exact (proj1 (server_mode_keeps_policy_and_log d s (x "") (reqHolder "my-ns") "" w H)).
Defined.

Lemma ssoProfile_Ok_inv (d : Deps) (s : gatekeeper) (claims : option types.Claims)
    (namespace : string) (w w1 : World)
    (cc : option servertypes.Clients * option types.Claims) :
  ssoProfile d s claims namespace w = (w1, Ok cc) ->
  exists c c', claims = Some c /\ cc.2 = Some c'
               /\ types.Subject c' = types.Subject c
               /\ types.Groups c' = types.Groups c.
Proof.
  unfold ssoProfile. destruct (IsRBACEnabled (ssoIf s)).
  - intros H. apply on_error_Ok_inv in H.
    2: { intros e w2 w3 b0. unfold bind, log, fail. discriminate. }
    apply bind_Ok_inv in H as (w2 & [profile claims'] & Hrun & H).
    inversion H; subst. clear H. unfold rbacAuthorization in Hrun.
    apply bind_Ok_inv in Hrun as (w3 & login & _ & Hrun).
    apply bind_Ok_inv in Hrun as (w4 & [[delegate a] b] & _ & Hrun).
    apply bind_Ok_inv in Hrun as (w5 & c & Hc & Hrun).
    apply deref_Ok_inv in Hc as [-> ->].
    apply bind_Ok_inv in Hrun as (w6 & [] & _ & Hrun).
    apply getClientsForServiceAccount_Ok_inv in Hrun as [_ ->].
    by exists c, (setServiceAccountName c (corev1.Name delegate)).
  - intros H. apply bind_Ok_inv in H as (w2 & c & Hc & H).
    apply deref_Ok_inv in Hc as [-> ->].
    apply bind_Ok_inv in H as (w3 & [] & _ & H). inversion H; subst.
    by exists c, c.
Qed.

(** X13.  In SSO mode, whatever the selector, the policy engine and the cluster
    resolver answer, the only edges of the policy engine that the
    resolution can change are those from the subject of the identity to the
    groups of its claims: every other edge is after the call what it was
    before. *)
Theorem sso_resolution_touches_only_own_grants (d : Deps) (s : gatekeeper)
    (ctx : context.Context) (msg : servertypes.Req) (authorization : string)
    (c : types.Claims) (w : World)
    (Hmode : selectMode s (candidateTokens d (context.md ctx)) = Some (SSO, authorization))
    (Hauth : Authorize (ssoIf s) authorization = Ok (Some c)) :
  let edges := groupEdges (servertypes.Cluster msg) (userSubject d c) (types.Groups c) in
  let w' := (getClients d s ctx (IsReq msg) w).1 in
  policy w ∖ edges ⊆ policy w' /\ policy w' ⊆ policy w ∪ edges.
Proof.
  intros edges w'.
  assert (w' = (getClients d s ctx (IsReq msg) w).1) as Hw by reflexivity.
  clearbody w'. revert Hw.
  rewrite (getClients_resolve _ _ _ _ _ _ _ Hmode).
  rewrite (resolve_SSO_run d s ctx (IsReq msg) authorization msg (Some c) w eq_refl Hauth).
  destruct (keepsEngine_ssoProfile d s (Some c) (servertypes.Namespace msg) w) as [Hpol _].
  unfold bind at 1.
  destruct (ssoProfile d s (Some c) (servertypes.Namespace msg) w) as [w1 [cc|e|p]] eqn:Hp;
    cbn [fst snd] in *; [|intros ->; rewrite Hpol; set_solver..].
  apply ssoProfile_Ok_inv in Hp as (c0 & c' & Hc0 & Hcc & Hsub & Hgroups).
  inversion Hc0; subst c0. rewrite Hcc. intros ->.
  pose proof (enforceWithGrants_frame d s cc.1 c' msg w1) as Hframe.
  cbv zeta in Hframe. unfold userSubject in Hframe. rewrite Hsub, Hgroups, Hpol in Hframe.
  exact Hframe.
Qed.

Lemma sso_resolution_touches_only_own_grants_witness :
  let d := testDeps "" in
  let c := groupClaims "u" ["my-group"; "other-group"] in
  let s := testGatekeeper SSO (testSSO true (Some c)) true testAccounts
             (testEnforcer [] [] ["group:primary:other-group"] []) in
  let msg := {| servertypes.Cluster := "primary"; servertypes.Namespace := "my-ns";
                servertypes.Act := "get"; servertypes.Resource := "workflows" |} in
  let w := {| policy := {[ ("user:primary:v", "group:primary:my-group") ]};
              logs := []; trace := [] |} in
  selectMode s (candidateTokens d (context.md (x "Bearer v2:whatever")))
  = Some (SSO, "Bearer v2:whatever")
  /\ Authorize (ssoIf s) "Bearer v2:whatever" = Ok (Some c)
  /\ ("user:primary:v", "group:primary:my-group")
     ∈ policy (getClients d s (x "Bearer v2:whatever") (IsReq msg) w).1.
Proof.
  intros d c s msg w.
  assert (selectMode s (candidateTokens d (context.md (x "Bearer v2:whatever")))
          = Some (SSO, "Bearer v2:whatever")) as H by (vm_compute; reflexivity).
  split; [exact H|]. split; [reflexivity|].
  destruct (sso_resolution_touches_only_own_grants d s (x "Bearer v2:whatever") msg
              "Bearer v2:whatever" c w H eq_refl) as [Hkeep _].
  apply Hkeep. apply (bool_decide_unpack _). vm_compute. exact I.
Defined.

(** X22.  With RBAC disabled, an SSO identity is served without any selection:
    the claims come back as the identity authorizer gave them (the
    service-account name is not touched), the profile for the primary
    cluster is the primary one, one entry naming the subject (and the
    email, if any) is logged, and the decision is that of the policy engine
    over its edges and the identity's group edges. *)
Theorem sso_without_rbac_serves_with_primary (d : Deps) (s : gatekeeper)
    (ctx : context.Context) (msg : servertypes.Req) (authorization : string)
    (c : types.Claims) (w : World)
    (Hmode : selectMode s (candidateTokens d (context.md ctx)) = Some (SSO, authorization))
    (Hauth : Authorize (ssoIf s) authorization = Ok (Some c))
    (Hrbac : IsRBACEnabled (ssoIf s) = false)
    (Hadd : Forall (fun g => enf_AddError (enforcer s) (userSubject d c)
                               (groupName (servertypes.Cluster msg) g) = None)
              (types.Groups c))
    (Hremove : Forall (fun g => enf_RemoveError (enforcer s) (userSubject d c)
                                  (groupName (servertypes.Cluster msg) g) = None)
                 (types.Groups c)) :
  let edges := groupEdges (servertypes.Cluster msg) (userSubject d c) (types.Groups c) in
  let decision := enf_Enforce (enforcer s) (edges ∪ policy w) (userSubject d c)
                    (objectOf msg) (servertypes.Act msg) in
  exists w',
    getClients d s ctx (IsReq msg) w
    = (w', decisionOutcome d s (Primary d (clients s)) c msg decision)
    /\ policy w' = policy w ∖ edges
    /\ logs w' = (logs w ++ [defaultAccountEntry c])%list.
Proof.
  intros edges decision.
  rewrite (getClients_resolve _ _ _ _ _ _ _ Hmode).
  rewrite (resolve_SSO_run d s ctx (IsReq msg) authorization msg (Some c) w eq_refl Hauth).
  assert (ssoProfile d s (Some c) (servertypes.Namespace msg) w
          = (addLog w (defaultAccountEntry c), Ok (Primary d (clients s), Some c))) as Hp.
  { unfold ssoProfile. by rewrite Hrbac. }
  rewrite (bind_run _ _ _ _ _ Hp). cbn [fst snd].
  destruct (enforceWithGrants_cooperative d s (Primary d (clients s)) c msg
              (addLog w (defaultAccountEntry c)) Hadd Hremove)
    as (w' & resolved & Hrun & Hpol & _ & Hlogs & _).
  exists w'. split; [exact Hrun|]. split; [exact Hpol|exact Hlogs].
Qed.

Lemma sso_without_rbac_serves_with_primary_witness :
  let d := testDeps "" in
  let c := {| types.Subject := "my-sub"; types.Email := ""; types.Groups := ["my-group"];
              types.ServiceAccountName := "" |} in
  let s := testGatekeeper SSO (testSSO false (Some c)) true testAccounts
             (testEnforcer [] ["group:primary:my-group"] [] []) in
  let msg := {| servertypes.Cluster := "primary"; servertypes.Namespace := "my-ns";
                servertypes.Act := "get"; servertypes.Resource := "workflows" |} in
  let ctx := x "Bearer v2:whatever" in
  selectMode s (candidateTokens d (context.md ctx)) = Some (SSO, "Bearer v2:whatever")
  /\ Forall (fun g => enf_AddError (enforcer s) (userSubject d c)
                        (groupName (servertypes.Cluster msg) g) = None) (types.Groups c)
  /\ Forall (fun g => enf_RemoveError (enforcer s) (userSubject d c)
                        (groupName (servertypes.Cluster msg) g) = None) (types.Groups c)
  /\ (getClients d s ctx (IsReq msg) emptyWorld).2 = Ok (Some primaryClients, Some c).
Proof.
  intros d c s msg ctx.
  assert (selectMode s (candidateTokens d (context.md ctx)) = Some (SSO, "Bearer v2:whatever"))
    as H1 by (vm_compute; reflexivity).
  assert (Forall (fun g => enf_AddError (enforcer s) (userSubject d c)
                             (groupName (servertypes.Cluster msg) g) = None)
            (types.Groups c)) as H2 by (repeat constructor).
  assert (Forall (fun g => enf_RemoveError (enforcer s) (userSubject d c)
                             (groupName (servertypes.Cluster msg) g) = None)
            (types.Groups c)) as H3 by (repeat constructor).
  split; [exact H1|]. split; [exact H2|]. split; [exact H3|].
  destruct (sso_without_rbac_serves_with_primary d s ctx msg "Bearer v2:whatever" c
              emptyWorld H1 eq_refl eq_refl H2 H3) as (w' & Hrun & _).
  rewrite Hrun. vm_compute. reflexivity.
Defined.
